(** * Semantic view generator for dbt models: a shallow embedding

    The development follows [scripts/generate_semantic_view.py].  Text is
    modelled as [string] over 8-bit characters; only the ASCII range carries
    case and white-space information, which is what the script's lexical
    steps look at.  On ASCII text ([PyStr.isascii]) the text primitives and
    the pattern matcher are those of Python; beyond it Python's case
    mapping, its case-insensitive matching and its white space know
    characters that are not modelled here.  The output directory is a
    finite map from file names to file contents.  Python exceptions are
    values of an error type. *)

From Stdlib Require Import Ascii NArith Bool Lia SpecFloat.
From stdpp Require Import base option list strings gmap fin_maps pretty.

Local Open Scope N_scope.

(** ** Python [str] primitives used by the script *)

Module PyStr.

Definition code (c : ascii) : N := N_of_ascii c.

Definition between (lo hi : N) (c : ascii) : bool :=
  (lo <=? code c) && (code c <=? hi).

Definition is_upper : ascii -> bool := between 65 90.
Definition is_lower : ascii -> bool := between 97 122.
Definition isdigit : ascii -> bool := between 48 57.

(** [str.isspace] on one character: TAB, LF, VT, FF, CR, the four
    separators FS..US and the blank. *)
Definition isspace (c : ascii) : bool := between 9 13 c || between 28 32 c.

Definition lower_char (c : ascii) : ascii :=
  if is_upper c then ascii_of_N (code c + 32) else c.

Definition upper_char (c : ascii) : ascii :=
  if is_lower c then ascii_of_N (code c - 32) else c.

Fixpoint smap (f : ascii -> ascii) (s : string) : string :=
  match s with
  | EmptyString => EmptyString
  | String c s' => String (f c) (smap f s')
  end.

(** [s.lower()] and [s.upper()] *)
Definition lower : string -> string := smap lower_char.
Definition upper : string -> string := smap upper_char.

Fixpoint forallb_str (p : ascii -> bool) (s : string) : bool :=
  match s with
  | EmptyString => true
  | String c s' => p c && forallb_str p s'
  end.

Definition is_empty (s : string) : bool :=
  match s with EmptyString => true | _ => false end.

(** [s.isascii()] *)
Definition isascii (s : string) : bool := forallb_str (fun c => code c <? 128) s.

Fixpoint lstrip (s : string) : string :=
  match s with
  | EmptyString => EmptyString
  | String c s' => if isspace c then lstrip s' else s
  end.

Fixpoint rstrip (s : string) : string :=
  match s with
  | EmptyString => EmptyString
  | String c s' =>
      let r := rstrip s' in
      if isspace c && is_empty r then EmptyString else String c r
  end.

(** [s.strip()] *)
Definition strip (s : string) : string := rstrip (lstrip s).

(** [s.startswith(p)] *)
Fixpoint startswith (p s : string) : bool :=
  match p, s with
  | EmptyString, _ => true
  | String a p', String b s' => bool_decide (a = b) && startswith p' s'
  | String _ _, EmptyString => false
  end.

(** [sub in s] *)
Fixpoint contains (sub s : string) : bool :=
  startswith sub s ||
  match s with
  | EmptyString => false
  | String _ s' => contains sub s'
  end.

(** [s.split(sep)] for a non-empty separator: left-to-right, occurrences
    do not overlap.  [skip] counts the separator characters still to be
    passed over, [cur] is the piece being collected. *)
Fixpoint split_go (sep s : string) (skip : nat) (cur : string) : list string :=
  match s with
  | EmptyString => [cur]
  | String c s' =>
      match skip with
      | S k => split_go sep s' k cur
      | O =>
          if startswith sep s
          then cur :: split_go sep s' (String.length sep - 1) EmptyString
          else split_go sep s' O (cur +:+ String c EmptyString)
      end
  end.

Definition split (sep s : string) : list string := split_go sep s O EmptyString.

(** [l[-1]] of a list that [split] returned (never empty) *)
Definition last_str (l : list string) : string := List.last l EmptyString.

(** [s.replace(c, '')] for a one-character [c] *)
Fixpoint remove_char (c : ascii) (s : string) : string :=
  match s with
  | EmptyString => EmptyString
  | String a s' =>
      if bool_decide (a = c) then remove_char c s' else String a (remove_char c s')
  end.

(** [sep.join(l)] *)
Fixpoint join (sep : string) (l : list string) : string :=
  match l with
  | [] => EmptyString
  | [x] => x
  | x :: rest => x +:+ sep +:+ join sep rest
  end.

(** [int(s)] on a run of decimal digits *)
Definition digit_val (c : ascii) : N := code c - 48.

Fixpoint int_go (acc : N) (s : string) : N :=
  match s with
  | EmptyString => acc
  | String c s' => int_go (10 * acc + digit_val c) s'
  end.

Definition int_of_digits (s : string) : N := int_go 0 s.

End PyStr.

(** ** The fragment of Python's [re] the script uses

    A backtracking matcher in continuation-passing style.  Alternatives are
    tried in the order the [re] module tries them: a greedy quantifier takes
    the longest run first and gives characters back, a lazy one starts empty
    and grows.  Quantifiers range over character classes, which is all the
    two patterns of the script need. *)

Module Re.

Inductive cls : Type :=
| CSpace    (* \s *)
| CDigit    (* \d *)
| CAny.     (* .  under DOTALL *)

Inductive regex : Type :=
| RStr (p : string)          (* literal text *)
| RSeq (r1 r2 : regex)
| RAlt (r1 r2 : regex)       (* r1|r2 *)
| RPlus (k : cls)            (* k+   greedy *)
| RLazy (k : cls)            (* k*?  lazy *)
| RGroup (r : regex)         (* (r)  capturing *)
| REnd.                      (* $    without MULTILINE *)

Definition in_cls (k : cls) (c : ascii) : bool :=
  match k with
  | CSpace => PyStr.isspace c
  | CDigit => PyStr.isdigit c
  | CAny => true
  end.

(** [$]: at the end of the text, or just before a final line feed *)
Definition at_end (s : string) : bool :=
  match s with
  | EmptyString => true
  | String c EmptyString => bool_decide (c = "010"%char)
  | _ => false
  end.

(** A finished match: the captured groups and the unread text. *)
Definition result : Type := list string * string.

Section Matcher.
Variable icase : bool.       (* re.IGNORECASE *)

(** equality of two characters; under [re.IGNORECASE] up to the case of
    ASCII letters, which is Python's comparison on ASCII text (beyond it
    Python also takes a few letters, the long s for one, for an ASCII
    letter) *)
Definition chr_eq (a b : ascii) : bool :=
  if icase
  then bool_decide (PyStr.lower_char a = PyStr.lower_char b)
  else bool_decide (a = b).

Fixpoint lit (p s : string) : option string :=
  match p, s with
  | EmptyString, _ => Some s
  | String a p', String b s' => if chr_eq a b then lit p' s' else None
  | String _ _, EmptyString => None
  end.

Fixpoint star_greedy (k : cls) (s : string)
         (cont : string -> option result) : option result :=
  match s with
  | String c s' =>
      if in_cls k c
      then match star_greedy k s' cont with
           | Some r => Some r
           | None => cont s
           end
      else cont s
  | EmptyString => cont s
  end.

Definition plus_greedy (k : cls) (s : string)
           (cont : string -> option result) : option result :=
  match s with
  | String c s' => if in_cls k c then star_greedy k s' cont else None
  | EmptyString => None
  end.

Fixpoint star_lazy (k : cls) (s : string)
         (cont : string -> option result) : option result :=
  match cont s with
  | Some r => Some r
  | None =>
      match s with
      | String c s' => if in_cls k c then star_lazy k s' cont else None
      | EmptyString => None
      end
  end.

(** the text a group consumed between [s] and the suffix [s'] *)
Definition consumed (s s' : string) : string :=
  String.substring 0 (String.length s - String.length s') s.

Fixpoint run (r : regex) (s : string) (caps : list string)
         (cont : string -> list string -> option result) : option result :=
  match r with
  | RStr p =>
      match lit p s with
      | Some s' => cont s' caps
      | None => None
      end
  | RSeq r1 r2 => run r1 s caps (fun s' caps' => run r2 s' caps' cont)
  | RAlt r1 r2 =>
      match run r1 s caps cont with
      | Some x => Some x
      | None => run r2 s caps cont
      end
  | RPlus k => plus_greedy k s (fun s' => cont s' caps)
  | RLazy k => star_lazy k s (fun s' => cont s' caps)
  | RGroup r1 =>
      run r1 s caps (fun s' caps' => cont s' (caps' ++ [consumed s s']))
  | REnd => if at_end s then cont s caps else None
  end.

(** [pattern.match] anchored at the head of [s] *)
Definition match_here (r : regex) (s : string) : option result :=
  run r s [] (fun s' caps => Some (caps, s')).

(** [re.search]: the leftmost position with a match *)
Fixpoint search (r : regex) (s : string) : option result :=
  match match_here r s with
  | Some x => Some x
  | None =>
      match s with
      | String _ s' => search r s'
      | EmptyString => None
      end
  end.

Definition group1 (x : result) : string := List.hd EmptyString (fst x).

(** [re.findall] for a pattern with one group: the group of every
    match, scanning left to right and resuming where the previous match
    stopped.  [skip] is the number of characters of the previous match
    still to be passed over. *)
Fixpoint findall_go (r : regex) (s : string) (skip : nat) : list string :=
  match skip, s with
  | S k, String _ s' => findall_go r s' k
  | S _, EmptyString => []
  | O, _ =>
      match match_here r s with
      | Some x =>
          group1 x ::
          match s with
          | String _ s' =>
              findall_go r s' (String.length s - String.length (snd x) - 1)
          | EmptyString => []
          end
      | None =>
          match s with
          | String _ s' => findall_go r s' O
          | EmptyString => []
          end
      end
  end.

Definition findall (r : regex) (s : string) : list string := findall_go r s O.

End Matcher.

Declare Scope re_scope.
Delimit Scope re_scope with re.
Infix ">>" := RSeq (at level 62, right associativity) : re_scope.

End Re.

(** ** Model parser: [parse_sql_file] *)

Import Re.

(** [r'select\s+(.*?)\s+from\s+.*?(?:left\s+join|inner\s+join|$)'] *)
Definition select_pattern : regex :=
  (RStr "select" >> RPlus CSpace >> RGroup (RLazy CAny) >> RPlus CSpace >>
   RStr "from" >> RPlus CSpace >> RLazy CAny >>
   RAlt (RStr "left" >> RPlus CSpace >> RStr "join")
        (RAlt (RStr "inner" >> RPlus CSpace >> RStr "join") REnd))%re.

(** The body of the [for line in final_select.split(',')] loop: the column
    name one projection item contributes, if any. *)
Definition column_of_item (item : string) : option string :=
  let line := PyStr.strip item in
  let col_name :=
    if PyStr.contains " as " (PyStr.lower line)
    then PyStr.strip (PyStr.last_str (PyStr.split " as " (PyStr.lower line)))
    else PyStr.strip (PyStr.last_str (PyStr.split "." line)) in
  let col_name := PyStr.remove_char "'"%char (PyStr.remove_char "034"%char col_name) in
  if negb (PyStr.is_empty col_name) && negb (PyStr.startswith "--" col_name)
  then Some col_name
  else None.

Definition columns_of_select (final_select : string) : list string :=
  omap column_of_item (PyStr.split "," final_select).

(** [parse_sql_file], as a function of the text read from the file: the
    column list and the text itself. *)
Definition parse_sql_file (content : string) : list string * string :=
  let matches := findall true select_pattern content in
  let columns :=
    match matches with
    | [] => []
    | _ => columns_of_select (List.last matches EmptyString)
    end in
  (columns, content).

(** ** Exceptions *)

Inductive py_error : Type := KeyError | TypeError | AttributeError.

Inductive res (A : Type) : Type :=
| Ok (a : A)
| Raise (e : py_error).
Arguments Ok {A} a.
Arguments Raise {A} e.

#[global] Instance res_ret : MRet res := fun A a => Ok a.
#[global] Instance res_bind : MBind res := fun A B f m =>
  match m with
  | Ok a => f a
  | Raise e => Raise e
  end.

(** A [for] loop that updates an accumulator and stops at the first
    exception. *)
Fixpoint foldM {A B : Type} (f : B -> A -> res B) (acc : B) (l : list A) : res B :=
  match l with
  | [] => Ok acc
  | x :: l' => acc' ← f acc x; foldM f acc' l'
  end.

(** ** Metadata loader: [parse_model_yml] *)

(** What [yaml.safe_load] returns: the document as nested Python values.
    A mapping is listed in insertion order.  Floats and timestamps are left
    out. *)
#[local] Set Warnings "-register-all".
Inductive yaml : Type :=
| YNull
| YBool (b : bool)
| YInt (z : Z)
| YStr (s : string)
| YSeq (l : list yaml)
| YMap (m : list (yaml * yaml)).

Module Py.

(** truth value of an object, as [if x] and [x and y] take it *)
Definition truthy (v : yaml) : bool :=
  match v with
  | YNull => false
  | YBool b => b
  | YInt z => negb (Z.eqb z 0)
  | YStr s => negb (PyStr.is_empty s)
  | YSeq l => match l with [] => false | _ => true end
  | YMap m => match m with [] => false | _ => true end
  end.

Definition is_str (k : string) (v : yaml) : bool :=
  match v with
  | YStr s => String.eqb s k
  | _ => false
  end.

Fixpoint chars (s : string) : list yaml :=
  match s with
  | EmptyString => []
  | String c s' => YStr (String c EmptyString) :: chars s'
  end.

(** [k in v] for a string [k] *)
Definition contains (k : string) (v : yaml) : res bool :=
  match v with
  | YMap m => Ok (existsb (fun kv => is_str k (fst kv)) m)
  | YSeq l => Ok (existsb (is_str k) l)
  | YStr s => Ok (PyStr.contains k s)
  | YNull | YBool _ | YInt _ => Raise TypeError
  end.

Definition lookup_key (k : string) (m : list (yaml * yaml)) : option yaml :=
  snd <$> List.find (fun kv => is_str k (fst kv)) m.

(** [v[k]] for a string [k] *)
Definition getitem (k : string) (v : yaml) : res yaml :=
  match v with
  | YMap m =>
      match lookup_key k m with
      | Some x => Ok x
      | None => Raise KeyError
      end
  | _ => Raise TypeError
  end.

(** [for x in v] *)
Definition iter (v : yaml) : res (list yaml) :=
  match v with
  | YSeq l => Ok l
  | YMap m => Ok (fst <$> m)
  | YStr s => Ok (chars s)
  | YNull | YBool _ | YInt _ => Raise TypeError
  end.

(** [v.get(k, default)]: only a mapping has the method *)
Definition get (k : string) (dflt : yaml) (v : yaml) : res yaml :=
  match v with
  | YMap m => Ok (default dflt (lookup_key k m))
  | _ => Raise AttributeError
  end.

(** [v.lower()]: only a string has the method *)
Definition lower (v : yaml) : res string :=
  match v with
  | YStr s => Ok (PyStr.lower s)
  | _ => Raise AttributeError
  end.

End Py.

(** the innermost loop body: one entry of a model's [columns] *)
Definition add_column (column_descriptions : gmap string yaml) (column : yaml)
  : res (gmap string yaml) :=
  name ← Py.get "name" (YStr "") column;
  col_name ← Py.lower name;
  description ← Py.get "description" (YStr "") column;
  mret (if negb (PyStr.is_empty col_name) && Py.truthy description
        then <[col_name := description]> column_descriptions
        else column_descriptions).

(** the outer loop body: one entry of [config['models']] *)
Definition add_model (column_descriptions : gmap string yaml) (model : yaml)
  : res (gmap string yaml) :=
  has_columns ← Py.contains "columns" model;
  if (has_columns : bool)
  then cols ← Py.getitem "columns" model;
       items ← Py.iter cols;
       foldM add_column column_descriptions items
  else mret column_descriptions.

(** [parse_model_yml]: [sidecar] is [None] when [yml_path] does not exist,
    and otherwise the document [yaml.safe_load] read from it. *)
Definition parse_model_yml (sidecar : option yaml) : res (gmap string yaml) :=
  match sidecar with
  | None => mret ∅
  | Some config =>
      if Py.truthy config
      then has_models ← Py.contains "models" config;
           if (has_models : bool)
           then models ← Py.getitem "models" config;
                items ← Py.iter models;
                foldM add_model ∅ items
           else mret ∅
      else mret ∅
  end.

(** ** View generator: [generate_semantic_view_sql] *)

(** The object the classifier's JSON decodes to, typed to the shape the
    prompt asks for.  Every key may be absent.  The per-column mapping is
    listed in insertion order, which is the order [items()] yields. *)
Record column_info : Type := ColumnInfo {
  info_type : option string;      (* info['type'] *)
  info_comment : option string    (* info['comment'] *)
}.

Record classification : Type := Classification {
  primary_keys : option (list string);
  columns : option (list (string * column_info))
}.

(** [[(col, info) for col, info in columns_info.items() if info['type'] == ty]];
    [info['type']] raises [KeyError] on an entry without the key. *)
Fixpoint select_type (ty : string) (items : list (string * column_info))
  : res (list (string * column_info)) :=
  match items with
  | [] => Ok []
  | (col, info) :: rest =>
      match info_type info with
      | None => Raise KeyError
      | Some t =>
          rest' ← select_type ty rest;
          mret (if String.eqb t ty then (col, info) :: rest' else rest')
      end
  end.

Definition column_ref (col : string) : string :=
  "  model." +:+ PyStr.upper col +:+ " AS " +:+ PyStr.upper col.

Definition comment_line (comment comma : string) : string :=
  "    COMMENT = '" +:+ comment +:+ "'" +:+ comma.

(** [',' if i < len(l) - 1 else ''] *)
Definition comma_at (i n : nat) : string :=
  if (i <? n - 1)%nat then "," else "".

(** the [for i, (col, info) in enumerate(facts)] loop; [n] is [len(facts)] *)
Fixpoint fact_lines (n i : nat) (facts : list (string * column_info)) : list string :=
  match facts with
  | [] => []
  | (col, info) :: rest =>
      let comment := default "" (info_comment info) in
      column_ref col :: comment_line comment (comma_at i n)
      :: fact_lines n (S i) rest
  end.

(** the [for i, (col, info) in enumerate(dimensions)] loop *)
Fixpoint dimension_lines (n i : nat) (dims : list (string * column_info)) : list string :=
  match dims with
  | [] => []
  | (col, info) :: rest =>
      let comment := default "" (info_comment info) in
      (if PyStr.is_empty comment
       then [column_ref col +:+ comma_at i n]
       else [column_ref col; comment_line comment (comma_at i n)])
      ++ dimension_lines n (S i) rest
  end.

Definition config_block : list string :=
  ["{{ config("; "  materialized = 'semantic_view',"; "  copy_grants = true";
   ") }}"; ""].

Definition pk_line (pk_str : string) : string :=
  "    PRIMARY KEY (" +:+ pk_str +:+ ")".

(** [f"  model AS {{{{ ref('{ref_model_name}') }}}}"] *)
Definition model_line (ref_model_name : string) : string :=
  "  model AS {{ ref('" +:+ ref_model_name +:+ "') }}".

Definition tables_block (ref_model_name : string) (pks : list string) : list string :=
  let pk_str := PyStr.join ", " (PyStr.upper <$> pks) in
  ["TABLES ("; model_line ref_model_name]
  ++ (if PyStr.is_empty pk_str then [] else [pk_line pk_str])
  ++ [")"; ""].

Definition facts_block (facts : list (string * column_info)) : list string :=
  match facts with
  | [] => []
  | _ => ["FACTS ("] ++ fact_lines (length facts) 0 facts ++ [")"; ""]
  end.

Definition dimensions_block (dims : list (string * column_info)) : list string :=
  match dims with
  | [] => []
  | _ => ["DIMENSIONS ("] ++ dimension_lines (length dims) 0 dims ++ [")"]
  end.

Definition overall_comment (model_name : string) : string :=
  "COMMENT = 'Semantic view for " +:+ model_name
  +:+ " model. Enables natural language queries via Cortex Analyst'".

(** the list [sql_parts] when the function reaches its [return] *)
Definition sql_parts (model_name : string) (c : classification)
           (ref_model_name : string) : res (list string) :=
  let pks := default [] (primary_keys c) in
  let columns_info := default [] (columns c) in
  facts ← select_type "FACT" columns_info;
  dimensions ← select_type "DIMENSION" columns_info;
  mret (config_block ++ tables_block ref_model_name pks
        ++ facts_block facts ++ dimensions_block dimensions
        ++ [overall_comment model_name]).

Definition generate_semantic_view_sql (model_name : string) (c : classification)
           (ref_model_name : string) : res string :=
  parts ← sql_parts model_name c ref_model_name;
  mret (PyStr.join (String "010" "") parts).

(** ** Version resolver and writer *)

(** Matching of one path component against a [glob] pattern: [*] stands for
    any run of characters, [?] for one character, everything else for
    itself.  Bracket classes are not interpreted. *)
Fixpoint fnmatch (pat : string) : string -> bool :=
  match pat with
  | EmptyString => PyStr.is_empty
  | String p pat' =>
      if bool_decide (p = "*"%char)
      then fix star (name : string) : bool :=
             fnmatch pat' name ||
             match name with
             | String _ name' => star name'
             | EmptyString => false
             end
      else fun name =>
             match name with
             | String c name' =>
                 (bool_decide (p = "?"%char) || bool_decide (p = c))
                 && fnmatch pat' name'
             | EmptyString => false
             end
  end.

(** The output directory: the regular files in it, by name, with the text
    [read()] returns for each. *)
Abbreviation directory := (gmap string string).

(** [models_dir.glob(pattern)], as file names *)
Definition glob (pattern : string) (fs : directory) : list string :=
  List.filter (fnmatch pattern) (fst <$> map_to_list fs).

(** [r'_v(\d+)\.sql$'] *)
Definition version_pattern : regex :=
  (RStr "_v" >> RGroup (RPlus CDigit) >> RStr ".sql" >> REnd)%re.

(** the loop body of [get_next_version]: the version one file stands for *)
Definition file_version (name : string) : N :=
  match search false version_pattern name with
  | Some m => PyStr.int_of_digits (group1 m)
  | None => 1
  end.

(** [max(l)] *)
Definition max_list (l : list N) : N := foldr N.max 0 l.

Definition get_next_version (models_dir : directory) (base_name : string) : N :=
  let pattern := base_name +:+ "_semantic_view*.sql" in
  let existing_files := glob pattern models_dir in
  match existing_files with
  | [] => 1
  | _ =>
      let versions := file_version <$> existing_files in
      match versions with
      | [] => 1
      | _ => max_list versions + 1
      end
  end.

(** What the writer does to the outside world, in order. *)
Inductive event : Type :=
| EvRead (file : string)                     (* open(.., 'r') and read() *)
| EvWrite (file : string) (content : string) (* open(.., 'w') and write() *)
| EvPrint (line : string).

Definition output_file_name (model_name : string) (version : N) : string :=
  if version =? 1
  then model_name +:+ "_semantic_view.sql"
  else model_name +:+ "_semantic_view_v" +:+ pretty version +:+ ".sql".

(** The last step of [process_semantic_directory] for one model, from
    [version = get_next_version(output_dir, model_name)] to the end of the
    loop body: the directory afterwards and the events, oldest first. *)
Definition write_semantic_view (output_dir : directory) (model_name : string)
           (semantic_view_sql : string) : directory * list event :=
  let version := get_next_version output_dir model_name in
  let output_file := output_file_name model_name version in
  let '(needs_update, seen) :=
    if 1 <? version then (true, [])
    else match output_dir !! output_file with
         | Some existing_content =>
             if String.eqb (PyStr.strip existing_content) (PyStr.strip semantic_view_sql)
             then (false, [EvRead output_file;
                           EvPrint "    Semantic view already up to date"])
             else (true, [EvRead output_file])
         | None => (true, [])
         end in
  if (needs_update : bool)
  then (<[output_file := semantic_view_sql]> output_dir,
        seen ++ [EvWrite output_file semantic_view_sql;
                 EvPrint ("    Generated " +:+ output_file)])
  else (output_dir, seen).

(** ** Vocabulary of the properties *)

(** a text without lower-case (resp. upper-case) letters *)
Definition no_lower (s : string) : bool :=
  PyStr.forallb_str (fun c => negb (PyStr.is_lower c)) s.
Definition no_upper (s : string) : bool :=
  PyStr.forallb_str (fun c => negb (PyStr.is_upper c)) s.

(** the entry [ci] of the per-column mapping carries the category [ty] *)
Definition typed_as (ty : string) (ci : string * column_info) : bool :=
  bool_decide (info_type (snd ci) = Some ty).

(** some column carries the category [ty] *)
Definition has_type (ty : string) (c : classification) : bool :=
  existsb (typed_as ty) (default [] (columns c)).

(** the header lines that open the two column sections *)
Definition facts_header : string := "FACTS (".
Definition dimensions_header : string := "DIMENSIONS (".

(** the key clause and the column references, recognised by their
    indentation and keyword *)
Definition is_pk_line (p : string) : bool := PyStr.startswith "    PRIMARY KEY (" p.
Definition is_column_ref (p : string) : bool := PyStr.startswith "  model." p.

Definition count_pk_lines (parts : list string) : nat :=
  length (List.filter is_pk_line parts).

(** the lines of a FACTS section after its header, and of a DIMENSIONS
    section after its header up to the end of the artifact *)
Definition facts_body (facts : list (string * column_info)) : list string :=
  fact_lines (length facts) 0 facts ++ [")"; ""].

Definition dimensions_tail (model_name : string)
           (dims : list (string * column_info)) : list string :=
  dimension_lines (length dims) 0 dims ++ [")"] ++ [overall_comment model_name].

(** Where a line of the artifact comes from. *)
Inductive part_origin (model_name ref_model_name : string) (c : classification)
  : string -> Prop :=
| from_config p :
    p ∈ config_block -> part_origin model_name ref_model_name c p
| from_tables p :
    p ∈ tables_block ref_model_name (default [] (primary_keys c)) ->
    part_origin model_name ref_model_name c p
| from_facts_header :
    has_type "FACT" c = true ->
    part_origin model_name ref_model_name c facts_header
| from_dimensions_header :
    has_type "DIMENSION" c = true ->
    part_origin model_name ref_model_name c dimensions_header
| from_closing p :
    p = ")" \/ p = "" -> part_origin model_name ref_model_name c p
| from_column col info comma :
    (col, info) ∈ default [] (columns c) ->
    info_type info = Some "FACT" \/ info_type info = Some "DIMENSION" ->
    comma = "" \/ comma = "," ->
    part_origin model_name ref_model_name c (column_ref col +:+ comma)
| from_comment comment comma :
    part_origin model_name ref_model_name c (comment_line comment comma)
| from_overall :
    part_origin model_name ref_model_name c (overall_comment model_name).

(** the artifact of a classification with no keys and no columns *)
Definition minimal_parts (model_name ref_model_name : string) : list string :=
  config_block
  ++ ["TABLES ("; model_line ref_model_name; ")"; ""; overall_comment model_name].

(** Sample classifications. *)
Definition info (ty comment : string) : column_info :=
  ColumnInfo (Some ty) (Some comment).

Definition orders_classification : classification :=
  Classification (Some ["order_id"; "Created_At"])
    (Some [("amount", info "FACT" "order total");
           ("created_at", info "FACT" "");
           ("Customer_Name", info "DIMENSION" "who ordered");
           ("region", ColumnInfo (Some "DIMENSION") None);
           ("notes", info "OTHER" "free text")]).

Definition empty_classification : classification := Classification None None.

Definition blank_key_classification : classification :=
  Classification (Some [""]) (Some []).

Definition keyless_classification : classification :=
  Classification None (Some [("amount", info "FACT" "order total")]).

Definition untyped_classification : classification :=
  Classification None (Some [("amount", ColumnInfo None (Some "order total"))]).

(** Sample directories: the artifacts of base name [model]. *)
Definition v1_file : string := "model_semantic_view.sql".
Definition v2_file : string := "model_semantic_view_v2.sql".
Definition v3_file : string := "model_semantic_view_v3.sql".
Definition v0_file : string := "model_semantic_view_v0.sql".

Definition two_versions (c1 c2 : string) : directory :=
  {[ v1_file := c1; v2_file := c2 ]}.

(** a text without white space, such as a table name *)
Definition no_space (s : string) : bool :=
  PyStr.forallb_str (fun c => negb (PyStr.isspace c)) s.

(** [select_pattern] up to the blanks after [from], and the rest of it *)
Definition select_head : regex :=
  (RStr "select" >> RPlus CSpace >> RGroup (RLazy CAny) >> RPlus CSpace >>
   RStr "from" >> RPlus CSpace)%re.

Definition select_tail : regex :=
  (RLazy CAny >>
   RAlt (RStr "left" >> RPlus CSpace >> RStr "join")
        (RAlt (RStr "inner" >> RPlus CSpace >> RStr "join") REnd))%re.

(** the continuation that ends a match *)
Definition finish (s : string) (caps : list string) : option result :=
  Some (caps, s).

(** the projection clause of the specification's example *)
Definition sample_projection : string := "a.id, a.created_at as ts, b.name".

(** a text without line feed, and a rendering input made of such texts *)
Definition single_line (s : string) : bool :=
  PyStr.forallb_str (fun c => negb (bool_decide (c = "010"%char))) s.

Definition single_line_column (ci : string * column_info) : bool :=
  single_line (fst ci) && single_line (default "" (info_comment (snd ci))).

Definition single_line_inputs (model_name ref_model_name : string)
           (c : classification) : bool :=
  single_line model_name && single_line ref_model_name
  && forallb single_line (default [] (primary_keys c))
  && forallb single_line_column (default [] (columns c)).

(** the end of the name of a version-1 artifact *)
Definition v1_suffix : string := "_semantic_view.sql".

(** a base name that [glob] reads literally *)
Definition plain_name (base : string) : bool :=
  PyStr.forallb_str
    (fun c => negb (bool_decide (c = "*"%char) || bool_decide (c = "?"%char)
                    || bool_decide (c = "["%char))) base.

(** some event of a run reads a file *)
Definition reads_a_file (log : list event) : bool :=
  existsb (fun e => match e with EvRead _ => true | _ => false end) log.

(** ** Vocabulary of the further properties *)

(** a non-empty run of decimal digits *)
Definition digits (s : string) : bool :=
  negb (PyStr.is_empty s) && PyStr.forallb_str PyStr.isdigit s.

(** what follows the base name in an artifact name that continues with [x]
    after [_semantic_view] *)
Definition view_suffix (x : string) : string := "_semantic_view" +:+ x.

(** the number of column reference lines of an artifact *)
Definition count_column_refs (parts : list string) : nat :=
  length (List.filter is_column_ref parts).

(** the lines of one FACTS entry and of one DIMENSIONS entry, given the
    text that separates it from the next entry *)
Definition fact_entry (comma : string) (ci : string * column_info) : list string :=
  [column_ref (fst ci); comment_line (default "" (info_comment (snd ci))) comma].

Definition dimension_entry (comma : string) (ci : string * column_info) : list string :=
  let comment := default "" (info_comment (snd ci)) in
  if PyStr.is_empty comment
  then [column_ref (fst ci) +:+ comma]
  else [column_ref (fst ci); comment_line comment comma].

(** A schema document of the usual shape: models, each with columns, each
    with a name and a description. *)
Definition column_entry (nd : string * string) : yaml :=
  YMap [(YStr "name", YStr (fst nd)); (YStr "description", YStr (snd nd))].

Definition model_of_columns (cols : list yaml) : yaml :=
  YMap [(YStr "name", YStr "model"); (YStr "columns", YSeq cols)].

Definition model_entry (cols : list (string * string)) : yaml :=
  model_of_columns (column_entry <$> cols).

Definition doc_of_models (models : list yaml) : yaml :=
  YMap [(YStr "version", YInt 2); (YStr "models", YSeq models)].

Definition schema_doc (models : list (list (string * string))) : yaml :=
  doc_of_models (model_entry <$> models).

(** the entry [nd] describes the column [k] *)
Definition described (k : string) (nd : string * string) : bool :=
  String.eqb (PyStr.lower (fst nd)) k
  && negb (PyStr.is_empty (fst nd)) && negb (PyStr.is_empty (snd nd)).

(** what one well-formed column entry does to the mapping *)
Definition record_description (acc : gmap string yaml) (nd : string * string)
  : gmap string yaml :=
  if negb (PyStr.is_empty (PyStr.lower (fst nd))) && negb (PyStr.is_empty (snd nd))
  then <[PyStr.lower (fst nd) := YStr (snd nd)]> acc
  else acc.

(** an object that cannot be iterated over *)
Definition not_iterable (v : yaml) : bool :=
  match v with
  | YNull | YBool _ | YInt _ => true
  | _ => false
  end.

(** a column entry that is no mapping, or whose name is no text *)
Definition bad_column (column : yaml) : bool :=
  match column with
  | YMap m =>
      match Py.lookup_key "name" m with
      | Some (YStr _) | None => false
      | Some _ => true
      end
  | _ => true
  end.

(** what holds of every entry of a loaded mapping *)
Definition good_description (k : string) (v : yaml) : Prop :=
  k <> "" /\ no_upper k = true /\ Py.truthy v = true.

(** a text in which the character [c] does not occur *)
Definition lacks (c : ascii) (s : string) : bool :=
  PyStr.forallb_str (fun a => negb (bool_decide (a = c))) s.

(** the projection clause the columns are read from: the group of the last
    match *)
Definition final_select (content : string) : string :=
  List.last (findall true select_pattern content) EmptyString.

(** an item of a projection clause that carries an alias *)
Definition aliased (item : string) : bool :=
  PyStr.contains " as " (PyStr.lower (PyStr.strip item)).

(** a plain identifier: letters, digits and underscores, at least one *)
Definition ident_char (c : ascii) : bool :=
  PyStr.is_upper c || PyStr.is_lower c || PyStr.isdigit c
  || bool_decide (c = "_"%char).

Definition identifier (s : string) : bool :=
  negb (PyStr.is_empty s) && PyStr.forallb_str ident_char s.

(** a query that selects plain columns from one table *)
Definition plain_select (cols : list string) (table : string) : string :=
  "select " +:+ PyStr.join ", " cols +:+ " from " +:+ table.

(** the part of [select_pattern] after its group *)
Definition from_clause : regex :=
  (RPlus CSpace >> RStr "from" >> RPlus CSpace >> select_tail)%re.

(** a continuation that needs white space first *)
Definition blocked (cont : string -> option result) : Prop :=
  forall c t, PyStr.isspace c = false -> cont (String c t) = None.

(** a text that is empty or starts with a comma or a blank *)
Definition at_separator (s : string) : Prop :=
  s = "" \/ exists t, s = String "," t \/ s = String " " t.

(** ** The loop over the models of a semantic directory:
       [process_semantic_directory] *)

(** [s.rfind(c)], [None] standing for -1 *)
Fixpoint rfind (c : ascii) (s : string) : option nat :=
  match s with
  | EmptyString => None
  | String a s' =>
      match rfind c s' with
      | Some i => Some (S i)
      | None => if bool_decide (a = c) then Some O else None
      end
  end.

(** [PurePath.stem]: the name up to its last dot, when that dot is neither
    the first nor the last character *)
Definition stem (name : string) : string :=
  match rfind "." name with
  | Some i =>
      if (0 <? i)%nat && (i <? String.length name - 1)%nat
      then String.substring 0 i name
      else name
  | None => name
  end.

(** How the processing of a model can fail: an exception of the script's
    own steps, or a failure of the classification call. *)
Inductive failure : Type :=
| PythonError (e : py_error)
| ServiceError.

(** One model of the directory in one run: the name and text of its SQL
    file, the document of its sidecar if there is one, and what
    [classify_columns_with_gpt] returns for it in this run ([None] when the
    call raises). *)
Record job : Type := Job {
  sql_name : string;
  sql_text : string;
  sidecar_doc : option yaml;
  reply : option classification
}.

(** the output directory, the events and the failure that ended the run *)
Definition outcome : Type := directory * list event * option failure.

(** the body of [for sql_file in sql_files] *)
Definition process_file (output_dir : directory) (j : job) : outcome :=
  let '(columns, sql_content) := parse_sql_file (sql_text j) in
  let model_name := stem (sql_name j) in
  let log1 :=
    [EvPrint ("  Processing " +:+ sql_name j +:+ "...");
     EvPrint ("    Found " +:+ pretty (N.of_nat (length columns)) +:+ " columns")] in
  let loaded :=
    match sidecar_doc j with
    | None => Ok (∅, [])
    | Some doc =>
        column_descriptions ← parse_model_yml (Some doc);
        mret (column_descriptions,
              [EvPrint ("    Loaded "
                        +:+ pretty (N.of_nat (size (column_descriptions : gmap string yaml)))
                        +:+ " column descriptions from " +:+ model_name +:+ ".yml")])
    end in
  match loaded with
  | Raise e => (output_dir, log1, Some (PythonError e))
  | Ok (column_descriptions, log2) =>
      let log3 := log1 ++ log2 ++ [EvPrint "    Analyzing with GPT-4..."] in
      match reply j with
      | None => (output_dir, log3, Some ServiceError)
      | Some classification =>
          match generate_semantic_view_sql model_name classification model_name with
          | Raise e => (output_dir, log3, Some (PythonError e))
          | Ok semantic_view_sql =>
              let '(fs, log4) :=
                write_semantic_view output_dir model_name semantic_view_sql in
              (fs, log3 ++ log4, None)
          end
      end
  end.

(** the loop: it ends at the first failure *)
Fixpoint process_files (output_dir : directory) (jobs : list job) : outcome :=
  match jobs with
  | [] => (output_dir, [], None)
  | j :: rest =>
      match process_file output_dir j with
      | (fs, log, Some f) => (fs, log, Some f)
      | (fs, log, None) =>
          let '(fs', log', r) := process_files fs rest in
          (fs', log ++ log', r)
      end
  end.

Definition process_semantic_directory (semantic_dir : string) (jobs : list job)
           (output_dir : directory) : outcome :=
  let head :=
    EvPrint (String "010" "Processing semantic directory: " +:+ semantic_dir) in
  match jobs with
  | [] =>
      (output_dir,
       [head; EvPrint "  No SQL models found in this semantic folder"], None)
  | _ =>
      let '(fs, log, r) := process_files output_dir jobs in
      (fs,
       head :: EvPrint ("  Found " +:+ pretty (N.of_nat (length jobs))
                        +:+ " model(s) to analyze") :: log,
       r)
  end.

(** the text that is written for a model, when every step before the
    writer succeeds *)
Definition rendering_of (j : job) : option string :=
  let rendered :=
    match reply j with
    | Some c =>
        match generate_semantic_view_sql (stem (sql_name j)) c (stem (sql_name j)) with
        | Ok sql => Some sql
        | Raise _ => None
        end
    | None => None
    end in
  match sidecar_doc j with
  | Some doc =>
      match parse_model_yml (Some doc) with
      | Ok _ => rendered
      | Raise _ => None
      end
  | None => rendered
  end.

(** the number of models at the head of the list that get their artifact *)
Fixpoint completed (jobs : list job) : nat :=
  match jobs with
  | [] => O
  | j :: rest =>
      match rendering_of j with
      | Some _ => S (completed rest)
      | None => O
      end
  end.

(** Sample run: two models, the second one without category for a column. *)
Definition orders_job : job :=
  Job "orders.sql" "select order_id, amount from raw.orders"
      (Some (schema_doc [[("order_id", "the key")]]))
      (Some orders_classification).

Definition broken_job : job :=
  Job "customers.sql" "select id from raw.customers" None
      (Some untyped_classification).

(** ** The view generator on any decoded reply *)

(** What [json.loads] returns: [None], a boolean, an integer, a float, a
    text, a list or a dict.  The items of a dict are listed in insertion
    order; a dict holds a key once. *)
Inductive json : Type :=
| JNull
| JBool (b : bool)
| JInt (z : Z)
| JFloat (x : spec_float)
| JStr (s : string)
| JList (l : list json)
| JDict (m : list (string * json)).

Module Json.

(** truth value of an object, as [if x] takes it *)
Definition truthy (v : json) : bool :=
  match v with
  | JNull => false
  | JBool b => b
  | JInt z => negb (Z.eqb z 0)
  | JFloat x => match x with S754_zero _ => false | _ => true end
  | JStr s => negb (PyStr.is_empty s)
  | JList l => match l with [] => false | _ => true end
  | JDict m => match m with [] => false | _ => true end
  end.

Fixpoint chars (s : string) : list json :=
  match s with
  | EmptyString => []
  | String c s' => JStr (String c EmptyString) :: chars s'
  end.

Definition lookup_key (k : string) (m : list (string * json)) : option json :=
  snd <$> List.find (fun kv => String.eqb (fst kv) k) m.

(** [v.get(k, default)]: only a dict has the method *)
Definition get (k : string) (dflt : json) (v : json) : res json :=
  match v with
  | JDict m => Ok (default dflt (lookup_key k m))
  | _ => Raise AttributeError
  end.

(** [v[k]] for a text [k] *)
Definition getitem (k : string) (v : json) : res json :=
  match v with
  | JDict m =>
      match lookup_key k m with
      | Some x => Ok x
      | None => Raise KeyError
      end
  | _ => Raise TypeError
  end.

(** [for x in v] *)
Definition iter (v : json) : res (list json) :=
  match v with
  | JList l => Ok l
  | JDict m => Ok ((fun kv => JStr (fst kv)) <$> m)
  | JStr s => Ok (chars s)
  | JNull | JBool _ | JInt _ | JFloat _ => Raise TypeError
  end.

(** [v.items()]: only a dict has the method *)
Definition items (v : json) : res (list (string * json)) :=
  match v with
  | JDict m => Ok m
  | _ => Raise AttributeError
  end.

(** [v.upper()]: only a text has the method *)
Definition upper (v : json) : res string :=
  match v with
  | JStr s => Ok (PyStr.upper s)
  | _ => Raise AttributeError
  end.

(** [v == s] for a text [s] *)
Definition eq_str (s : string) (v : json) : bool :=
  match v with
  | JStr t => String.eqb t s
  | _ => false
  end.

(** [m[k] = v]: the value of a key that is there is replaced in place, a
    new key goes to the end *)
Definition setitem (k : string) (v : json) (m : list (string * json))
  : list (string * json) :=
  if existsb (fun kv => String.eqb (fst kv) k) m
  then (fun kv => if String.eqb (fst kv) k then (k, v) else kv) <$> m
  else m ++ [(k, v)].

End Json.

(** A list comprehension [[f(x) for x in l]]: it stops at the first
    exception. *)
Fixpoint mapM {A B : Type} (f : A -> res B) (l : list A) : res (list B) :=
  match l with
  | [] => Ok []
  | x :: l' => y ← f x; ys ← mapM f l'; mret (y :: ys)
  end.

(** [generate_semantic_view_sql] as it runs on whatever the reply decodes
    to.  On a reply of the shape the prompt asks for it is the function of
    the same name above. *)
Module Reply.

Section Rendering.

(** [str(v)] for a float, a list or a dict *)
Variable repr : json -> string.

(** the text an f-string puts for [{v}] *)
Definition format (v : json) : string :=
  match v with
  | JStr s => s
  | JNull => "None"
  | JBool true => "True"
  | JBool false => "False"
  | JInt z => pretty z
  | JFloat _ | JList _ | JDict _ => repr v
  end.

(** [[(col, info) for col, info in columns_info.items() if info['type'] == ty]] *)
Fixpoint select_type (ty : string) (items : list (string * json))
  : res (list (string * json)) :=
  match items with
  | [] => Ok []
  | (col, info) :: rest =>
      t ← Json.getitem "type" info;
      rest' ← select_type ty rest;
      mret (if Json.eq_str ty t then (col, info) :: rest' else rest')
  end.

(** the [for i, (col, info) in enumerate(facts)] loop; [n] is [len(facts)] *)
Fixpoint fact_lines (n i : nat) (facts : list (string * json)) : res (list string) :=
  match facts with
  | [] => Ok []
  | (col, info) :: rest =>
      comment ← Json.get "comment" (JStr "") info;
      lines ← fact_lines n (S i) rest;
      mret (column_ref col :: comment_line (format comment) (comma_at i n) :: lines)
  end.

(** the [for i, (col, info) in enumerate(dimensions)] loop *)
Fixpoint dimension_lines (n i : nat) (dims : list (string * json)) : res (list string) :=
  match dims with
  | [] => Ok []
  | (col, info) :: rest =>
      comment ← Json.get "comment" (JStr "") info;
      lines ← dimension_lines n (S i) rest;
      mret ((if Json.truthy comment
             then [column_ref col; comment_line (format comment) (comma_at i n)]
             else [column_ref col +:+ comma_at i n])
            ++ lines)
  end.

Definition tables_block (ref_model_name pk_str : string) : list string :=
  ["TABLES ("; model_line ref_model_name]
  ++ (if PyStr.is_empty pk_str then [] else [pk_line pk_str])
  ++ [")"; ""].

Definition facts_block (facts : list (string * json)) : res (list string) :=
  match facts with
  | [] => Ok []
  | _ => lines ← fact_lines (length facts) 0 facts;
         mret (["FACTS ("] ++ lines ++ [")"; ""])
  end.

Definition dimensions_block (dims : list (string * json)) : res (list string) :=
  match dims with
  | [] => Ok []
  | _ => lines ← dimension_lines (length dims) 0 dims;
         mret (["DIMENSIONS ("] ++ lines ++ [")"])
  end.

(** [', '.join([col.upper() for col in primary_keys])] *)
Definition pk_str_of (primary_keys : json) : res string :=
  cols ← Json.iter primary_keys;
  uppers ← mapM Json.upper cols;
  mret (PyStr.join ", " uppers).

(** the list [sql_parts] when the function reaches its [return] *)
Definition sql_parts (model_name : string) (classification : json)
           (ref_model_name : string) : res (list string) :=
  primary_keys ← Json.get "primary_keys" (JList []) classification;
  columns_info ← Json.get "columns" (JDict []) classification;
  pk_str ← pk_str_of primary_keys;
  items ← Json.items columns_info;
  facts ← select_type "FACT" items;
  facts_lines ← facts_block facts;
  items' ← Json.items columns_info;
  dimensions ← select_type "DIMENSION" items';
  dimensions_lines ← dimensions_block dimensions;
  mret (config_block ++ tables_block ref_model_name pk_str
        ++ facts_lines ++ dimensions_lines ++ [overall_comment model_name]).

Definition generate_semantic_view_sql (model_name : string) (classification : json)
           (ref_model_name : string) : res string :=
  parts ← sql_parts model_name classification ref_model_name;
  mret (PyStr.join (String "010" "") parts).

End Rendering.

End Reply.

(** ** Vocabulary of the properties of the generator on any reply *)

Definition is_text (v : json) : bool :=
  match v with JStr _ => true | _ => false end.

Definition is_dict (v : json) : bool :=
  match v with JDict _ => true | _ => false end.

(** the exception the primary-key value makes the join raise, if any: a
    value that cannot be iterated, or a list with an item that is not a
    text *)
Definition keys_error (primary_keys : json) : option py_error :=
  match primary_keys with
  | JNull | JBool _ | JInt _ | JFloat _ => Some TypeError
  | JList l => if forallb is_text l then None else Some AttributeError
  | JStr _ | JDict _ => None
  end.

(** the exception one column entry makes [info['type']] raise, if any *)
Definition entry_error (info : json) : option py_error :=
  match info with
  | JDict m =>
      match Json.lookup_key "type" m with
      | Some _ => None
      | None => Some KeyError
      end
  | _ => Some TypeError
  end.

(** the exception of the first column entry that raises one *)
Definition first_entry_error (items : list (string * json)) : option py_error :=
  head (omap (fun kv => entry_error (snd kv)) items).

Definition columns_error (columns_info : json) : option py_error :=
  match columns_info with
  | JDict m => first_entry_error m
  | _ => Some AttributeError
  end.

(** the values the generator reads from a reply that is a dict *)
Definition keys_of (m : list (string * json)) : json :=
  default (JList []) (Json.lookup_key "primary_keys" m).
Definition columns_of (m : list (string * json)) : json :=
  default (JDict []) (Json.lookup_key "columns" m).

Definition rendering_error (reply : json) : option py_error :=
  match reply with
  | JDict m =>
      match keys_error (keys_of m) with
      | Some e => Some e
      | None => columns_error (columns_of m)
      end
  | _ => Some AttributeError
  end.

(** the reply with every key name and every column name in upper case:
    the column mapping is rebuilt as
    [{col.upper(): info for col, info in columns.items()}] *)
Definition upper_text (v : json) : json :=
  match v with
  | JStr s => JStr (PyStr.upper s)
  | _ => v
  end.

Definition upper_keys (m : list (string * json)) : list (string * json) :=
  foldl (fun acc kv => Json.setitem (PyStr.upper (fst kv)) (snd kv) acc) [] m.

Definition upper_items (primary_keys : json) : json :=
  match primary_keys with
  | JList l => JList (upper_text <$> l)
  | _ => primary_keys
  end.

Definition upper_columns (columns_info : json) : json :=
  match columns_info with
  | JDict cols => JDict (upper_keys cols)
  | _ => columns_info
  end.

Definition upper_field (kv : string * json) : string * json :=
  if String.eqb (fst kv) "primary_keys" then (fst kv, upper_items (snd kv))
  else if String.eqb (fst kv) "columns" then (fst kv, upper_columns (snd kv))
       else kv.

Definition upper_names (reply : json) : json :=
  match reply with
  | JDict m => JDict (upper_field <$> m)
  | _ => reply
  end.

(** the column names of a reply stay pairwise different in upper case *)
Definition distinct_in_upper_case (reply : json) : bool :=
  match reply with
  | JDict m =>
      match Json.lookup_key "columns" m with
      | Some (JDict cols) =>
          bool_decide (NoDup ((fun kv => PyStr.upper (fst kv)) <$> cols))
      | _ => true
      end
  | _ => true
  end.

(** a typed classification as the reply it is decoded from *)
Definition reply_of_info (i : column_info) : json :=
  JDict (match info_type i with Some t => [("type", JStr t)] | None => [] end
         ++ match info_comment i with Some c => [("comment", JStr c)] | None => [] end).

Definition reply_of (c : classification) : json :=
  JDict (match primary_keys c with
         | Some pks => [("primary_keys", JList (JStr <$> pks))]
         | None => []
         end
         ++ match columns c with
            | Some items =>
                [("columns", JDict ((fun ci => (fst ci, reply_of_info (snd ci))) <$> items))]
            | None => []
            end).






Definition orders_reply : json :=
  JDict [("primary_keys", JList [JStr "order_id"; JStr "Created_At"]);
         ("columns",
          JDict [("amount", JDict [("type", JStr "FACT"); ("comment", JStr "order total")]);
                 ("Customer_Name", JDict [("type", JStr "DIMENSION"); ("comment", JNull)]);
                 ("status", JDict [("type", JStr "DIMENSION"); ("comment", JStr "")])])].

Definition case_clash_reply : json :=
  JDict [("columns",
          JDict [("a", JDict [("type", JStr "FACT")]);
                 ("A", JDict [("type", JStr "DIMENSION")])])].

(** a stand-in for [str] on floats, lists and dicts in examples *)
Definition sample_repr (v : json) : string := "...".

(** * Properties *)

(** ** Text primitives *)

#[local] Arguments String.append !s1 s2 : simpl nomatch.

Lemma append_nil_r (s : string) : s +:+ "" = s.
Proof. induction s as [|c s IH]; simpl; [reflexivity | now rewrite IH]. Qed.

Lemma append_assoc (a b c : string) : (a +:+ b) +:+ c = a +:+ (b +:+ c).
Proof. induction a as [|x a IH]; simpl; [reflexivity | now rewrite IH]. Qed.

Lemma forallb_str_app (p : ascii -> bool) (a b : string) :
  PyStr.forallb_str p (a +:+ b) = PyStr.forallb_str p a && PyStr.forallb_str p b.
Proof.
  induction a as [|x a IH]; simpl; [reflexivity|].
  rewrite IH. now rewrite andb_assoc.
Qed.

Lemma upper_char_not_lower (c : ascii) : PyStr.is_lower (PyStr.upper_char c) = false.
Proof. destruct c as [[] [] [] [] [] [] [] []]; vm_compute; reflexivity. Qed.

Lemma lower_char_not_upper (c : ascii) : PyStr.is_upper (PyStr.lower_char c) = false.
Proof. destruct c as [[] [] [] [] [] [] [] []]; vm_compute; reflexivity. Qed.

Lemma no_lower_upper (s : string) : no_lower (PyStr.upper s) = true.
Proof.
  unfold no_lower, PyStr.upper.
  induction s as [|c s IH]; simpl; [reflexivity|].
  now rewrite upper_char_not_lower, IH.
Qed.

Lemma no_upper_lower (s : string) : no_upper (PyStr.lower s) = true.
Proof.
  unfold no_upper, PyStr.lower.
  induction s as [|c s IH]; simpl; [reflexivity|].
  now rewrite lower_char_not_upper, IH.
Qed.

Lemma no_lower_app (a b : string) :
  no_lower (a +:+ b) = no_lower a && no_lower b.
Proof. apply forallb_str_app. Qed.

Lemma upper_app (a b : string) :
  PyStr.upper (a +:+ b) = PyStr.upper a +:+ PyStr.upper b.
Proof.
  unfold PyStr.upper.
  induction a as [|x a IH]; simpl; [reflexivity | now rewrite IH].
Qed.

Lemma no_lower_join_upper (pks : list string) :
  no_lower (PyStr.join ", " (PyStr.upper <$> pks)) = true.
Proof.
  induction pks as [|k pks IH]; [reflexivity|].
  destruct pks as [|k' pks]; [apply no_lower_upper|].
  change (no_lower (PyStr.upper k +:+ ", " +:+ PyStr.join ", " (PyStr.upper <$> k' :: pks)) = true).
  rewrite !no_lower_app, IH, no_lower_upper. reflexivity.
Qed.

(** the joined key list is empty only for [[]] and [[""]] *)
Lemma join_upper_empty (pks : list string) :
  PyStr.is_empty (PyStr.join ", " (PyStr.upper <$> pks)) = true <->
  pks = [] \/ pks = [""].
Proof.
  split.
  - destruct pks as [|k [|k' pks]]; simpl; auto.
    + destruct k; simpl; [auto | discriminate].
    + destruct k; simpl; discriminate.
  - intros [-> | ->]; reflexivity.
Qed.

(** ** The generator's comprehension and loops *)

Section Generator.

Implicit Types (items facts dims : list (string * column_info)).
Implicit Types (ty col p : string).

Lemma eqb_typed_as ty col info t :
  info_type info = Some t -> String.eqb t ty = typed_as ty (col, info).
Proof.
  intros E. unfold typed_as; simpl. rewrite E.
  destruct (String.eqb_spec t ty) as [->|N].
  - symmetry. now apply bool_decide_eq_true.
  - symmetry. apply bool_decide_eq_false. congruence.
Qed.

(** the comprehension is a filter, provided every entry has a category *)
Lemma select_type_filter ty items l :
  select_type ty items = Ok l -> l = List.filter (typed_as ty) items.
Proof.
  revert l. induction items as [|[col info] rest IH]; intros l H; simpl in *.
  - now inversion H.
  - destruct (info_type info) as [t|] eqn:E; [|discriminate].
    destruct (select_type ty rest) as [rest'|e] eqn:R; simpl in H; [|discriminate].
    unfold mret, res_ret in H. inversion H; subst l; clear H.
    rewrite (eqb_typed_as ty col info t E).
    rewrite (IH rest' eq_refl). reflexivity.
Qed.

Lemma select_type_total ty items :
  Forall (fun ci => is_Some (info_type (snd ci))) items ->
  select_type ty items = Ok (List.filter (typed_as ty) items).
Proof.
  induction 1 as [|[col info] rest [t E] _ IH]; simpl in *; [reflexivity|].
  rewrite E, IH. simpl. unfold mret, res_ret.
  now rewrite (eqb_typed_as ty col info t E).
Qed.

(** both comprehensions succeed or both raise *)
Lemma select_type_ok_any ty ty' items l :
  select_type ty items = Ok l -> exists l', select_type ty' items = Ok l'.
Proof.
  revert l. induction items as [|[col info] rest IH]; intros l H; simpl in *.
  - eauto.
  - destruct (info_type info) as [t|]; [|discriminate].
    destruct (select_type ty rest) as [rest'|e]; simpl in H; [|discriminate].
    destruct (IH rest' eq_refl) as [l' ->]. simpl. eauto.
Qed.

Lemma filter_nil_existsb {A} (f : A -> bool) (l : list A) :
  List.filter f l = [] <-> existsb f l = false.
Proof.
  induction l as [|x l IH]; simpl; [tauto|].
  destruct (f x); simpl; [split; discriminate | exact IH].
Qed.

Lemma comma_at_cases i n : comma_at i n = "" \/ comma_at i n = ",".
Proof. unfold comma_at. destruct (i <? n - 1)%nat; auto. Qed.

(** what a line of the FACTS loop can be *)
Lemma fact_lines_elem p n i facts :
  p ∈ fact_lines n i facts ->
  (exists col info, (col, info) ∈ facts /\ p = column_ref col) \/
  (exists comment comma, p = comment_line comment comma).
Proof.
  revert i. induction facts as [|[col info] rest IH]; intros i H; simpl in H.
  - now apply elem_of_nil in H.
  - apply elem_of_cons in H as [-> | H].
    { left. exists col, info. split; [left | reflexivity]. }
    apply elem_of_cons in H as [-> | H].
    { right. eauto. }
    destruct (IH _ H) as [(c' & i' & Hin & ->) | R].
    + left. exists c', i'. split; [now right | reflexivity].
    + now right.
Qed.

(** what a line of the DIMENSIONS loop can be *)
Lemma dimension_lines_elem p n i dims :
  p ∈ dimension_lines n i dims ->
  (exists col info comma,
      (col, info) ∈ dims /\ p = column_ref col +:+ comma /\
      (comma = "" \/ comma = ",")) \/
  (exists comment comma, p = comment_line comment comma).
Proof.
  revert i. induction dims as [|[col info] rest IH]; intros i H; simpl in H.
  - now apply elem_of_nil in H.
  - apply elem_of_app in H as [H | H].
    + destruct (PyStr.is_empty (default "" (info_comment info))).
      * apply list_elem_of_singleton in H as ->.
        left. exists col, info, (comma_at i n).
        split; [left | split; [reflexivity | apply comma_at_cases]].
      * apply elem_of_cons in H as [-> | H].
        { left. exists col, info, "". rewrite append_nil_r.
          split; [left | split; [reflexivity | now left]]. }
        apply list_elem_of_singleton in H as ->. right. eauto.
    + destruct (IH _ H) as [(c' & i' & k & Hin & -> & Hk) | R].
      * left. exists c', i', k. split; [now right | split; [reflexivity | exact Hk]].
      * now right.
Qed.

(** every column of the list is referenced by a line of its loop *)
Lemma fact_lines_complete n i facts col info :
  (col, info) ∈ facts -> column_ref col ∈ fact_lines n i facts.
Proof.
  revert i. induction facts as [|[c' i'] rest IH]; intros i H.
  - now apply elem_of_nil in H.
  - simpl. apply elem_of_cons in H as [E | H].
    + inversion E; subst. left.
    + right. right. now apply IH.
Qed.

Lemma dimension_lines_complete n i dims col info :
  (col, info) ∈ dims ->
  exists comma, column_ref col +:+ comma ∈ dimension_lines n i dims.
Proof.
  revert i. induction dims as [|[c' i'] rest IH]; intros i H.
  - now apply elem_of_nil in H.
  - simpl. apply elem_of_cons in H as [E | H].
    + inversion E; subst.
      destruct (PyStr.is_empty (default "" (info_comment i'))).
      * exists (comma_at i n). apply elem_of_app. left. left.
      * exists "". rewrite append_nil_r. apply elem_of_app. left. left.
    + destruct (IH (S i) H) as [k Hk]. exists k. apply elem_of_app. now right.
Qed.

End Generator.

(** ** Shape of the rendered artifact *)

Lemma sql_parts_shape (model_name ref_model_name : string) (c : classification)
      (parts : list string) :
  sql_parts model_name c ref_model_name = Ok parts ->
  parts = config_block
          ++ tables_block ref_model_name (default [] (primary_keys c))
          ++ facts_block (List.filter (typed_as "FACT") (default [] (columns c)))
          ++ dimensions_block
               (List.filter (typed_as "DIMENSION") (default [] (columns c)))
          ++ [overall_comment model_name].
Proof.
  unfold sql_parts. intros H.
  destruct (select_type "FACT" _) as [facts|e] eqn:F; simpl in H; [|discriminate].
  destruct (select_type "DIMENSION" _) as [dims|e] eqn:D; simpl in H; [|discriminate].
  apply select_type_filter in F. apply select_type_filter in D. subst facts dims.
  unfold mret, res_ret in H. now inversion H.
Qed.

(** rendering succeeds as soon as every column entry has a category *)
Lemma sql_parts_total (model_name ref_model_name : string) (c : classification) :
  Forall (fun ci => is_Some (info_type (snd ci))) (default [] (columns c)) ->
  exists parts, sql_parts model_name c ref_model_name = Ok parts.
Proof.
  intros H. unfold sql_parts.
  rewrite !(select_type_total _ _ H). simpl. eauto.
Qed.

Lemma typed_as_true (ty col : string) (info : column_info) :
  typed_as ty (col, info) = true -> info_type info = Some ty.
Proof. unfold typed_as; simpl. apply bool_decide_eq_true. Qed.

Lemma elem_of_filter_typed (ty : string) (ci : string * column_info)
      (items : list (string * column_info)) :
  ci ∈ List.filter (typed_as ty) items <-> ci ∈ items /\ typed_as ty ci = true.
Proof. rewrite !list_elem_of_In. apply List.filter_In. Qed.

Lemma facts_block_elem (model_name ref_model_name : string) (c : classification)
      (p : string) :
  p ∈ facts_block (List.filter (typed_as "FACT") (default [] (columns c))) ->
  part_origin model_name ref_model_name c p.
Proof.
  unfold facts_block.
  destruct (List.filter _ _) as [|x l] eqn:E; [intros H; now apply elem_of_nil in H|].
  assert (Hhas : has_type "FACT" c = true).
  { unfold has_type. destruct (existsb _ _) eqn:X; [reflexivity|].
    apply filter_nil_existsb in X. congruence. }
  rewrite <- E. intros H.
  apply elem_of_app in H as [H | H].
  { apply list_elem_of_singleton in H as ->. now apply from_facts_header. }
  apply elem_of_app in H as [H | H].
  - apply fact_lines_elem in H as [(col & info & Hin & ->) | (cm & k & ->)].
    + apply elem_of_filter_typed in Hin as [Hin T]. apply typed_as_true in T.
      rewrite <- (append_nil_r (column_ref col)).
      apply (from_column _ _ _ col info ""); auto.
    + apply from_comment.
  - apply from_closing.
    apply elem_of_cons in H as [-> | H]; [now left|].
    apply list_elem_of_singleton in H as ->. now right.
Qed.

Lemma dimensions_block_elem (model_name ref_model_name : string)
      (c : classification) (p : string) :
  p ∈ dimensions_block (List.filter (typed_as "DIMENSION") (default [] (columns c))) ->
  part_origin model_name ref_model_name c p.
Proof.
  unfold dimensions_block.
  destruct (List.filter _ _) as [|x l] eqn:E; [intros H; now apply elem_of_nil in H|].
  assert (Hhas : has_type "DIMENSION" c = true).
  { unfold has_type. destruct (existsb _ _) eqn:X; [reflexivity|].
    apply filter_nil_existsb in X. congruence. }
  rewrite <- E. intros H.
  apply elem_of_app in H as [H | H].
  { apply list_elem_of_singleton in H as ->. now apply from_dimensions_header. }
  apply elem_of_app in H as [H | H].
  - apply dimension_lines_elem in H
      as [(col & info & k & Hin & -> & Hk) | (cm & k & ->)].
    + apply elem_of_filter_typed in Hin as [Hin T]. apply typed_as_true in T.
      apply (from_column _ _ _ col info k); auto.
    + apply from_comment.
  - apply from_closing. apply list_elem_of_singleton in H as ->. now left.
Qed.

(** every line of the artifact has one of the origins above *)
Lemma sql_parts_elem (model_name ref_model_name : string) (c : classification)
      (parts : list string) (p : string) :
  sql_parts model_name c ref_model_name = Ok parts ->
  p ∈ parts -> part_origin model_name ref_model_name c p.
Proof.
  intros H Hp. rewrite (sql_parts_shape _ _ _ _ H) in Hp.
  apply elem_of_app in Hp as [Hp | Hp]; [now apply from_config|].
  apply elem_of_app in Hp as [Hp | Hp]; [now apply from_tables|].
  apply elem_of_app in Hp as [Hp | Hp]; [now apply facts_block_elem|].
  apply elem_of_app in Hp as [Hp | Hp]; [now apply dimensions_block_elem|].
  apply list_elem_of_singleton in Hp as ->. apply from_overall.
Qed.

(** ** Section headers *)

Ltac split_elems H :=
  repeat first
    [ apply elem_of_app in H as [H | H]
    | apply elem_of_cons in H as [H | H]
    | apply elem_of_nil in H; destruct H ].

Ltac text_clash :=
  unfold facts_header, dimensions_header, column_ref, comment_line, pk_line,
    model_line, overall_comment in *;
  simpl in *; first [ discriminate | congruence ].

Lemma config_block_no_header (p : string) :
  p ∈ config_block -> p <> facts_header /\ p <> dimensions_header.
Proof.
  unfold config_block. intros H. split_elems H; subst p; split; text_clash.
Qed.

Lemma tables_block_no_header (ref_model_name : string) (pks : list string)
      (p : string) :
  p ∈ tables_block ref_model_name pks ->
  p <> facts_header /\ p <> dimensions_header.
Proof.
  unfold tables_block. intros H.
  destruct (PyStr.is_empty _); split_elems H; subst p; split; text_clash.
Qed.

Lemma fact_lines_no_header (n i : nat) (facts : list (string * column_info))
      (p : string) :
  p ∈ fact_lines n i facts -> p <> facts_header /\ p <> dimensions_header.
Proof.
  intros H. apply fact_lines_elem in H as [(col & info & _ & ->) | (cm & k & ->)];
    split; text_clash.
Qed.

Lemma dimension_lines_no_header (n i : nat) (dims : list (string * column_info))
      (p : string) :
  p ∈ dimension_lines n i dims -> p <> facts_header /\ p <> dimensions_header.
Proof.
  intros H.
  apply dimension_lines_elem in H
    as [(col & info & k & _ & -> & _) | (cm & k & ->)]; split; text_clash.
Qed.

Lemma overall_comment_no_header (model_name : string) :
  overall_comment model_name <> facts_header /\
  overall_comment model_name <> dimensions_header.
Proof. split; text_clash. Qed.

Lemma closing_no_header (p : string) :
  p ∈ [")"; ""] -> p <> facts_header /\ p <> dimensions_header.
Proof. intros H. split_elems H; subst p; split; text_clash. Qed.

Lemma facts_body_no_header (facts : list (string * column_info)) (p : string) :
  p ∈ facts_body facts -> p <> facts_header /\ p <> dimensions_header.
Proof.
  unfold facts_body. intros H. apply elem_of_app in H as [H | H].
  - eapply fact_lines_no_header, H.
  - now apply closing_no_header.
Qed.

Lemma dimensions_tail_no_header (model_name : string)
      (dims : list (string * column_info)) (p : string) :
  p ∈ dimensions_tail model_name dims ->
  p <> facts_header /\ p <> dimensions_header.
Proof.
  unfold dimensions_tail. intros H. apply elem_of_app in H as [H | H].
  - eapply dimension_lines_no_header, H.
  - split_elems H; subst p; [split; text_clash | apply overall_comment_no_header].
Qed.

Lemma facts_block_cases (facts : list (string * column_info)) :
  (facts = [] /\ facts_block facts = []) \/
  (facts <> [] /\ facts_block facts = facts_header :: facts_body facts).
Proof. destruct facts; [left | right]; split; try reflexivity; discriminate. Qed.

Lemma dimensions_block_cases (model_name : string)
      (dims : list (string * column_info)) :
  (dims = [] /\ dimensions_block dims ++ [overall_comment model_name]
                = [overall_comment model_name]) \/
  (dims <> [] /\ dimensions_block dims ++ [overall_comment model_name]
                 = dimensions_header :: dimensions_tail model_name dims).
Proof.
  destruct dims as [|d dims]; [left | right]; split;
    try reflexivity; try discriminate.
  unfold dimensions_block, dimensions_tail. simpl.
  now rewrite <- !app_assoc.
Qed.

Lemma has_type_filter (ty : string) (c : classification) :
  has_type ty c = false <-> List.filter (typed_as ty) (default [] (columns c)) = [].
Proof. unfold has_type. symmetry. apply filter_nil_existsb. Qed.

(** ** The artifact as a sequence of lines *)

Section Lines.

Let LF : string := String "010" "".

Lemma upper_char_lf (c : ascii) :
  bool_decide (PyStr.upper_char c = "010"%char) = bool_decide (c = "010"%char).
Proof. destruct c as [[] [] [] [] [] [] [] []]; vm_compute; reflexivity. Qed.

Lemma single_line_upper (s : string) : single_line (PyStr.upper s) = single_line s.
Proof.
  unfold single_line, PyStr.upper.
  induction s as [|c s IH]; simpl; [reflexivity|].
  now rewrite upper_char_lf, IH.
Qed.

Lemma single_line_app (a b : string) :
  single_line (a +:+ b) = single_line a && single_line b.
Proof. apply forallb_str_app. Qed.

Lemma single_line_join (sep : string) (l : list string) :
  single_line sep = true -> forallb single_line l = true ->
  single_line (PyStr.join sep l) = true.
Proof.
  intros S. induction l as [|x l IH]; intros H; [reflexivity|].
  simpl in H. apply andb_true_iff in H as [Hx Hl].
  destruct l as [|y l]; [exact Hx|].
  change (single_line (x +:+ sep +:+ PyStr.join sep (y :: l)) = true).
  now rewrite !single_line_app, Hx, S, IH.
Qed.

Lemma forallb_fmap_upper (l : list string) :
  forallb single_line (PyStr.upper <$> l) = forallb single_line l.
Proof.
  induction l as [|x l IH]; [reflexivity|].
  rewrite fmap_cons. cbn [forallb]. now rewrite single_line_upper, IH.
Qed.

Lemma comma_at_single_line (i n : nat) : single_line (comma_at i n) = true.
Proof. unfold comma_at. now destruct (i <? n - 1)%nat. Qed.

Lemma column_ref_single_line (col : string) :
  single_line col = true -> single_line (column_ref col) = true.
Proof.
  intros H. unfold column_ref.
  now rewrite !single_line_app, !single_line_upper, H.
Qed.

Lemma comment_line_single_line (comment comma : string) :
  single_line comment = true -> single_line comma = true ->
  single_line (comment_line comment comma) = true.
Proof.
  intros H K. unfold comment_line. now rewrite !single_line_app, H, K.
Qed.

Lemma fact_lines_single_line (n i : nat) (facts : list (string * column_info)) :
  forallb single_line_column facts = true ->
  forallb single_line (fact_lines n i facts) = true.
Proof.
  revert i. induction facts as [|[col info] rest IH]; intros i H; [reflexivity|].
  simpl in H. apply andb_true_iff in H as [Hc Hr].
  apply andb_true_iff in Hc as [Hcol Hcm]. simpl in Hcol, Hcm.
  simpl. rewrite column_ref_single_line by exact Hcol.
  rewrite comment_line_single_line by (auto using comma_at_single_line).
  now apply IH.
Qed.

Lemma dimension_lines_single_line (n i : nat) (dims : list (string * column_info)) :
  forallb single_line_column dims = true ->
  forallb single_line (dimension_lines n i dims) = true.
Proof.
  revert i. induction dims as [|[col info] rest IH]; intros i H; [reflexivity|].
  simpl in H. apply andb_true_iff in H as [Hc Hr].
  apply andb_true_iff in Hc as [Hcol Hcm]. simpl in Hcol, Hcm.
  cbn [dimension_lines]. rewrite List.forallb_app, (IH _ Hr), andb_true_r.
  destruct (PyStr.is_empty (default "" (info_comment info))); cbn [forallb].
  - now rewrite single_line_app, column_ref_single_line, comma_at_single_line.
  - rewrite column_ref_single_line by exact Hcol.
    now rewrite comment_line_single_line by (auto using comma_at_single_line).
Qed.

Lemma forallb_filter_sub {A : Type} (p q : A -> bool) (l : list A) :
  forallb p l = true -> forallb p (List.filter q l) = true.
Proof.
  induction l as [|x l IH]; simpl; [auto|].
  intros H. apply andb_true_iff in H as [Hx Hl].
  destruct (q x); simpl; [now rewrite Hx, IH | now apply IH].
Qed.

(** single-line inputs give single-line parts *)
Lemma sql_parts_single_line (model_name ref_model_name : string)
      (c : classification) (parts : list string) :
  single_line_inputs model_name ref_model_name c = true ->
  sql_parts model_name c ref_model_name = Ok parts ->
  forallb single_line parts = true.
Proof.
  unfold single_line_inputs. intros H P.
  apply andb_true_iff in H as [H Hcols]. apply andb_true_iff in H as [H Hpks].
  apply andb_true_iff in H as [Hm Hr].
  rewrite (sql_parts_shape _ _ _ _ P). rewrite !List.forallb_app.
  apply andb_true_iff; split; [reflexivity|].
  apply andb_true_iff; split.
  { unfold tables_block. rewrite !List.forallb_app.
    apply andb_true_iff; split.
    - cbn [forallb]. change (single_line "TABLES (") with true.
      unfold model_line. now rewrite !single_line_app, Hr.
    - apply andb_true_iff; split; [|reflexivity].
      destruct (PyStr.is_empty _); [reflexivity|]. cbn [forallb].
      unfold pk_line. rewrite !single_line_app.
      rewrite single_line_join; [reflexivity | reflexivity |].
      now rewrite forallb_fmap_upper. }
  apply andb_true_iff; split.
  { destruct (facts_block_cases (List.filter (typed_as "FACT") (default [] (columns c))))
      as [[_ E] | [_ E]]; rewrite E; [reflexivity|].
    unfold facts_body. cbn [forallb]. change (single_line facts_header) with true.
    rewrite List.forallb_app.
    rewrite fact_lines_single_line; [reflexivity|].
    now apply forallb_filter_sub. }
  apply andb_true_iff; split.
  { unfold dimensions_block.
    destruct (List.filter (typed_as "DIMENSION") (default [] (columns c)))
      as [|d ds] eqn:E; [reflexivity|]. rewrite <- E.
    rewrite !List.forallb_app. rewrite dimension_lines_single_line; [reflexivity|].
    now apply forallb_filter_sub. }
  cbn [forallb]. unfold overall_comment. now rewrite !single_line_app, Hm.
Qed.

Lemma split_go_single_line (x rest cur : string) :
  single_line x = true ->
  PyStr.split_go LF (x +:+ rest) 0 cur = PyStr.split_go LF rest 0 (cur +:+ x).
Proof.
  revert cur. induction x as [|c x IH]; intros cur H.
  - now rewrite append_nil_r.
  - unfold single_line in H. simpl in H. apply andb_true_iff in H as [Hc Hx].
    apply negb_true_iff in Hc.
    change (String c x +:+ rest) with (String c (x +:+ rest)).
    cbn [PyStr.split_go PyStr.startswith LF].
    replace (bool_decide ("010"%char = c)) with false.
    + cbn [andb]. rewrite (IH _ Hx), append_assoc. reflexivity.
    + symmetry. apply bool_decide_eq_false. intros <-.
      now apply bool_decide_eq_false in Hc.
Qed.

(** splitting the artifact at line feeds gives back the parts *)
Lemma split_join_lines (parts : list string) :
  parts <> [] -> forallb single_line parts = true ->
  PyStr.split LF (PyStr.join LF parts) = parts.
Proof.
  intros N H. induction parts as [|x l IH]; [contradiction|].
  simpl in H. apply andb_true_iff in H as [Hx Hl].
  destruct l as [|y l].
  - unfold PyStr.split. simpl PyStr.join.
    rewrite <- (append_nil_r x) at 1.
    now rewrite split_go_single_line.
  - unfold PyStr.split in *.
    change (PyStr.join LF (x :: y :: l)) with (x +:+ LF +:+ PyStr.join LF (y :: l)).
    rewrite split_go_single_line by exact Hx.
    change (LF +:+ PyStr.join LF (y :: l))
      with (String "010" (PyStr.join LF (y :: l))).
    cbn [PyStr.split_go PyStr.startswith LF].
    rewrite (bool_decide_eq_true_2 _ (eq_refl "010"%char)). cbn [andb].
    change ("" +:+ x) with x.
    change (String.length LF - 1)%nat with 0%nat.
    rewrite IH by (discriminate || exact Hl). reflexivity.
Qed.

(** With single-line inputs, the lines of the returned artifact are the
    parts, one by one. *)
Lemma artifact_lines (model_name ref_model_name : string) (c : classification)
      (out : string) :
  single_line_inputs model_name ref_model_name c = true ->
  generate_semantic_view_sql model_name c ref_model_name = Ok out ->
  sql_parts model_name c ref_model_name = Ok (PyStr.split LF out).
Proof.
  intros S G. unfold generate_semantic_view_sql in G.
  destruct (sql_parts model_name c ref_model_name) as [parts|e] eqn:P;
    simpl in G; [|discriminate].
  unfold mret, res_ret in G. inversion G; subst out; clear G.
  rewrite split_join_lines; [reflexivity | |].
  - rewrite (sql_parts_shape _ _ _ _ P). discriminate.
  - now apply (sql_parts_single_line model_name ref_model_name c).
Qed.

End Lines.

(** C5 (section omission and order).  Whenever rendering returns an
    artifact, it is the line-feed join of [sql_parts], and for inputs
    without line feeds the parts are exactly its lines.  If no column is
    classified FACT, no part is the FACTS header; if no column is classified
    DIMENSION, no part is the DIMENSIONS header; and when both categories
    occur, the parts split as [before ++ FACTS header :: body ++ DIMENSIONS
    header :: after] with neither header anywhere else, so the FACTS block
    comes first. *)
Theorem section_omission (model_name ref_model_name : string)
        (c : classification) (out : string) :
  generate_semantic_view_sql model_name c ref_model_name = Ok out ->
  exists parts,
    sql_parts model_name c ref_model_name = Ok parts /\
    out = PyStr.join (String "010" "") parts /\
    (single_line_inputs model_name ref_model_name c = true ->
     PyStr.split (String "010" "") out = parts) /\
    (has_type "FACT" c = false -> facts_header ∉ parts) /\
    (has_type "DIMENSION" c = false -> dimensions_header ∉ parts) /\
    (has_type "FACT" c = true -> has_type "DIMENSION" c = true ->
     exists before body after,
       parts = before ++ facts_header :: body ++ dimensions_header :: after /\
       forall p, p ∈ before ++ body ++ after ->
                 p <> facts_header /\ p <> dimensions_header).
Proof.
  unfold generate_semantic_view_sql. intros H.
  destruct (sql_parts model_name c ref_model_name) as [parts|e] eqn:P;
    simpl in H; [|discriminate].
  unfold mret, res_ret in H. inversion H; subst out; clear H.
  exists parts. split; [reflexivity|]. split; [reflexivity|].
  split.
  { intros L. apply split_join_lines.
    - rewrite (sql_parts_shape _ _ _ _ P). discriminate.
    - now apply (sql_parts_single_line model_name ref_model_name c). }
  pose proof (sql_parts_shape _ _ _ _ P) as S.
  set (facts := List.filter (typed_as "FACT") (default [] (columns c))) in *.
  set (dims := List.filter (typed_as "DIMENSION") (default [] (columns c))) in *.
  set (tables := tables_block ref_model_name (default [] (primary_keys c))) in *.
  assert (Hpre : forall p, p ∈ config_block ++ tables ->
                           p <> facts_header /\ p <> dimensions_header).
  { intros p Hp. apply elem_of_app in Hp as [Hp | Hp].
    - now apply config_block_no_header.
    - now apply tables_block_no_header in Hp. }
  split; [|split].
  - (* no FACT column *)
    intros NF Hin. apply has_type_filter in NF. fold facts in NF.
    rewrite S, NF in Hin. change (facts_block []) with (@nil string) in Hin.
    rewrite app_assoc, app_nil_l in Hin. apply elem_of_app in Hin as [Hin | Hin].
    { now apply Hpre in Hin as [N _]. }
    destruct (dimensions_block_cases model_name dims) as [[_ E] | [_ E]];
      rewrite E in Hin.
    + apply list_elem_of_singleton in Hin.
      now apply (proj1 (overall_comment_no_header model_name)).
    + apply elem_of_cons in Hin as [Hin | Hin]; [text_clash|].
      now apply dimensions_tail_no_header in Hin as [N _].
  - (* no DIMENSION column *)
    intros ND Hin. apply has_type_filter in ND. fold dims in ND.
    rewrite S, ND in Hin. change (dimensions_block []) with (@nil string) in Hin.
    rewrite app_assoc, app_nil_l in Hin. apply elem_of_app in Hin as [Hin | Hin].
    { now apply Hpre in Hin as [_ N]. }
    apply elem_of_app in Hin as [Hin | Hin].
    + destruct (facts_block_cases facts) as [[_ E] | [_ E]]; rewrite E in Hin.
      * now apply elem_of_nil in Hin.
      * apply elem_of_cons in Hin as [Hin | Hin]; [text_clash|].
        now apply facts_body_no_header in Hin as [_ N].
    + apply list_elem_of_singleton in Hin.
      now apply (proj2 (overall_comment_no_header model_name)).
  - (* both categories occur *)
    intros HF HD.
    assert (NF : facts <> []).
    { intros E. apply has_type_filter in E. congruence. }
    assert (ND : dims <> []).
    { intros E. apply has_type_filter in E. congruence. }
    destruct (facts_block_cases facts) as [[E _] | [_ EF]]; [contradiction|].
    destruct (dimensions_block_cases model_name dims) as [[E _] | [_ ED]];
      [contradiction|].
    exists (config_block ++ tables), (facts_body facts),
      (dimensions_tail model_name dims).
    split.
    + rewrite S, EF, ED. rewrite <- !app_assoc. reflexivity.
    + intros p Hp. apply elem_of_app in Hp as [Hp | Hp]; [now apply Hpre|].
      apply elem_of_app in Hp as [Hp | Hp].
      * now apply facts_body_no_header in Hp.
      * now apply dimensions_tail_no_header in Hp.
Qed.

Lemma section_omission_witness :
  exists out parts,
    generate_semantic_view_sql "orders" orders_classification "orders" = Ok out /\
    sql_parts "orders" orders_classification "orders" = Ok parts /\
    PyStr.split (String "010" "") out = parts /\
    exists before body after,
      parts = before ++ facts_header :: body ++ dimensions_header :: after /\
      forall p, p ∈ before ++ body ++ after ->
                p <> facts_header /\ p <> dimensions_header.
Proof.
  eexists.
  assert (G : generate_semantic_view_sql "orders" orders_classification "orders"
              = Ok _) by (vm_compute; reflexivity).
  destruct (section_omission _ _ _ _ G) as (parts & P & _ & L & _ & _ & B).
  exists parts. split; [exact G|]. split; [exact P|].
  split; [apply L; vm_compute; reflexivity|].
  apply B; vm_compute; reflexivity.
Defined.

(** ** The key clause *)

Lemma count_pk_lines_app (l1 l2 : list string) :
  count_pk_lines (l1 ++ l2) = (count_pk_lines l1 + count_pk_lines l2)%nat.
Proof. unfold count_pk_lines. now rewrite List.filter_app, length_app. Qed.

Lemma count_pk_lines_none (l : list string) :
  (forall p, p ∈ l -> is_pk_line p = false) -> count_pk_lines l = 0%nat.
Proof.
  unfold count_pk_lines. induction l as [|x l IH]; intros H; [reflexivity|].
  simpl. rewrite (H x) by left. apply IH. intros p Hp. apply H. now right.
Qed.

Lemma fact_lines_no_pk (n i : nat) (facts : list (string * column_info))
      (p : string) :
  p ∈ fact_lines n i facts -> is_pk_line p = false.
Proof.
  intros H.
  apply fact_lines_elem in H as [(col & info & _ & ->) | (cm & k & ->)];
    reflexivity.
Qed.

Lemma dimension_lines_no_pk (n i : nat) (dims : list (string * column_info))
      (p : string) :
  p ∈ dimension_lines n i dims -> is_pk_line p = false.
Proof.
  intros H.
  apply dimension_lines_elem in H
    as [(col & info & k & _ & -> & _) | (cm & k & ->)]; reflexivity.
Qed.

Lemma facts_block_no_pk (facts : list (string * column_info)) :
  count_pk_lines (facts_block facts) = 0%nat.
Proof.
  apply count_pk_lines_none. intros p H.
  destruct (facts_block_cases facts) as [[_ E] | [_ E]]; rewrite E in H.
  - now apply elem_of_nil in H.
  - apply elem_of_cons in H as [-> | H]; [reflexivity|].
    unfold facts_body in H. apply elem_of_app in H as [H | H].
    + eapply fact_lines_no_pk, H.
    + split_elems H; subst p; reflexivity.
Qed.

Lemma dimensions_block_no_pk (model_name : string)
      (dims : list (string * column_info)) :
  count_pk_lines (dimensions_block dims ++ [overall_comment model_name]) = 0%nat.
Proof.
  apply count_pk_lines_none. intros p H.
  destruct (dimensions_block_cases model_name dims) as [[_ E] | [_ E]];
    rewrite E in H.
  - apply list_elem_of_singleton in H as ->. reflexivity.
  - apply elem_of_cons in H as [-> | H]; [reflexivity|].
    unfold dimensions_tail in H. apply elem_of_app in H as [H | H].
    + eapply dimension_lines_no_pk, H.
    + split_elems H; subst p; reflexivity.
Qed.

(** the two shapes of the TABLES block *)
Lemma tables_block_cases (ref_model_name : string) (pks : list string) :
  ((pks = [] \/ pks = [""]) /\
   tables_block ref_model_name pks
   = ["TABLES ("; model_line ref_model_name; ")"; ""]) \/
  (pks <> [] /\ pks <> [""] /\
   tables_block ref_model_name pks
   = ["TABLES ("; model_line ref_model_name;
      pk_line (PyStr.join ", " (PyStr.upper <$> pks)); ")"; ""]).
Proof.
  unfold tables_block.
  destruct (PyStr.is_empty (PyStr.join ", " (PyStr.upper <$> pks))) eqn:E.
  - left. split; [now apply join_upper_empty | reflexivity].
  - right. split; [|split; [|reflexivity]]; intros ->; discriminate.
Qed.

(** key clauses occur in the TABLES block only *)
Lemma parts_split_tables (model_name ref_model_name : string)
      (c : classification) (parts : list string) :
  sql_parts model_name c ref_model_name = Ok parts ->
  exists rest,
    parts = config_block
            ++ tables_block ref_model_name (default [] (primary_keys c)) ++ rest /\
    count_pk_lines rest = 0%nat.
Proof.
  intros H. apply sql_parts_shape in H. eexists. split; [exact H|].
  now rewrite count_pk_lines_app, facts_block_no_pk, dimensions_block_no_pk.
Qed.

Lemma count_pk_lines_parts (model_name ref_model_name : string)
      (c : classification) (parts : list string) :
  sql_parts model_name c ref_model_name = Ok parts ->
  count_pk_lines parts
  = count_pk_lines (tables_block ref_model_name (default [] (primary_keys c))).
Proof.
  intros H. destruct (parts_split_tables _ _ _ _ H) as (rest & -> & Z).
  rewrite !count_pk_lines_app, Z. change (count_pk_lines config_block) with 0%nat.
  lia.
Qed.

(** C6, amended (key clause).  The TABLES block follows the config block.
    For the empty key list, and also for the list holding just the empty
    string, it has no PRIMARY KEY line and neither has the artifact; for
    every other key list it has the line [PRIMARY KEY (K1, K2, ...)] with
    the keys upper-cased and joined by a comma and a blank, and that is the
    artifact's only such line. *)
Theorem primary_key_clause (model_name ref_model_name : string)
        (c : classification) (parts : list string) :
  sql_parts model_name c ref_model_name = Ok parts ->
  let pks := default [] (primary_keys c) in
  (exists rest,
      parts = config_block ++ tables_block ref_model_name pks ++ rest /\
      count_pk_lines rest = 0%nat) /\
  (pks = [] \/ pks = [""] ->
   tables_block ref_model_name pks
   = ["TABLES ("; model_line ref_model_name; ")"; ""] /\
   count_pk_lines parts = 0%nat) /\
  (pks <> [] -> pks <> [""] ->
   tables_block ref_model_name pks
   = ["TABLES ("; model_line ref_model_name;
      pk_line (PyStr.join ", " (PyStr.upper <$> pks)); ")"; ""] /\
   count_pk_lines parts = 1%nat).
Proof.
  intros H pks. split; [now apply (parts_split_tables model_name)|].
  rewrite (count_pk_lines_parts _ _ _ _ H). fold pks.
  destruct (tables_block_cases ref_model_name pks) as [[D E] | (N1 & N2 & E)].
  - split.
    + intros _. rewrite E. split; reflexivity.
    + intros N1 N2. destruct D; contradiction.
  - split.
    + intros [D | D]; contradiction.
    + intros _ _. rewrite E. split; reflexivity.
Qed.

Lemma primary_key_clause_witness :
  exists parts,
    sql_parts "orders" orders_classification "orders" = Ok parts /\
    tables_block "orders" ["order_id"; "Created_At"]
    = ["TABLES ("; "  model AS {{ ref('orders') }}";
       "    PRIMARY KEY (ORDER_ID, CREATED_AT)"; ")"; ""] /\
    count_pk_lines parts = 1%nat.
Proof.
  eexists.
  assert (P : sql_parts "orders" orders_classification "orders" = Ok _)
    by (vm_compute; reflexivity).
  split; [exact P|].
  destruct (primary_key_clause _ _ _ _ P) as (_ & _ & K).
  apply K; discriminate.
Defined.

(** C6 as stated fails: the key list [[""]] is not empty, yet the artifact
    has no PRIMARY KEY line. *)
Lemma primary_key_clause_counterexample :
  primary_keys blank_key_classification = Some [""] /\
  sql_parts "orders" blank_key_classification "orders"
  = Ok (minimal_parts "orders" "orders") /\
  count_pk_lines (minimal_parts "orders" "orders") = 0%nat.
Proof. repeat split. Qed.

(** ** Upper-casing *)

Lemma tables_block_pk (ref_model_name : string) (pks : list string) (p : string) :
  p ∈ tables_block ref_model_name pks -> is_pk_line p = true ->
  p = pk_line (PyStr.join ", " (PyStr.upper <$> pks)).
Proof.
  intros H K.
  destruct (tables_block_cases ref_model_name pks) as [[_ E] | (_ & _ & E)];
    rewrite E in H; split_elems H; subst p;
    first [ reflexivity | discriminate K ].
Qed.

Lemma origin_pk_line (model_name ref_model_name : string) (c : classification)
      (p : string) :
  part_origin model_name ref_model_name c p -> is_pk_line p = true ->
  p = pk_line (PyStr.join ", " (PyStr.upper <$> default [] (primary_keys c))).
Proof.
  intros O K. destruct O as [p H | p H | | | p [-> | ->] | col i k _ _ _ | cm k | ];
    try discriminate K.
  - unfold config_block in H. split_elems H; subst p; discriminate K.
  - now apply (tables_block_pk ref_model_name).
Qed.

Lemma no_lower_column_ref (col comma : string) :
  comma = "" \/ comma = "," ->
  no_lower (PyStr.upper col +:+ " AS " +:+ PyStr.upper col +:+ comma) = true.
Proof.
  intros K. rewrite !no_lower_app, !no_lower_upper.
  destruct K as [-> | ->]; reflexivity.
Qed.

Lemma column_ref_text (col comma : string) :
  column_ref col +:+ comma
  = "  model." +:+ PyStr.upper col +:+ " AS " +:+ PyStr.upper col +:+ comma.
Proof. unfold column_ref. now rewrite !append_assoc. Qed.

Lemma origin_column_ref (model_name ref_model_name : string) (c : classification)
      (p : string) :
  part_origin model_name ref_model_name c p -> is_column_ref p = true ->
  exists col info comma,
    (col, info) ∈ default [] (columns c) /\
    (info_type info = Some "FACT" \/ info_type info = Some "DIMENSION") /\
    (comma = "" \/ comma = ",") /\
    p = column_ref col +:+ comma.
Proof.
  intros O K. destruct O as [p H | p H | | | p [-> | ->] | col i k Hin T Hk | cm k | ];
    try discriminate K.
  - unfold config_block in H. split_elems H; subst p; discriminate K.
  - destruct (tables_block_cases ref_model_name (default [] (primary_keys c)))
      as [[_ E] | (_ & _ & E)];
      rewrite E in H; split_elems H; subst p; discriminate K.
  - exists col, i, k. auto.
Qed.

(** every classified column is referenced in its section *)
Lemma classified_column_rendered (model_name ref_model_name : string)
      (c : classification) (parts : list string) (col : string)
      (i : column_info) :
  sql_parts model_name c ref_model_name = Ok parts ->
  (col, i) ∈ default [] (columns c) ->
  info_type i = Some "FACT" \/ info_type i = Some "DIMENSION" ->
  exists comma, column_ref col +:+ comma ∈ parts.
Proof.
  intros H Hin T. rewrite (sql_parts_shape _ _ _ _ H).
  destruct T as [T | T].
  - exists "". rewrite append_nil_r.
    assert (F : (col, i) ∈ List.filter (typed_as "FACT") (default [] (columns c))).
    { apply elem_of_filter_typed. split; [exact Hin|].
      unfold typed_as; simpl. now apply bool_decide_eq_true. }
    destruct (facts_block_cases (List.filter (typed_as "FACT") (default [] (columns c))))
      as [[E _] | [_ E]].
    { rewrite E in F. now apply elem_of_nil in F. }
    rewrite E. apply elem_of_app; right. apply elem_of_app; right.
    apply elem_of_app; left. right. unfold facts_body.
    apply elem_of_app; left. eapply fact_lines_complete, F.
  - assert (F : (col, i) ∈ List.filter (typed_as "DIMENSION") (default [] (columns c))).
    { apply elem_of_filter_typed. split; [exact Hin|].
      unfold typed_as; simpl. now apply bool_decide_eq_true. }
    destruct (dimension_lines_complete
                (length (List.filter (typed_as "DIMENSION") (default [] (columns c))))
                0 _ _ _ F) as [k Hk].
    exists k.
    destruct (dimensions_block_cases model_name
                (List.filter (typed_as "DIMENSION") (default [] (columns c))))
      as [[E _] | [_ E]].
    { rewrite E in F. now apply elem_of_nil in F. }
    apply elem_of_app; right. apply elem_of_app; right.
    apply elem_of_app; right. rewrite E. right. unfold dimensions_tail.
    apply elem_of_app; now left.
Qed.

(** C7 (upper-casing).  In every rendered artifact, a PRIMARY KEY line is
    [PRIMARY KEY (] followed by the comma-joined upper-cased keys, a text
    without lower-case letters; a column reference line is [  model.]
    followed by [COL AS COL] and at most a comma, where [COL] is the upper
    case of a classified column name, again without lower-case letters; and
    every column classified FACT or DIMENSION has such a line. *)
Theorem rendering_upper_cased (model_name ref_model_name : string)
        (c : classification) (parts : list string) :
  sql_parts model_name c ref_model_name = Ok parts ->
  let keys := PyStr.join ", " (PyStr.upper <$> default [] (primary_keys c)) in
  (forall p, p ∈ parts -> is_pk_line p = true ->
             p = "    PRIMARY KEY (" +:+ keys +:+ ")" /\ no_lower keys = true) /\
  (forall p, p ∈ parts -> is_column_ref p = true ->
     exists col info comma,
       (col, info) ∈ default [] (columns c) /\
       (comma = "" \/ comma = ",") /\
       p = "  model." +:+ PyStr.upper col +:+ " AS " +:+ PyStr.upper col +:+ comma /\
       no_lower (PyStr.upper col +:+ " AS " +:+ PyStr.upper col +:+ comma) = true) /\
  (forall col info,
     (col, info) ∈ default [] (columns c) ->
     info_type info = Some "FACT" \/ info_type info = Some "DIMENSION" ->
     exists comma,
       "  model." +:+ PyStr.upper col +:+ " AS " +:+ PyStr.upper col +:+ comma
       ∈ parts).
Proof.
  intros H keys. split; [|split].
  - intros p Hp K. split; [|apply no_lower_join_upper].
    now apply (origin_pk_line model_name ref_model_name c p);
      [apply (sql_parts_elem _ _ _ parts)|].
  - intros p Hp K.
    destruct (origin_column_ref model_name ref_model_name c p)
      as (col & i & k & Hin & _ & Hk & ->);
      [now apply (sql_parts_elem _ _ _ parts) | exact K |].
    exists col, i, k. split; [exact Hin|]. split; [exact Hk|].
    split; [apply column_ref_text | now apply no_lower_column_ref].
  - intros col i Hin T.
    destruct (classified_column_rendered _ _ _ _ col i H Hin T) as [k Hk].
    exists k. now rewrite <- column_ref_text.
Qed.

Lemma rendering_upper_cased_witness :
  exists parts,
    sql_parts "orders" orders_classification "orders" = Ok parts /\
    "    PRIMARY KEY (ORDER_ID, CREATED_AT)" ∈ parts /\
    (forall p, p ∈ parts -> is_pk_line p = true ->
               p = "    PRIMARY KEY (ORDER_ID, CREATED_AT)") /\
    exists comma,
      "  model.CUSTOMER_NAME AS CUSTOMER_NAME" +:+ comma ∈ parts.
Proof.
  eexists.
  assert (P : sql_parts "orders" orders_classification "orders" = Ok _)
    by (vm_compute; reflexivity).
  split; [exact P|].
  destruct (rendering_upper_cased _ _ _ _ P) as (K & _ & R).
  split; [|split].
  - apply list_elem_of_In. vm_compute. tauto.
  - intros p Hp Hk. now destruct (K p Hp Hk) as [-> _].
  - apply (R "Customer_Name" (info "DIMENSION" "who ordered")).
    + apply list_elem_of_In. vm_compute. tauto.
    + now right.
Defined.

(** ** Metadata loader *)

(** C8, amended (missing sidecar).  Without a sidecar file the loader
    returns the empty mapping and raises nothing.  The same holds for a
    document with a false truth value (the empty document [None], an empty
    mapping, ...) and for a mapping without the key [models]. *)
Theorem missing_sidecar :
  parse_model_yml None = Ok ∅ /\
  (forall config, Py.truthy config = false ->
                  parse_model_yml (Some config) = Ok ∅) /\
  (forall m, Py.lookup_key "models" m = None ->
             parse_model_yml (Some (YMap m)) = Ok ∅).
Proof.
  split; [reflexivity|]. split.
  - intros config T. unfold parse_model_yml. now rewrite T.
  - intros m L. unfold parse_model_yml.
    destruct (Py.truthy (YMap m)); [|reflexivity].
    assert (E : existsb (fun kv => Py.is_str "models" (fst kv)) m = false).
    { unfold Py.lookup_key in L.
      destruct (List.find _ m) as [kv|] eqn:F; [discriminate|].
      destruct (existsb _ m) eqn:X; [|reflexivity].
      apply List.existsb_exists in X as (kv & Hin & Hk).
      now rewrite (List.find_none _ _ F kv Hin) in Hk. }
    unfold Py.contains. simpl. now rewrite E.
Qed.

Lemma missing_sidecar_witness :
  parse_model_yml (Some YNull) = Ok ∅ /\
  parse_model_yml (Some (YMap [(YStr "version", YInt 2)])) = Ok ∅.
Proof.
  destruct missing_sidecar as (_ & F & M). split.
  - apply F. reflexivity.
  - apply M. reflexivity.
Defined.

(** C8 as stated fails: the document [5] has no top-level model collection,
    and the loader raises [TypeError] on it; so does the text [xmodels]. *)
Lemma missing_sidecar_counterexample :
  parse_model_yml (Some (YInt 5)) = Raise TypeError /\
  parse_model_yml (Some (YStr "xmodels")) = Raise TypeError.
Proof. split; reflexivity. Qed.

(** ** Version resolver *)

Lemma max_list_ge (l : list N) (x : N) : x ∈ l -> x <= max_list l.
Proof.
  induction l as [|y l IH]; intros H; [now apply elem_of_nil in H|].
  simpl. apply elem_of_cons in H as [-> | H]; [lia|].
  specialize (IH H). lia.
Qed.

Lemma max_list_le (l : list N) (b : N) :
  (forall x, x ∈ l -> x <= b) -> max_list l <= b.
Proof.
  induction l as [|y l IH]; intros H; simpl; [lia|].
  assert (y <= b) by (apply H; left).
  assert (max_list l <= b) by (apply IH; intros x Hx; apply H; now right).
  lia.
Qed.

(** the resolver on a directory with at least one matching file *)
Lemma get_next_version_some (fs : directory) (base_name : string) :
  glob (base_name +:+ "_semantic_view*.sql") fs <> [] ->
  get_next_version fs base_name
  = max_list (file_version <$> glob (base_name +:+ "_semantic_view*.sql") fs) + 1.
Proof.
  unfold get_next_version. intros N.
  destruct (glob _ fs) as [|f l]; [contradiction | reflexivity].
Qed.

Lemma get_next_version_none (fs : directory) (base_name : string) :
  glob (base_name +:+ "_semantic_view*.sql") fs = [] ->
  get_next_version fs base_name = 1.
Proof. unfold get_next_version. now intros ->. Qed.

(** the writer at a version above 1: one unconditional write *)
Lemma write_above_one (fs : directory) (model_name sql : string) :
  1 < get_next_version fs model_name ->
  let file := output_file_name model_name (get_next_version fs model_name) in
  write_semantic_view fs model_name sql
  = (<[file := sql]> fs, [EvWrite file sql; EvPrint ("    Generated " +:+ file)]).
Proof.
  intros V file. unfold write_semantic_view. fold file.
  apply N.ltb_lt in V. rewrite V. reflexivity.
Qed.

(** the writer reads a file only at version 1 *)
Lemma read_only_at_one (fs : directory) (model_name sql : string) :
  reads_a_file (snd (write_semantic_view fs model_name sql)) = true ->
  get_next_version fs model_name = 1.
Proof.
  destruct (N.lt_ge_cases 1 (get_next_version fs model_name)) as [V | V].
  - rewrite (write_above_one _ _ _ V). discriminate.
  - intros _. unfold get_next_version in *.
    destruct (glob _ fs) as [|f l]; [reflexivity|].
    destruct (file_version <$> f :: l); [reflexivity | lia].
Qed.

(** C3 (version monotonicity).  When the files of the output directory that
    match [model_semantic_view*.sql] are exactly [model_semantic_view.sql]
    and [model_semantic_view_v2.sql], the next version is 3 and the writer
    stores the new content under [model_semantic_view_v3.sql], whatever the
    existing files hold and without reading any of them. *)
Theorem version_monotonicity (fs : directory) (sql : string) :
  (forall f, f ∈ glob "model_semantic_view*.sql" fs <-> f = v1_file \/ f = v2_file) ->
  get_next_version fs "model" = 3 /\
  write_semantic_view fs "model" sql
  = (<[v3_file := sql]> fs,
     [EvWrite v3_file sql; EvPrint "    Generated model_semantic_view_v3.sql"]) /\
  reads_a_file (snd (write_semantic_view fs "model" sql)) = false.
Proof.
  intros G.
  assert (V : get_next_version fs "model" = 3).
  { rewrite get_next_version_some.
    - change ("model" +:+ "_semantic_view*.sql") with "model_semantic_view*.sql".
      set (l := glob _ fs) in *.
      assert (max_list (file_version <$> l) = 2); [|lia].
      apply N.le_antisymm.
      + apply max_list_le. intros x Hx.
        apply list_elem_of_fmap in Hx as (f & -> & Hf).
        apply G in Hf as [-> | ->]; vm_compute; discriminate.
      + apply max_list_ge. apply list_elem_of_fmap. exists v2_file.
        split; [reflexivity | apply G; now right].
    - change ("model" +:+ "_semantic_view*.sql") with "model_semantic_view*.sql".
      intros E. assert (H : v1_file ∈ glob "model_semantic_view*.sql" fs)
        by (apply G; now left).
      rewrite E in H. now apply elem_of_nil in H. }
  split; [exact V|].
  assert (W : write_semantic_view fs "model" sql
              = (<[v3_file := sql]> fs,
                 [EvWrite v3_file sql;
                  EvPrint "    Generated model_semantic_view_v3.sql"])).
  { rewrite write_above_one by (rewrite V; lia). rewrite V. reflexivity. }
  split; [exact W|]. rewrite W. reflexivity.
Qed.

Lemma version_monotonicity_witness :
  get_next_version (two_versions "old" "newer") "model" = 3 /\
  write_semantic_view (two_versions "old" "newer") "model" "newer"
  = (<[v3_file := "newer"]> (two_versions "old" "newer"),
     [EvWrite v3_file "newer"; EvPrint "    Generated model_semantic_view_v3.sql"]) /\
  reads_a_file (snd (write_semantic_view (two_versions "old" "newer") "model" "newer"))
  = false.
Proof.
  apply (version_monotonicity (two_versions "old" "newer") "newer").
  intros f. change (glob "model_semantic_view*.sql" (two_versions "old" "newer"))
              with [v2_file; v1_file].
  rewrite !elem_of_cons, elem_of_nil. tauto.
Defined.

(** C9, amended (lower bound of the next version).  When some file matches
    [<base>_semantic_view*.sql], the next version is one plus the largest
    version among the matching files, where a file name without [_v<N>]
    suffix stands for version 1.  It is at least 2 as soon as one matching
    file stands for a version of at least 1, and it is 1 only if every
    matching file stands for version 0.  Consequently the writer reads an
    existing file for comparison only when every matching file, if any,
    stands for version 0. *)
Theorem next_version_lower_bound (fs : directory) (base_name : string) :
  let files := glob (base_name +:+ "_semantic_view*.sql") fs in
  files <> [] ->
  get_next_version fs base_name = max_list (file_version <$> files) + 1 /\
  (forall f, search false version_pattern f = None -> file_version f = 1) /\
  ((exists f, f ∈ files /\ 1 <= file_version f) ->
   2 <= get_next_version fs base_name) /\
  (get_next_version fs base_name = 1 ->
   forall f, f ∈ files -> file_version f = 0) /\
  (forall sql,
     reads_a_file (snd (write_semantic_view fs base_name sql)) = true ->
     forall f, f ∈ files -> file_version f = 0).
Proof.
  intros files N.
  pose proof (get_next_version_some fs base_name N) as E. fold files in E.
  assert (Z : get_next_version fs base_name = 1 ->
              forall f, f ∈ files -> file_version f = 0).
  { intros V f Hf.
    assert (file_version f <= max_list (file_version <$> files)).
    { apply max_list_ge, list_elem_of_fmap. now exists f. }
    lia. }
  split; [exact E|]. split; [|split; [|split]].
  - intros f S. unfold file_version. now rewrite S.
  - intros (f & Hf & V).
    assert (file_version f <= max_list (file_version <$> files)).
    { apply max_list_ge, list_elem_of_fmap. now exists f. }
    lia.
  - exact Z.
  - intros sql R. apply Z. now apply (read_only_at_one fs base_name sql).
Qed.

Lemma next_version_lower_bound_witness :
  get_next_version (two_versions "old" "newer") "model" = 3 /\
  2 <= get_next_version (two_versions "old" "newer") "model".
Proof.
  destruct (next_version_lower_bound (two_versions "old" "newer") "model")
    as (E & _ & B & _).
  - vm_compute. discriminate.
  - split.
    + rewrite E. vm_compute. reflexivity.
    + apply B. exists v1_file. split.
      * apply list_elem_of_In. vm_compute. tauto.
      * vm_compute. discriminate.
Defined.

(** C9 as stated fails: [model_semantic_view_v0.sql] matches the pattern,
    yet the next version is 1, and the writer takes the version-1 path,
    creating [model_semantic_view.sql] next to it. *)
Lemma next_version_lower_bound_counterexample :
  glob "model_semantic_view*.sql" {[ v0_file := "old" ]} = [v0_file] /\
  get_next_version {[ v0_file := "old" ]} "model" = 1 /\
  write_semantic_view {[ v0_file := "old" ]} "model" "new"
  = (<[v1_file := "new"]> {[ v0_file := "old" ]},
     [EvWrite v1_file "new"; EvPrint "    Generated model_semantic_view.sql"]).
Proof. split; [|split]; vm_compute; reflexivity. Qed.

(** C1 (idempotence), evaluated: the first run on an empty directory writes
    [model_semantic_view.sql]; the second run with the very same content
    finds that file, takes it for version 1, resolves version 2 and writes
    [model_semantic_view_v2.sql], without comparing anything and without
    the message that the view is up to date. *)
Theorem second_run_writes_again (sql : string) :
  write_semantic_view ∅ "model" sql
  = ({[ v1_file := sql ]},
     [EvWrite v1_file sql; EvPrint "    Generated model_semantic_view.sql"]) /\
  get_next_version {[ v1_file := sql ]} "model" = 2 /\
  write_semantic_view {[ v1_file := sql ]} "model" sql
  = (<[v2_file := sql]> {[ v1_file := sql ]},
     [EvWrite v2_file sql; EvPrint "    Generated model_semantic_view_v2.sql"]).
Proof. split; [|split]; vm_compute; reflexivity. Qed.

(** ** Model parser *)

Section Parser.

#[local] Arguments consumed : simpl never.
#[local] Arguments match_here : simpl never.

Lemma length_append (a b : string) :
  String.length (a +:+ b) = (String.length a + String.length b)%nat.
Proof. induction a as [|x a IH]; simpl; [reflexivity | now rewrite IH]. Qed.

Lemma substring_prefix (p s : string) :
  String.substring 0 (String.length p) (p +:+ s) = p.
Proof.
  induction p as [|x p IH]; simpl; [now destruct s | now rewrite IH].
Qed.

(** a group that spans [p] captures [p] *)
Lemma consumed_at (p s s' : string) : s = p +:+ s' -> consumed s s' = p.
Proof.
  intros ->. unfold consumed. rewrite length_append.
  replace (String.length p + String.length s' - String.length s')%nat
    with (String.length p) by lia.
  apply substring_prefix.
Qed.

Lemma no_space_head (c : ascii) (t : string) :
  no_space (String c t) = true -> PyStr.isspace c = false /\ no_space t = true.
Proof.
  unfold no_space; simpl. intros H. apply andb_true_iff in H as [H T].
  apply negb_true_iff in H. auto.
Qed.

(** [\s+] and [\s*] on a text without white space *)
Lemma star_greedy_no_space (t : string) (cont : string -> option result) :
  no_space t = true -> star_greedy CSpace t cont = cont t.
Proof.
  destruct t as [|c t]; [reflexivity|].
  intros H. apply no_space_head in H as [H _]. simpl. now rewrite H.
Qed.

Lemma plus_greedy_no_space (t : string) (cont : string -> option result) :
  no_space t = true -> plus_greedy CSpace t cont = None.
Proof.
  destruct t as [|c t]; [reflexivity|].
  intros H. apply no_space_head in H as [H _]. simpl. now rewrite H.
Qed.

(** a literal leaves a suffix *)
Lemma lit_no_space (ic : bool) (p s s' : string) :
  lit ic p s = Some s' -> no_space s = true -> no_space s' = true.
Proof.
  revert s. induction p as [|a p IH]; intros s L H; simpl in L.
  - now inversion L; subst.
  - destruct s as [|b s]; [discriminate|].
    destruct (chr_eq ic a b); [|discriminate].
    apply no_space_head in H as [_ H]. now apply (IH s).
Qed.

Lemma keyword_then_space (ic : bool) (kw : string) (s : string)
      (cont : string -> option result) :
  no_space s = true ->
  match lit ic kw s with
  | Some s' => plus_greedy CSpace s' cont
  | None => None
  end = None.
Proof.
  intros H. destruct (lit ic kw s) as [s'|] eqn:L; [|reflexivity].
  apply plus_greedy_no_space. now apply (lit_no_space ic kw s).
Qed.

Lemma at_end_no_space (c : ascii) (t : string) :
  no_space (String c t) = true -> at_end (String c t) = false.
Proof.
  intros H. apply no_space_head in H as [H _].
  destruct t; [|reflexivity]. simpl.
  apply bool_decide_eq_false. intros ->. discriminate H.
Qed.

(** after [from], a table name without white space is read up to its
    end: no join keyword can follow, so [$] closes the match *)
Lemma select_tail_to_end (t : string) (caps : list string) :
  no_space t = true -> run true select_tail t caps finish = Some (caps, "").
Proof.
  unfold select_tail. cbn [run].
  induction t as [|c t IH]; intros H; [reflexivity|].
  cbn [star_lazy in_cls].
  rewrite (keyword_then_space true "left" (String c t)) by exact H.
  rewrite (keyword_then_space true "inner" (String c t)) by exact H.
  rewrite (at_end_no_space c t H).
  apply IH. now apply no_space_head in H.
Qed.

Lemma run_select_split (s : string) (caps : list string)
      (k : string -> list string -> option result) :
  run true select_pattern s caps k
  = run true select_head s caps (fun s' c' => run true select_tail s' c' k).
Proof. reflexivity. Qed.

(** the one match of the pattern in the sample query *)
Lemma match_sample_select (table : string) :
  no_space table = true ->
  match_here true select_pattern
    ("select " +:+ sample_projection +:+ " from " +:+ table)
  = Some ([sample_projection], "").
Proof.
  intros H. unfold match_here. rewrite run_select_split.
  fold finish.
  remember (fun s' c' => run true select_tail s' c' finish) as K eqn:EK.
  simpl. rewrite star_greedy_no_space by exact H.
  rewrite (consumed_at sample_projection) by reflexivity.
  rewrite EK. rewrite select_tail_to_end by exact H. reflexivity.
Qed.

Lemma findall_go_hit (ic : bool) (r : regex) (c : ascii) (s : string) (x : result) :
  match_here ic r (String c s) = Some x ->
  findall_go ic r (String c s) 0
  = group1 x
    :: findall_go ic r s
         (String.length (String c s) - String.length (snd x) - 1).
Proof. intros E. simpl. now rewrite E. Qed.

(** nothing is found while a previous match is passed over *)
Lemma findall_go_skip (ic : bool) (r : regex) (s : string) :
  match_here ic r "" = None -> findall_go ic r s (String.length s) = [].
Proof.
  intros E. induction s as [|c s IH]; simpl; [now rewrite E | exact IH].
Qed.

Lemma findall_sample_select (table : string) :
  no_space table = true ->
  findall true select_pattern
    ("select " +:+ sample_projection +:+ " from " +:+ table)
  = [sample_projection].
Proof.
  intros H. unfold findall.
  pose proof (match_sample_select table H) as M.
  change ("select " +:+ sample_projection +:+ " from " +:+ table)
    with (String "s" ("elect " +:+ sample_projection +:+ " from " +:+ table)) in *.
  rewrite (findall_go_hit _ _ _ _ _ M).
  change (group1 ([sample_projection], "")) with sample_projection.
  replace (String.length (String "s" ("elect " +:+ sample_projection +:+ " from " +:+ table))
           - String.length (snd ([sample_projection], "")) - 1)%nat
    with (String.length ("elect " +:+ sample_projection +:+ " from " +:+ table))
    by (simpl; lia).
  now rewrite findall_go_skip.
Qed.

End Parser.

(** C4 (column extraction).  For the query [select a.id, a.created_at as
    ts, b.name from <table>], with any table name free of white space, the
    extracted columns are [id], [ts], [name], in this order. *)
Theorem column_extraction (table : string) :
  no_space table = true ->
  fst (parse_sql_file ("select a.id, a.created_at as ts, b.name from " +:+ table))
  = ["id"; "ts"; "name"].
Proof.
  intros H. unfold parse_sql_file.
  change ("select a.id, a.created_at as ts, b.name from " +:+ table)
    with ("select " +:+ sample_projection +:+ " from " +:+ table).
  rewrite (findall_sample_select table H). reflexivity.
Qed.

Lemma column_extraction_witness :
  fst (parse_sql_file "select a.id, a.created_at as ts, b.name from orders")
  = ["id"; "ts"; "name"].
Proof. apply (column_extraction "orders"). reflexivity. Defined.

(** ** Letter case of extracted columns *)

Section Casing.

Variable p : ascii -> bool.

Lemma forallb_lstrip (s : string) :
  PyStr.forallb_str p s = true -> PyStr.forallb_str p (PyStr.lstrip s) = true.
Proof.
  induction s as [|c s IH]; simpl; [auto|].
  intros H. destruct (PyStr.isspace c); [|exact H].
  apply IH. now apply andb_true_iff in H as [_ H].
Qed.

Lemma forallb_rstrip (s : string) :
  PyStr.forallb_str p s = true -> PyStr.forallb_str p (PyStr.rstrip s) = true.
Proof.
  induction s as [|c s IH]; simpl; [auto|].
  intros H. apply andb_true_iff in H as [Hc H].
  destruct (PyStr.isspace c && PyStr.is_empty (PyStr.rstrip s)); [reflexivity|].
  simpl. now rewrite Hc, IH.
Qed.

Lemma forallb_strip (s : string) :
  PyStr.forallb_str p s = true -> PyStr.forallb_str p (PyStr.strip s) = true.
Proof. intros H. unfold PyStr.strip. now apply forallb_rstrip, forallb_lstrip. Qed.

Lemma forallb_remove_char (c : ascii) (s : string) :
  PyStr.forallb_str p s = true ->
  PyStr.forallb_str p (PyStr.remove_char c s) = true.
Proof.
  induction s as [|a s IH]; simpl; [auto|].
  intros H. apply andb_true_iff in H as [Ha H].
  destruct (bool_decide (a = c)); [now apply IH|].
  simpl. now rewrite Ha, IH.
Qed.

(** every piece of a split text is made of characters of the text *)
Lemma forallb_split_go (sep s : string) (skip : nat) (cur : string) :
  PyStr.forallb_str p s = true -> PyStr.forallb_str p cur = true ->
  Forall (fun piece => PyStr.forallb_str p piece = true)
         (PyStr.split_go sep s skip cur).
Proof.
  revert skip cur. induction s as [|c s IH]; intros skip cur Hs Hc; simpl.
  - now constructor.
  - simpl in Hs. apply andb_true_iff in Hs as [Hch Hs].
    destruct skip as [|k]; [|now apply IH].
    destruct (PyStr.startswith sep (String c s)).
    + constructor; [exact Hc | now apply IH].
    + apply IH; [exact Hs|].
      rewrite forallb_str_app, Hc. simpl. now rewrite Hch.
Qed.

Lemma forallb_last_str (l : list string) :
  Forall (fun piece => PyStr.forallb_str p piece = true) l ->
  PyStr.forallb_str p (PyStr.last_str l) = true.
Proof.
  unfold PyStr.last_str. induction 1 as [|x l Hx _ IH]; [reflexivity|].
  destruct l; [exact Hx | exact IH].
Qed.

End Casing.

(** the alias branch of the loop does yield lower-case names *)
Lemma aliased_item_lower (item col : string) :
  PyStr.contains " as " (PyStr.lower (PyStr.strip item)) = true ->
  column_of_item item = Some col -> no_upper col = true.
Proof.
  unfold column_of_item. intros A. rewrite A.
  destruct (negb _ && negb _); [|discriminate].
  intros E; inversion E; subst col; clear E.
  unfold no_upper.
  apply forallb_remove_char, forallb_remove_char, forallb_strip, forallb_last_str.
  apply forallb_split_go; [apply no_upper_lower | reflexivity].
Qed.

(** C2 (lower-case extraction), evaluated: of the two items of
    [select A.ID, b.Total AS Amount from orders], the aliased one comes out
    as [amount], the other one as [ID], which is not lower-case. *)
Theorem unaliased_column_keeps_case :
  fst (parse_sql_file "select A.ID, b.Total AS Amount from orders")
  = ["ID"; "amount"] /\
  column_of_item "A.ID" = Some "ID" /\
  no_upper "ID" = false /\
  no_upper "amount" = true.
Proof. repeat split; vm_compute; reflexivity. Qed.

(** ** The comparison branch of the writer *)

Section Unsuffixed.

#[local] Arguments consumed : simpl never.

Lemma fnmatch_star (pat name : string) :
  fnmatch (String "*" pat) name
  = fnmatch pat name ||
    match name with
    | String _ name' => fnmatch (String "*" pat) name'
    | EmptyString => false
    end.
Proof. destruct name; reflexivity. Qed.

(** a pattern that repeats the head of the name matches if the rest does *)
Lemma fnmatch_same_head (b pat name : string) :
  fnmatch pat name = true -> fnmatch (b +:+ pat) (b +:+ name) = true.
Proof.
  intros H. induction b as [|p b IH]; [exact H|].
  change (String p b +:+ pat) with (String p (b +:+ pat)).
  change (String p b +:+ name) with (String p (b +:+ name)).
  destruct (decide (p = "*"%char)) as [-> | N].
  - rewrite fnmatch_star. rewrite (fnmatch_star _ (b +:+ name)).
    rewrite IH. simpl. now rewrite orb_true_r.
  - simpl. rewrite (bool_decide_eq_false_2 _ N).
    rewrite (bool_decide_eq_true_2 (p = p) eq_refl), orb_true_r. exact IH.
Qed.

Lemma v1_file_matches (base_name : string) :
  fnmatch (base_name +:+ "_semantic_view*.sql") (base_name +:+ v1_suffix) = true.
Proof. apply fnmatch_same_head. reflexivity. Qed.

Lemma at_end_before_suffix (w : string) : at_end (w +:+ v1_suffix) = false.
Proof. destruct w as [|a [|b w]]; reflexivity. Qed.

(** [.sql] cannot be read across the start of the suffix *)
Lemma lit_sql_before_suffix (w s : string) :
  lit false ".sql" (w +:+ v1_suffix) = Some s -> exists w', s = w' +:+ v1_suffix.
Proof.
  destruct w as [|a [|b [|c [|d w]]]]; simpl; unfold chr_eq;
    repeat case_bool_decide; try discriminate;
    intros E; inversion E; subst. now exists w.
Qed.

Lemma lit_v_before_suffix (u s : string) :
  lit false "_v" (u +:+ v1_suffix) = Some s -> exists w, s = w +:+ v1_suffix.
Proof.
  destruct u as [|a [|b u]]; simpl; unfold chr_eq;
    repeat case_bool_decide; try discriminate;
    intros E; inversion E; subst. now exists u.
Qed.

Lemma star_digits_before_suffix (w : string) (cont : string -> option result) :
  (forall w', cont (w' +:+ v1_suffix) = None) ->
  star_greedy CDigit (w +:+ v1_suffix) cont = None.
Proof.
  intros C. induction w as [|c w IH].
  - apply (C "").
  - pose proof (C (String c w)) as Cc.
    change (String c w +:+ v1_suffix) with (String c (w +:+ v1_suffix)) in *.
    cbn [star_greedy in_cls]. rewrite IH, Cc. now destruct (PyStr.isdigit c).
Qed.

Lemma plus_digits_before_suffix (w : string) (cont : string -> option result) :
  (forall w', cont (w' +:+ v1_suffix) = None) ->
  plus_greedy CDigit (w +:+ v1_suffix) cont = None.
Proof.
  intros C. destruct w as [|c w]; [reflexivity|].
  change (String c w +:+ v1_suffix) with (String c (w +:+ v1_suffix)).
  cbn [plus_greedy in_cls]. rewrite star_digits_before_suffix by exact C.
  now destruct (PyStr.isdigit c).
Qed.

(** the version pattern matches nowhere in a name that ends in
    [_semantic_view.sql] *)
Lemma no_version_here (u : string) :
  match_here false version_pattern (u +:+ v1_suffix) = None.
Proof.
  unfold match_here, version_pattern. cbn [run].
  destruct (lit false "_v" (u +:+ v1_suffix)) as [s|] eqn:L; [|reflexivity].
  apply lit_v_before_suffix in L as [w ->].
  apply plus_digits_before_suffix. intros w'.
  destruct (lit false ".sql" (w' +:+ v1_suffix)) as [s|] eqn:L; [|reflexivity].
  apply lit_sql_before_suffix in L as [w'' ->].
  now rewrite at_end_before_suffix.
Qed.

Lemma no_version_anywhere (u : string) :
  search false version_pattern (u +:+ v1_suffix) = None.
Proof.
  induction u as [|c u IH].
  - vm_compute. reflexivity.
  - change (String c u +:+ v1_suffix) with (String c (u +:+ v1_suffix)).
    cbn [search].
    change (String c (u +:+ v1_suffix)) with (String c u +:+ v1_suffix).
    now rewrite no_version_here.
Qed.

(** the version-1 artifact of any model stands for version 1 *)
Lemma file_version_v1 (base_name : string) :
  file_version (base_name +:+ v1_suffix) = 1.
Proof. unfold file_version. now rewrite no_version_anywhere. Qed.

Lemma elem_of_glob (pattern f : string) (fs : directory) :
  f ∈ glob pattern fs <-> is_Some (fs !! f) /\ fnmatch pattern f = true.
Proof.
  unfold glob. rewrite list_elem_of_In, List.filter_In, <- list_elem_of_In.
  rewrite list_elem_of_fmap. split.
  - intros [([k v] & -> & H) M]. split; [|exact M].
    apply elem_of_map_to_list in H. simpl. eauto.
  - intros [[v H] M]. split; [|exact M].
    exists (f, v). split; [reflexivity | now apply elem_of_map_to_list].
Qed.

(** version 1 is resolved only while the version-1 artifact is absent *)
Lemma version_one_no_file (fs : directory) (base_name : string) :
  get_next_version fs base_name = 1 -> fs !! (base_name +:+ v1_suffix) = None.
Proof.
  intros V. destruct (fs !! (base_name +:+ v1_suffix)) as [c|] eqn:L; [|reflexivity].
  assert (G : base_name +:+ v1_suffix ∈ glob (base_name +:+ "_semantic_view*.sql") fs).
  { apply elem_of_glob. split; [eauto | apply v1_file_matches]. }
  assert (N : glob (base_name +:+ "_semantic_view*.sql") fs <> []).
  { intros E. rewrite E in G. now apply elem_of_nil in G. }
  rewrite (get_next_version_some _ _ N) in V.
  assert (file_version (base_name +:+ v1_suffix)
          <= max_list (file_version <$> glob (base_name +:+ "_semantic_view*.sql") fs)).
  { apply max_list_ge, list_elem_of_fmap. eauto. }
  rewrite file_version_v1 in *. lia.
Qed.

(** For a base name that [glob] reads literally, the writer never reads an
    existing file: the branch that compares contents and reports that the
    view is up to date is not reachable. *)
Lemma comparison_unreachable (fs : directory) (base_name sql : string) :
  plain_name base_name = true ->
  reads_a_file (snd (write_semantic_view fs base_name sql)) = false.
Proof.
  intros _.
  destruct (reads_a_file (snd (write_semantic_view fs base_name sql))) eqn:R;
    [|reflexivity].
  pose proof (read_only_at_one _ _ _ R) as V.
  pose proof (version_one_no_file _ _ V) as L.
  unfold write_semantic_view in R. rewrite V in R.
  change (output_file_name base_name 1) with (base_name +:+ v1_suffix) in R.
  rewrite L in R. discriminate R.
Qed.

(** Hence a second run always adds a file: whatever the first run left in
    the version-1 artifact, the next version is at least 2. *)
Lemma rerun_adds_version (fs : directory) (base_name sql : string) :
  plain_name base_name = true ->
  is_Some (fs !! (base_name +:+ v1_suffix)) ->
  2 <= get_next_version fs base_name /\
  write_semantic_view fs base_name sql
  = (<[output_file_name base_name (get_next_version fs base_name) := sql]> fs,
     [EvWrite (output_file_name base_name (get_next_version fs base_name)) sql;
      EvPrint ("    Generated "
               +:+ output_file_name base_name (get_next_version fs base_name))]).
Proof.
  intros _ [c L].
  assert (G : base_name +:+ v1_suffix ∈ glob (base_name +:+ "_semantic_view*.sql") fs).
  { apply elem_of_glob. split; [eauto | apply v1_file_matches]. }
  assert (N : glob (base_name +:+ "_semantic_view*.sql") fs <> []).
  { intros E. rewrite E in G. now apply elem_of_nil in G. }
  assert (V : 2 <= get_next_version fs base_name).
  { rewrite (get_next_version_some _ _ N).
    assert (file_version (base_name +:+ v1_suffix)
            <= max_list (file_version <$> glob (base_name +:+ "_semantic_view*.sql") fs)).
    { apply max_list_ge, list_elem_of_fmap. eauto. }
    rewrite file_version_v1 in *. lia. }
  split; [exact V|]. apply write_above_one. lia.
Qed.

End Unsuffixed.

(** * Further properties *)

(** ** Artifact names and the versions they stand for *)

Section Names.

#[local] Arguments consumed : simpl never.
#[local] Arguments match_here : simpl never.

Variable x : string.

Lemma at_end_before_view (w : string) : at_end (w +:+ view_suffix x) = false.
Proof. destruct w as [|a [|b w]]; reflexivity. Qed.

Lemma lit_sql_before_view (w s : string) :
  lit false ".sql" (w +:+ view_suffix x) = Some s ->
  exists w', s = w' +:+ view_suffix x.
Proof.
  destruct w as [|a [|b [|c [|d w]]]]; simpl; unfold chr_eq;
    repeat case_bool_decide; try discriminate;
    intros E; inversion E; subst. now exists w.
Qed.

Lemma lit_v_before_view (u s : string) :
  lit false "_v" (u +:+ view_suffix x) = Some s ->
  exists w, s = w +:+ view_suffix x.
Proof.
  destruct u as [|a [|b u]]; simpl; unfold chr_eq;
    repeat case_bool_decide; try discriminate;
    intros E; inversion E; subst. now exists u.
Qed.

Lemma star_digits_before_view (w : string) (cont : string -> option result) :
  (forall w', cont (w' +:+ view_suffix x) = None) ->
  star_greedy CDigit (w +:+ view_suffix x) cont = None.
Proof.
  intros C. induction w as [|c w IH].
  - apply (C "").
  - pose proof (C (String c w)) as Cc.
    change (String c w +:+ view_suffix x)
      with (String c (w +:+ view_suffix x)) in *.
    cbn [star_greedy in_cls]. rewrite IH, Cc. now destruct (PyStr.isdigit c).
Qed.

Lemma plus_digits_before_view (w : string) (cont : string -> option result) :
  (forall w', cont (w' +:+ view_suffix x) = None) ->
  plus_greedy CDigit (w +:+ view_suffix x) cont = None.
Proof.
  intros C. destruct w as [|c w]; [reflexivity|].
  change (String c w +:+ view_suffix x) with (String c (w +:+ view_suffix x)).
  cbn [plus_greedy in_cls]. rewrite star_digits_before_view by exact C.
  now destruct (PyStr.isdigit c).
Qed.

(** no version is read from the part of a name before [_semantic_view] *)
Lemma no_version_before_view (u : string) :
  match_here false version_pattern (u +:+ view_suffix x) = None.
Proof.
  unfold match_here, version_pattern. cbn [run].
  destruct (lit false "_v" (u +:+ view_suffix x)) as [s|] eqn:L; [|reflexivity].
  apply lit_v_before_view in L as [w ->].
  apply plus_digits_before_view. intros w'.
  destruct (lit false ".sql" (w' +:+ view_suffix x)) as [s|] eqn:L; [|reflexivity].
  apply lit_sql_before_view in L as [w'' ->].
  now rewrite at_end_before_view.
Qed.

Lemma search_step (r : regex) (c : ascii) (s : string) :
  match_here false r (String c s) = None ->
  search false r (String c s) = search false r s.
Proof. intros E. cbn [search]. now rewrite E. Qed.

(** the search for a version skips the base name and [_semantic_view] *)
Lemma search_after_view (u : string) :
  search false version_pattern (u +:+ view_suffix x)
  = search false version_pattern x.
Proof.
  induction u as [|c u IH].
  - change ("" +:+ view_suffix x) with (view_suffix x).
    unfold view_suffix. simpl. reflexivity.
  - change (String c u +:+ view_suffix x) with (String c (u +:+ view_suffix x)).
    rewrite search_step; [exact IH|].
    apply (no_version_before_view (String c u)).
Qed.

End Names.

Section Suffix.

#[local] Arguments consumed : simpl never.
#[local] Arguments match_here : simpl never.

Lemma digits_cons (c : ascii) (d : string) :
  PyStr.forallb_str PyStr.isdigit (String c d) = true ->
  PyStr.isdigit c = true /\ PyStr.forallb_str PyStr.isdigit d = true.
Proof. simpl. intros H. now apply andb_true_iff in H. Qed.

(** [\d*] takes a whole run of digits when the rest of the pattern then
    succeeds *)
Lemma star_digits_all (d rest : string) (cont : string -> option result)
      (r : result) :
  PyStr.forallb_str PyStr.isdigit d = true ->
  star_greedy CDigit rest cont = Some r ->
  star_greedy CDigit (d +:+ rest) cont = Some r.
Proof.
  intros D R. induction d as [|c d IH]; [exact R|].
  apply digits_cons in D as [Dc D].
  change (String c d +:+ rest) with (String c (d +:+ rest)).
  cbn [star_greedy in_cls]. now rewrite Dc, (IH D).
Qed.

(** a name that ends in [_v<digits>.sql] is read as those digits *)
Lemma match_version_suffix (d : string) :
  digits d = true ->
  match_here false version_pattern ("_v" +:+ d +:+ ".sql") = Some ([d], "").
Proof.
  unfold digits. intros H. apply andb_true_iff in H as [N D].
  unfold match_here, version_pattern. cbn [run].
  change (lit false "_v" ("_v" +:+ d +:+ ".sql")) with (Some (d +:+ ".sql")).
  cbv beta iota.
  destruct d as [|c d]; [discriminate|].
  apply digits_cons in D as [Dc D].
  change (String c d +:+ ".sql") with (String c (d +:+ ".sql")) at 1.
  cbn [plus_greedy in_cls]. rewrite Dc.
  apply star_digits_all; [exact D|].
  change (star_greedy CDigit ".sql"
            (fun s' => match lit false ".sql" s' with
                       | Some s'0 =>
                           if at_end s'0
                           then Some ([] ++ [consumed (String c d +:+ ".sql") s'], s'0)
                           else None
                       | None => None
                       end))
    with (Some ([] ++ [consumed (String c d +:+ ".sql") ".sql"], "")).
  now rewrite (consumed_at (String c d)).
Qed.

Lemma file_version_suffixed (base_name d : string) :
  digits d = true ->
  file_version (base_name +:+ "_semantic_view_v" +:+ d +:+ ".sql")
  = PyStr.int_of_digits d.
Proof.
  intros D. unfold file_version.
  change (base_name +:+ "_semantic_view_v" +:+ d +:+ ".sql")
    with (base_name +:+ view_suffix ("_v" +:+ d +:+ ".sql")).
  rewrite search_after_view.
  change ("_v" +:+ d +:+ ".sql") with (String "_" ("v" +:+ d +:+ ".sql")).
  cbn [search].
  change (String "_" ("v" +:+ d +:+ ".sql")) with ("_v" +:+ d +:+ ".sql").
  now rewrite (match_version_suffix d D).
Qed.

End Suffix.

(** ** Decimal numerals *)

Lemma int_go_app (a : N) (s t : string) :
  PyStr.int_go a (s +:+ t) = PyStr.int_go (PyStr.int_go a s) t.
Proof. revert a. induction s as [|c s IH]; intros a; simpl; [reflexivity | apply IH]. Qed.

Lemma pretty_N_go_app (n : N) (s : string) :
  pretty_N_go n s = pretty_N_go n "" +:+ s.
Proof.
  revert s. induction (N.lt_wf_0 n) as [n _ IH]; intros s.
  destruct (decide (n = 0)) as [-> | Hn].
  - now rewrite !pretty_N_go_0.
  - rewrite !(pretty_N_go_step n) by lia.
    rewrite (IH (n `div` 10)) by (apply N.div_lt; lia).
    rewrite (IH (n `div` 10) ltac:(apply N.div_lt; lia) (String _ "")).
    now rewrite append_assoc.
Qed.

Lemma digit_val_char (k : N) : k < 10 -> PyStr.digit_val (pretty_N_char k) = k.
Proof.
  intros H.
  destruct k as [|[[[|[]|]|[[]|[]|]|]|[[|[]|]|[[]|[]|]|]|]]; try reflexivity; lia.
Qed.

Lemma isdigit_char (k : N) : PyStr.isdigit (pretty_N_char k) = true.
Proof.
  destruct k as [|[[[|[]|]|[[]|[]|]|]|[[|[]|]|[[]|[]|]|]|]]; reflexivity.
Qed.

Lemma int_go_pretty (n : N) : PyStr.int_go 0 (pretty_N_go n "") = n.
Proof.
  induction (N.lt_wf_0 n) as [n _ IH].
  destruct (decide (n = 0)) as [-> | Hn]; [now rewrite pretty_N_go_0|].
  rewrite pretty_N_go_step by lia. rewrite pretty_N_go_app, int_go_app.
  rewrite IH by (apply N.div_lt; lia). simpl.
  rewrite digit_val_char by (apply N.mod_lt; lia).
  rewrite (N.div_mod n 10) at 3 by lia. lia.
Qed.

Lemma forallb_isdigit_pretty (n : N) (s : string) :
  PyStr.forallb_str PyStr.isdigit s = true ->
  PyStr.forallb_str PyStr.isdigit (pretty_N_go n s) = true.
Proof.
  revert s. induction (N.lt_wf_0 n) as [n _ IH]; intros s H.
  destruct (decide (n = 0)) as [-> | Hn]; [now rewrite pretty_N_go_0|].
  rewrite pretty_N_go_step by lia. apply IH; [apply N.div_lt; lia|].
  simpl. now rewrite isdigit_char, H.
Qed.

Lemma pretty_N_go_nonempty (n : N) (s : string) :
  n <> 0 -> PyStr.is_empty (pretty_N_go n s) = false.
Proof.
  intros Hn. rewrite pretty_N_go_step by lia. rewrite pretty_N_go_app.
  now destruct (pretty_N_go (n `div` 10) "").
Qed.

(** the decimal numeral of [n] is a run of digits that [int] reads back as
    [n] *)
Lemma pretty_digits (n : N) : digits (pretty n) = true.
Proof.
  unfold digits, pretty, pretty_N. destruct (decide (n = 0)); [reflexivity|].
  rewrite pretty_N_go_nonempty by assumption.
  now rewrite forallb_isdigit_pretty.
Qed.

Lemma int_of_pretty (n : N) : PyStr.int_of_digits (pretty n) = n.
Proof.
  unfold PyStr.int_of_digits, pretty, pretty_N.
  destruct (decide (n = 0)) as [-> |]; [reflexivity | apply int_go_pretty].
Qed.

(** ** One run of the writer *)

Lemma fnmatch_star_skip (pat y name : string) :
  fnmatch pat name = true -> fnmatch (String "*" pat) (y +:+ name) = true.
Proof.
  intros H. induction y as [|c y IH].
  - change ("" +:+ name) with name. rewrite fnmatch_star, H. reflexivity.
  - change (String c y +:+ name) with (String c (y +:+ name)).
    rewrite fnmatch_star, IH. apply orb_true_r.
Qed.

(** the resolver's pattern matches every name [<base>_semantic_view<y>.sql] *)
Lemma view_name_matches (base_name y : string) :
  fnmatch (base_name +:+ "_semantic_view*.sql")
          (base_name +:+ "_semantic_view" +:+ y +:+ ".sql") = true.
Proof.
  apply fnmatch_same_head.
  change (fnmatch (String "*" ".sql") (y +:+ ".sql") = true).
  now apply fnmatch_star_skip.
Qed.

Lemma output_name_matches (base_name : string) (n : N) :
  fnmatch (base_name +:+ "_semantic_view*.sql") (output_file_name base_name n) = true.
Proof.
  unfold output_file_name. destruct (n =? 1).
  - apply v1_file_matches.
  - apply (view_name_matches base_name ("_v" +:+ pretty n)).
Qed.

(** X1 (names and versions round trip).  The file name the writer chooses
    for version [n] is read back by the resolver as version [n], for every
    base name and every [n]: the unsuffixed name as 1, the name with
    [_v<n>] as [n]. *)
Theorem output_name_version (base_name : string) (n : N) :
  file_version (output_file_name base_name n) = n.
Proof.
  unfold output_file_name. destruct (n =? 1) eqn:E.
  - apply N.eqb_eq in E as ->. apply file_version_v1.
  - rewrite file_version_suffixed by apply pretty_digits. apply int_of_pretty.
Qed.

Lemma glob_version_below_next (fs : directory) (base_name g : string) :
  g ∈ glob (base_name +:+ "_semantic_view*.sql") fs ->
  file_version g < get_next_version fs base_name.
Proof.
  intros G.
  assert (N : glob (base_name +:+ "_semantic_view*.sql") fs <> []).
  { intros E. rewrite E in G. now apply elem_of_nil in G. }
  rewrite (get_next_version_some _ _ N).
  assert (file_version g
          <= max_list (file_version <$> glob (base_name +:+ "_semantic_view*.sql") fs)).
  { apply max_list_ge, list_elem_of_fmap. eauto. }
  lia.
Qed.

(** the name for the next version is not taken *)
Lemma next_name_is_free (fs : directory) (base_name : string) :
  fs !! output_file_name base_name (get_next_version fs base_name) = None.
Proof.
  destruct (fs !! output_file_name base_name (get_next_version fs base_name))
    as [c|] eqn:L; [|reflexivity].
  assert (G : output_file_name base_name (get_next_version fs base_name)
              ∈ glob (base_name +:+ "_semantic_view*.sql") fs).
  { apply elem_of_glob. split; [eauto | apply output_name_matches]. }
  apply glob_version_below_next in G. rewrite output_name_version in G. lia.
Qed.

Lemma write_once (fs : directory) (base_name sql : string) :
  write_semantic_view fs base_name sql
  = (<[output_file_name base_name (get_next_version fs base_name) := sql]> fs,
     [EvWrite (output_file_name base_name (get_next_version fs base_name)) sql;
      EvPrint ("    Generated "
               +:+ output_file_name base_name (get_next_version fs base_name))]).
Proof.
  unfold write_semantic_view. rewrite next_name_is_free.
  now destruct (1 <? get_next_version fs base_name).
Qed.

(** X2 (every run writes once).  For a base name that [glob] reads
    literally, the writer always creates exactly one file: the one named
    for the next version, holding the rendered text.  It reads no file and
    its only message is the one that names the file. *)
Theorem every_run_writes_once (fs : directory) (base_name sql : string) :
  plain_name base_name = true ->
  let file := output_file_name base_name (get_next_version fs base_name) in
  write_semantic_view fs base_name sql
  = (<[file := sql]> fs,
     [EvWrite file sql; EvPrint ("    Generated " +:+ file)]).
Proof. intros _ file. apply write_once. Qed.

Lemma every_run_writes_once_witness :
  write_semantic_view (two_versions "old" "newer") "model" "newer"
  = (<[v3_file := "newer"]> (two_versions "old" "newer"),
     [EvWrite v3_file "newer"; EvPrint "    Generated model_semantic_view_v3.sql"]).
Proof.
  pose proof (every_run_writes_once (two_versions "old" "newer") "model" "newer"
                eq_refl) as W.
  replace (get_next_version (two_versions "old" "newer") "model") with 3 in W
    by (vm_compute; reflexivity).
  exact W.
Defined.

(** X3 (nothing is overwritten).  For a base name that [glob] reads
    literally, the file of a run did not exist before the run, and every
    file that existed is still there with its content afterwards. *)
Theorem writer_never_overwrites (fs : directory) (base_name sql : string) :
  plain_name base_name = true ->
  fs !! output_file_name base_name (get_next_version fs base_name) = None /\
  forall f content,
    fs !! f = Some content ->
    fst (write_semantic_view fs base_name sql) !! f = Some content.
Proof.
  intros _. split; [apply next_name_is_free|].
  intros f content L. rewrite write_once. simpl.
  rewrite lookup_insert_ne; [exact L|].
  intros E. rewrite <- E, next_name_is_free in L. discriminate.
Qed.

Lemma writer_never_overwrites_witness :
  two_versions "old" "newer" !! v3_file = None /\
  fst (write_semantic_view (two_versions "old" "newer") "model" "newer") !! v1_file
  = Some "old".
Proof.
  destruct (writer_never_overwrites (two_versions "old" "newer") "model" "newer"
              eq_refl) as [F K].
  split.
  - replace (get_next_version (two_versions "old" "newer") "model") with 3 in F
      by (vm_compute; reflexivity).
    exact F.
  - apply K. vm_compute. reflexivity.
Defined.

Lemma elem_of_glob_insert (pattern f g content : string) (fs : directory) :
  g ∈ glob pattern (<[f := content]> fs) <->
  (g = f /\ fnmatch pattern f = true) \/ (g <> f /\ g ∈ glob pattern fs).
Proof.
  rewrite !elem_of_glob. destruct (decide (g = f)) as [-> | N].
  - rewrite lookup_insert_eq. split.
    + intros [_ M]. now left.
    + intros [[_ M] | [N _]]; [eauto | contradiction].
  - rewrite lookup_insert_ne by congruence. split.
    + intros H. now right.
    + intros [[E _] | [_ H]]; [contradiction | exact H].
Qed.

(** X4 (versions advance one by one).  For a base name that [glob] reads
    literally, after a run the next version is one more than it was before
    the run, whatever the directory held. *)
Theorem run_increments_version (fs : directory) (base_name sql : string) :
  plain_name base_name = true ->
  get_next_version (fst (write_semantic_view fs base_name sql)) base_name
  = get_next_version fs base_name + 1.
Proof.
  intros _. rewrite write_once. simpl.
  set (n := get_next_version fs base_name).
  set (file := output_file_name base_name n).
  set (pattern := base_name +:+ "_semantic_view*.sql").
  assert (In' : file ∈ glob pattern (<[file := sql]> fs)).
  { apply elem_of_glob_insert. left. split; [reflexivity|].
    apply output_name_matches. }
  assert (NE : glob pattern (<[file := sql]> fs) <> []).
  { intros E. rewrite E in In'. now apply elem_of_nil in In'. }
  rewrite (get_next_version_some _ _ NE). fold pattern.
  assert (max_list (file_version <$> glob pattern (<[file := sql]> fs)) = n); [|lia].
  apply N.le_antisymm.
  - apply max_list_le. intros v Hv.
    apply list_elem_of_fmap in Hv as (g & -> & Hg).
    apply elem_of_glob_insert in Hg as [[-> _] | [_ Hg]].
    + unfold file. rewrite output_name_version. lia.
    + apply glob_version_below_next in Hg. fold n in Hg. lia.
  - rewrite <- (output_name_version base_name n) at 1. fold file.
    apply max_list_ge, list_elem_of_fmap. eauto.
Qed.

Lemma run_increments_version_witness :
  get_next_version
    (fst (write_semantic_view (two_versions "old" "newer") "model" "newer")) "model"
  = 4.
Proof.
  rewrite (run_increments_version (two_versions "old" "newer") "model" "newer" eq_refl).
  vm_compute. reflexivity.
Defined.

(** X5 (a neighbour's artifact counts).  The resolver's pattern for a base
    name also matches the version-1 artifact of any other model whose name
    continues the base name with [_semantic_view]; such a file stands for
    version 1, so with it in the directory the base name never gets
    version 1. *)
Theorem neighbour_artifact_counts (fs : directory) (base_name x : string) :
  plain_name base_name = true ->
  is_Some (fs !! ((base_name +:+ "_semantic_view" +:+ x) +:+ "_semantic_view.sql")) ->
  2 <= get_next_version fs base_name.
Proof.
  intros _ L.
  set (other := base_name +:+ "_semantic_view" +:+ x) in *.
  assert (G : other +:+ "_semantic_view.sql"
              ∈ glob (base_name +:+ "_semantic_view*.sql") fs).
  { apply elem_of_glob. split; [exact L|]. unfold other.
    rewrite !append_assoc.
    replace (x +:+ "_semantic_view.sql") with ((x +:+ "_semantic_view") +:+ ".sql")
      by (now rewrite append_assoc).
    apply (view_name_matches base_name (x +:+ "_semantic_view")). }
  apply glob_version_below_next in G.
  change (other +:+ "_semantic_view.sql") with (other +:+ v1_suffix) in G.
  rewrite file_version_v1 in G. lia.
Qed.

Lemma neighbour_artifact_counts_witness :
  2 <= get_next_version
         {[ "orders_semantic_view_eu_semantic_view.sql" := "text" ]} "orders".
Proof.
  apply (neighbour_artifact_counts _ "orders" "_eu"); [reflexivity|].
  vm_compute. eauto.
Defined.

(** ** More on the generator *)

Lemma count_column_refs_app (l1 l2 : list string) :
  count_column_refs (l1 ++ l2)
  = (count_column_refs l1 + count_column_refs l2)%nat.
Proof. unfold count_column_refs. now rewrite List.filter_app, length_app. Qed.

Lemma count_column_refs_fact_lines (n i : nat)
      (facts : list (string * column_info)) :
  count_column_refs (fact_lines n i facts) = length facts.
Proof.
  revert i. induction facts as [|[col info] rest IH]; intros i; [reflexivity|].
  cbn [fact_lines]. unfold count_column_refs in *. cbn [List.filter].
  change (is_column_ref (column_ref col)) with true.
  change (is_column_ref (comment_line (default "" (info_comment info)) (comma_at i n)))
    with false.
  cbn [length]. now rewrite IH.
Qed.

Lemma count_column_refs_dimension_lines (n i : nat)
      (dims : list (string * column_info)) :
  count_column_refs (dimension_lines n i dims) = length dims.
Proof.
  revert i. induction dims as [|[col info] rest IH]; intros i; [reflexivity|].
  cbn [dimension_lines]. rewrite count_column_refs_app, IH.
  destruct (PyStr.is_empty (default "" (info_comment info))); reflexivity.
Qed.

(** X7 (one reference line per classified column).  A rendered artifact has
    as many column reference lines as the mapping has entries typed exactly
    [FACT] or [DIMENSION]; entries of any other category leave no line. *)
Theorem one_line_per_classified_column (model_name ref_model_name : string)
        (c : classification) (parts : list string) :
  sql_parts model_name c ref_model_name = Ok parts ->
  count_column_refs parts
  = (length (List.filter (typed_as "FACT") (default [] (columns c)))
     + length (List.filter (typed_as "DIMENSION") (default [] (columns c))))%nat.
Proof.
  intros H. rewrite (sql_parts_shape _ _ _ _ H).
  rewrite !count_column_refs_app.
  change (count_column_refs config_block) with 0%nat.
  change (count_column_refs [overall_comment model_name]) with 0%nat.
  assert (T : count_column_refs
                (tables_block ref_model_name (default [] (primary_keys c))) = 0%nat).
  { destruct (tables_block_cases ref_model_name (default [] (primary_keys c)))
      as [[_ E] | (_ & _ & E)]; rewrite E; reflexivity. }
  assert (F : forall facts, count_column_refs (facts_block facts) = length facts).
  { intros facts. destruct (facts_block_cases facts) as [[-> E] | [_ E]]; rewrite E;
      [reflexivity|].
    unfold facts_body. change (facts_header :: ?l) with ([facts_header] ++ l).
    rewrite !count_column_refs_app, count_column_refs_fact_lines.
    change (count_column_refs [facts_header]) with 0%nat.
    change (count_column_refs [")"; ""]) with 0%nat. lia. }
  assert (D : forall dims, count_column_refs (dimensions_block dims) = length dims).
  { intros dims. unfold dimensions_block. destruct dims as [|d ds]; [reflexivity|].
    rewrite !count_column_refs_app, count_column_refs_dimension_lines.
    change (count_column_refs ["DIMENSIONS ("]) with 0%nat.
    change (count_column_refs [")"]) with 0%nat. lia. }
  rewrite T, F, D. lia.
Qed.

Lemma one_line_per_classified_column_witness :
  exists parts,
    sql_parts "orders" orders_classification "orders" = Ok parts /\
    count_column_refs parts = 4%nat.
Proof.
  eexists.
  assert (P : sql_parts "orders" orders_classification "orders" = Ok _)
    by (vm_compute; reflexivity).
  split; [exact P|].
  rewrite (one_line_per_classified_column _ _ _ _ P). reflexivity.
Defined.

Lemma comma_at_inner (i k : nat) : comma_at i (i + S (S k)) = ",".
Proof.
  unfold comma_at. replace (i <? i + S (S k) - 1)%nat with true; [reflexivity|].
  symmetry. apply Nat.ltb_lt. lia.
Qed.

Lemma comma_at_last (i : nat) : comma_at i (S i) = "".
Proof.
  unfold comma_at. replace (i <? S i - 1)%nat with false; [reflexivity|].
  symmetry. apply Nat.ltb_ge. lia.
Qed.

Lemma fact_lines_commas (entries : list (string * column_info))
      (final : string * column_info) (i : nat) :
  fact_lines (i + S (length entries)) i (entries ++ [final])
  = flat_map (fact_entry ",") entries ++ fact_entry "" final.
Proof.
  revert i. induction entries as [|[col info] rest IH]; intros i.
  - destruct final as [col info]. simpl.
    replace (i + 1)%nat with (S i) by lia. now rewrite comma_at_last.
  - cbn [app fact_lines flat_map length].
    rewrite comma_at_inner.
    replace (i + S (S (length rest)))%nat with (S i + S (length rest))%nat by lia.
    rewrite IH. reflexivity.
Qed.

Lemma dimension_lines_commas (entries : list (string * column_info))
      (final : string * column_info) (i : nat) :
  dimension_lines (i + S (length entries)) i (entries ++ [final])
  = flat_map (dimension_entry ",") entries ++ dimension_entry "" final.
Proof.
  revert i. induction entries as [|[col info] rest IH]; intros i.
  - destruct final as [col info]. cbn [app dimension_lines flat_map length].
    replace (i + 1)%nat with (S i) by lia. rewrite comma_at_last.
    unfold dimension_entry. simpl fst. simpl snd. now rewrite app_nil_r.
  - cbn [app dimension_lines flat_map length].
    rewrite comma_at_inner.
    replace (i + S (S (length rest)))%nat with (S i + S (length rest))%nat by lia.
    rewrite IH. unfold dimension_entry at 2. simpl fst. simpl snd.
    now rewrite <- app_assoc.
Qed.

(** X8 (commas between entries).  In a FACTS section every entry but the
    last ends its comment line with a comma and the last one does not; in a
    DIMENSIONS section the comma sits on the comment line, or on the
    reference line of an entry without comment, again for every entry but
    the last. *)
Theorem commas_between_entries (entries : list (string * column_info))
        (final : string * column_info) :
  facts_block (entries ++ [final])
  = ["FACTS ("] ++ flat_map (fact_entry ",") entries ++ fact_entry "" final
    ++ [")"; ""] /\
  dimensions_block (entries ++ [final])
  = ["DIMENSIONS ("] ++ flat_map (dimension_entry ",") entries
    ++ dimension_entry "" final ++ [")"].
Proof.
  assert (L : length (entries ++ [final]) = (0 + S (length entries))%nat).
  { rewrite length_app. simpl. lia. }
  assert (N : entries ++ [final] <> []) by (now destruct entries).
  split.
  - replace (facts_block (entries ++ [final]))
      with (["FACTS ("] ++ fact_lines (length (entries ++ [final])) 0
                                      (entries ++ [final]) ++ [")"; ""])
      by (unfold facts_block; now destruct (entries ++ [final])).
    rewrite L, fact_lines_commas. now rewrite <- !app_assoc.
  - replace (dimensions_block (entries ++ [final]))
      with (["DIMENSIONS ("] ++ dimension_lines (length (entries ++ [final])) 0
                                               (entries ++ [final]) ++ [")"])
      by (unfold dimensions_block; now destruct (entries ++ [final])).
    rewrite L, dimension_lines_commas. now rewrite <- !app_assoc.
Qed.

Lemma upper_char_idem (c : ascii) :
  PyStr.upper_char (PyStr.upper_char c) = PyStr.upper_char c.
Proof. destruct c as [[] [] [] [] [] [] [] []]; vm_compute; reflexivity. Qed.

Lemma upper_idem (s : string) : PyStr.upper (PyStr.upper s) = PyStr.upper s.
Proof.
  unfold PyStr.upper. induction s as [|c s IH]; simpl; [reflexivity|].
  now rewrite upper_char_idem, IH.
Qed.

Lemma column_ref_upper (col : string) : column_ref (PyStr.upper col) = column_ref col.
Proof. unfold column_ref. now rewrite upper_idem. Qed.

Lemma fmap_upper_idem (pks : list string) :
  PyStr.upper <$> (PyStr.upper <$> pks) = PyStr.upper <$> pks.
Proof.
  induction pks as [|k pks IH]; [reflexivity|].
  rewrite !fmap_cons, upper_idem, IH. reflexivity.
Qed.

(** ** More on the metadata loader *)

Lemma foldM_app {A B : Type} (f : B -> A -> res B) (acc : B) (l1 l2 : list A) :
  foldM f acc (l1 ++ l2)
  = match foldM f acc l1 with
    | Ok acc' => foldM f acc' l2
    | Raise e => Raise e
    end.
Proof.
  revert acc. induction l1 as [|x l1 IH]; intros acc; [reflexivity|].
  simpl. destruct (f acc x) as [acc'|e]; simpl; [apply IH | reflexivity].
Qed.

Lemma foldM_invariant {A B : Type} (P : B -> Prop) (f : B -> A -> res B)
      (l : list A) (acc r : B) :
  (forall b x b', P b -> f b x = Ok b' -> P b') ->
  P acc -> foldM f acc l = Ok r -> P r.
Proof.
  intros Step. revert acc. induction l as [|x l IH]; intros acc HP H; simpl in H.
  - now inversion H; subst.
  - destruct (f acc x) as [acc'|e] eqn:E; simpl in H; [|discriminate].
    apply (IH acc'); [eapply Step; eauto | exact H].
Qed.

Lemma is_empty_lower (s : string) :
  PyStr.is_empty (PyStr.lower s) = PyStr.is_empty s.
Proof. now destruct s. Qed.

Lemma add_column_good (acc acc' : gmap string yaml) (column : yaml) :
  map_Forall good_description acc ->
  add_column acc column = Ok acc' ->
  map_Forall good_description acc'.
Proof.
  intros G. unfold add_column.
  destruct column as [| | | |l|m]; try discriminate.
  cbn [Py.get mbind res_bind].
  destruct (default (YStr "") (Py.lookup_key "name" m)) as [| | |s| |];
    try discriminate.
  cbn [Py.lower mbind res_bind]. unfold mret, res_ret.
  destruct (negb (PyStr.is_empty (PyStr.lower s))) eqn:N;
    [|intros E; inversion E; now subst].
  destruct (Py.truthy (default (YStr "") (Py.lookup_key "description" m))) eqn:T;
    cbn [andb]; intros E; inversion E; subst; [|exact G].
  apply map_Forall_insert_2; [|exact G].
  split; [|split].
  - intros Z. rewrite Z in N. discriminate.
  - apply no_upper_lower.
  - exact T.
Qed.

Lemma add_model_good (acc acc' : gmap string yaml) (model : yaml) :
  map_Forall good_description acc ->
  add_model acc model = Ok acc' ->
  map_Forall good_description acc'.
Proof.
  intros G. unfold add_model.
  destruct (Py.contains "columns" model) as [[|]|e]; cbn [mbind res_bind];
    try discriminate.
  - destruct (Py.getitem "columns" model) as [cols|e]; cbn [mbind res_bind];
      [|discriminate].
    destruct (Py.iter cols) as [items|e]; cbn [mbind res_bind]; [|discriminate].
    apply foldM_invariant; [|exact G].
    intros b x b'. apply add_column_good.
  - unfold mret, res_ret. intros E. inversion E. now subst.
Qed.

(** X10 (what a loaded mapping holds).  Whenever the loader returns a
    mapping, each of its keys is a non-empty text without upper-case
    letters and each of its values is true as a condition (so never an
    empty description). *)
Theorem loaded_descriptions_are_clean (sidecar : option yaml)
        (m : gmap string yaml) :
  parse_model_yml sidecar = Ok m ->
  forall k v, m !! k = Some v -> good_description k v.
Proof.
  intros H. change (map_Forall good_description m).
  unfold parse_model_yml in H.
  destruct sidecar as [config|];
    [|inversion H; apply map_Forall_empty].
  destruct (Py.truthy config); [|inversion H; apply map_Forall_empty].
  destruct (Py.contains "models" config) as [[|]|e]; cbn [mbind res_bind] in H;
    try discriminate; [|inversion H; apply map_Forall_empty].
  destruct (Py.getitem "models" config) as [models|e]; cbn [mbind res_bind] in H;
    [|discriminate].
  destruct (Py.iter models) as [items|e]; cbn [mbind res_bind] in H; [|discriminate].
  revert H. apply foldM_invariant; [|apply map_Forall_empty].
  intros b x b'. apply add_model_good.
Qed.

Lemma loaded_descriptions_are_clean_witness :
  good_description "order_id" (YStr "the key").
Proof.
  apply (loaded_descriptions_are_clean
           (Some (schema_doc [[("Order_ID", "the key"); ("", "nameless")]]))
           {[ "order_id" := YStr "the key" ]}).
  - vm_compute. reflexivity.
  - vm_compute. reflexivity.
Defined.

Lemma add_column_entry (acc : gmap string yaml) (nd : string * string) :
  add_column acc (column_entry nd) = Ok (record_description acc nd).
Proof. destruct nd as [n d]. reflexivity. Qed.

Lemma foldM_column_entries (acc : gmap string yaml) (cols : list (string * string)) :
  foldM add_column acc (column_entry <$> cols)
  = Ok (foldl record_description acc cols).
Proof.
  revert acc. induction cols as [|nd cols IH]; intros acc; [reflexivity|].
  rewrite fmap_cons. cbn [foldM foldl]. rewrite add_column_entry.
  cbn [mbind res_bind]. apply IH.
Qed.

Lemma add_model_columns (acc : gmap string yaml) (cols : list yaml) :
  add_model acc (model_of_columns cols) = foldM add_column acc cols.
Proof. reflexivity. Qed.

Lemma foldM_model_entries (acc : gmap string yaml)
      (models : list (list (string * string))) :
  foldM add_model acc (model_entry <$> models)
  = Ok (foldl record_description acc (concat models)).
Proof.
  revert acc. induction models as [|cols models IH]; intros acc; [reflexivity|].
  rewrite fmap_cons. cbn [foldM concat].
  change (model_entry cols) with (model_of_columns (column_entry <$> cols)).
  rewrite add_model_columns, foldM_column_entries. cbn [mbind res_bind].
  rewrite IH. now rewrite foldl_app.
Qed.

Lemma parse_doc_of_models (models : list yaml) :
  parse_model_yml (Some (doc_of_models models)) = foldM add_model ∅ models.
Proof. reflexivity. Qed.

Lemma lookup_record_description (acc : gmap string yaml) (nd : string * string)
      (k : string) :
  record_description acc nd !! k
  = if described k nd then Some (YStr (snd nd)) else acc !! k.
Proof.
  unfold record_description, described. rewrite is_empty_lower.
  destruct (negb (PyStr.is_empty (fst nd)) && negb (PyStr.is_empty (snd nd))) eqn:C.
  - rewrite <- andb_assoc, C, andb_true_r.
    destruct (String.eqb_spec (PyStr.lower (fst nd)) k) as [-> | N].
    + apply lookup_insert_eq.
    + now apply lookup_insert_ne.
  - rewrite <- andb_assoc, C, andb_false_r. reflexivity.
Qed.

Lemma lookup_foldl_descriptions (l : list (string * string))
      (acc : gmap string yaml) (k : string) :
  foldl record_description acc l !! k
  = match last (List.filter (described k) l) with
    | Some nd => Some (YStr (snd nd))
    | None => acc !! k
    end.
Proof.
  revert acc. induction l as [|nd l IH]; intros acc; [reflexivity|].
  cbn [foldl List.filter]. rewrite IH, lookup_record_description.
  destruct (described k nd); [|reflexivity].
  rewrite last_cons. now destruct (last (List.filter (described k) l)).
Qed.

(** X11 (last description wins).  For a schema document of the usual shape
    the loader succeeds, and a key maps to the description of the last
    column entry, over all models in order, whose lower-cased name is that
    key and whose name and description are not empty; a key without such an
    entry is absent. *)
Theorem last_description_wins (models : list (list (string * string))) :
  exists m,
    parse_model_yml (Some (schema_doc models)) = Ok m /\
    forall k,
      m !! k
      = (fun nd => YStr (snd nd))
          <$> last (List.filter (described k) (concat models)).
Proof.
  exists (foldl record_description ∅ (concat models)). split.
  - unfold schema_doc. now rewrite parse_doc_of_models, foldM_model_entries.
  - intros k. rewrite lookup_foldl_descriptions, lookup_empty.
    now destruct (last (List.filter (described k) (concat models))).
Qed.

Lemma add_column_bad (acc : gmap string yaml) (column : yaml) :
  bad_column column = true -> add_column acc column = Raise AttributeError.
Proof.
  unfold bad_column, add_column.
  destruct column as [| | | |l|m]; try reflexivity.
  cbn [Py.get mbind res_bind].
  destruct (Py.lookup_key "name" m) as [[| | |s| |]|]; try discriminate;
    reflexivity.
Qed.

Lemma contains_lookup_key (k : string) (m : list (yaml * yaml)) (v : yaml) :
  Py.lookup_key k m = Some v ->
  Py.truthy (YMap m) = true /\ Py.contains k (YMap m) = Ok true.
Proof.
  unfold Py.lookup_key. intros L.
  destruct (List.find _ m) as [kv|] eqn:F; [|discriminate].
  apply List.find_some in F as [Hin Hk]. split.
  - destruct m; [contradiction | reflexivity].
  - unfold Py.contains. f_equal. apply List.existsb_exists. eauto.
Qed.

(** X12 (malformed sidecars raise).  The loader does not skip what it
    cannot read.  If [models] holds something that cannot be iterated over
    (such as nothing at all, or a number), it raises [TypeError]; if, after
    any number of well-formed models and columns, a column entry is no
    mapping or has a name that is no text, it raises [AttributeError]. *)
Theorem malformed_sidecar_raises :
  (forall m v,
      Py.lookup_key "models" m = Some v -> not_iterable v = true ->
      parse_model_yml (Some (YMap m)) = Raise TypeError) /\
  (forall models cols bad rest more,
      bad_column bad = true ->
      parse_model_yml
        (Some (doc_of_models
                 ((model_entry <$> models)
                  ++ model_of_columns ((column_entry <$> cols) ++ bad :: rest)
                  :: more)))
      = Raise AttributeError).
Proof.
  split.
  - intros m v L NI. unfold parse_model_yml.
    destruct (contains_lookup_key _ _ _ L) as [T C]. rewrite T, C.
    cbn [mbind res_bind]. unfold Py.getitem. rewrite L. cbn [mbind res_bind].
    destruct v; try discriminate NI; reflexivity.
  - intros models cols bad rest more B.
    rewrite parse_doc_of_models, foldM_app, foldM_model_entries.
    cbn [foldM]. rewrite add_model_columns, foldM_app, foldM_column_entries.
    cbn [foldM]. now rewrite (add_column_bad _ _ B).
Qed.

Lemma malformed_sidecar_raises_witness :
  parse_model_yml (Some (YMap [(YStr "models", YNull)])) = Raise TypeError /\
  parse_model_yml
    (Some (doc_of_models
             [model_entry [("id", "the key")];
              model_of_columns
                [column_entry ("amount", "total");
                 YMap [(YStr "name", YInt 7); (YStr "description", YStr "seven")]]]))
  = Raise AttributeError.
Proof.
  destruct malformed_sidecar_raises as [A B]. split.
  - apply (A [(YStr "models", YNull)] YNull); reflexivity.
  - apply (B [[("id", "the key")]] [("amount", "total")]
             (YMap [(YStr "name", YInt 7); (YStr "description", YStr "seven")])
             [] []).
    reflexivity.
Defined.

(** ** More on the model parser *)

Section Pieces.

Variable sep : ascii.

Lemma lacks_cons (c a : ascii) (s : string) :
  lacks c (String a s) = true -> a <> c /\ lacks c s = true.
Proof.
  unfold lacks; simpl. intros H. apply andb_true_iff in H as [Ha Hs].
  apply negb_true_iff, bool_decide_eq_false in Ha. auto.
Qed.

Lemma lacks_app (c : ascii) (a b : string) :
  lacks c (a +:+ b) = lacks c a && lacks c b.
Proof. apply forallb_str_app. Qed.

(** a text without the separator is not split *)
Lemma split_go_lacks (x rest cur : string) :
  lacks sep x = true ->
  PyStr.split_go (String sep "") (x +:+ rest) 0 cur
  = PyStr.split_go (String sep "") rest 0 (cur +:+ x).
Proof.
  revert cur. induction x as [|c x IH]; intros cur H.
  - now rewrite append_nil_r.
  - apply lacks_cons in H as [Hc Hx].
    change (String c x +:+ rest) with (String c (x +:+ rest)).
    cbn [PyStr.split_go PyStr.startswith].
    rewrite (bool_decide_eq_false_2 (sep = c)) by congruence.
    cbn [andb]. rewrite (IH _ Hx), append_assoc. reflexivity.
Qed.

Lemma split_go_sep (rest cur : string) :
  PyStr.split_go (String sep "") (String sep rest) 0 cur
  = cur :: PyStr.split_go (String sep "") rest 0 "".
Proof.
  cbn [PyStr.split_go PyStr.startswith].
  now rewrite (bool_decide_eq_true_2 (sep = sep) eq_refl).
Qed.

(** the pieces of a split do not contain the separator *)
Lemma split_go_pieces_lack (s cur : string) :
  lacks sep cur = true ->
  Forall (fun piece => lacks sep piece = true)
         (PyStr.split_go (String sep "") s 0 cur).
Proof.
  revert cur. induction s as [|c s IH]; intros cur H.
  - now constructor.
  - cbn [PyStr.split_go PyStr.startswith].
    destruct (bool_decide (sep = c)) eqn:E; cbn [andb].
    + constructor; [exact H | now apply IH].
    + apply IH. rewrite lacks_app, H. unfold lacks; simpl.
      apply bool_decide_eq_false in E.
      rewrite (bool_decide_eq_false_2 (c = sep)) by congruence. reflexivity.
Qed.

End Pieces.

Lemma lower_char_eq (c a : ascii) :
  PyStr.is_upper c = false -> PyStr.is_lower c = false ->
  bool_decide (PyStr.lower_char a = c) = bool_decide (a = c).
Proof.
  intros U L. destruct (decide (a = c)) as [-> | N].
  - unfold PyStr.lower_char. rewrite U. now rewrite !bool_decide_eq_true_2.
  - rewrite (bool_decide_eq_false_2 _ N). apply bool_decide_eq_false.
    intros E. subst c.
    destruct a as [[] [] [] [] [] [] [] []]; vm_compute in U, L, N;
      first [discriminate | now apply N].
Qed.

Lemma lacks_lower (c : ascii) (s : string) :
  PyStr.is_upper c = false -> PyStr.is_lower c = false ->
  lacks c (PyStr.lower s) = lacks c s.
Proof.
  intros U L. unfold lacks, PyStr.lower.
  induction s as [|a s IH]; simpl; [reflexivity|].
  now rewrite (lower_char_eq c a U L), IH.
Qed.

Lemma remove_char_lacks (c : ascii) (s : string) :
  lacks c (PyStr.remove_char c s) = true.
Proof.
  unfold lacks. induction s as [|a s IH]; simpl; [reflexivity|].
  destruct (bool_decide (a = c)) eqn:E; [exact IH|].
  simpl. now rewrite E, IH.
Qed.

(** what the loop body lets through *)
Lemma column_of_item_clean (item col : string) :
  lacks "," item = true ->
  column_of_item item = Some col ->
  PyStr.is_empty col = false /\ PyStr.startswith "--" col = false /\
  lacks "'" col = true /\ lacks "034" col = true /\ lacks "," col = true.
Proof.
  intros C. unfold column_of_item.
  set (raw := if PyStr.contains " as " (PyStr.lower (PyStr.strip item))
              then _ else _).
  destruct (negb (PyStr.is_empty _)) eqn:E1; [|discriminate].
  destruct (negb (PyStr.startswith "--" _)) eqn:E2; [|discriminate].
  cbn [andb]. intros E; inversion E; subst col; clear E.
  apply negb_true_iff in E1, E2.
  split; [exact E1|]. split; [exact E2|].
  split; [apply remove_char_lacks|].
  split; [apply forallb_remove_char, remove_char_lacks|].
  assert (R : lacks "," raw = true).
  { unfold raw, lacks.
    destruct (PyStr.contains " as " (PyStr.lower (PyStr.strip item))).
    - apply forallb_strip, forallb_last_str, forallb_split_go; [|reflexivity].
      change (lacks "," (PyStr.lower (PyStr.strip item)) = true).
      rewrite lacks_lower by reflexivity. now apply forallb_strip.
    - apply forallb_strip, forallb_last_str, forallb_split_go; [|reflexivity].
      now apply forallb_strip. }
  now apply forallb_remove_char, forallb_remove_char.
Qed.

Lemma parse_columns_from_items (content col : string) :
  col ∈ fst (parse_sql_file content) ->
  exists item,
    item ∈ PyStr.split "," (final_select content) /\
    column_of_item item = Some col.
Proof.
  unfold parse_sql_file, final_select. simpl.
  destruct (findall true select_pattern content) as [|m ms] eqn:F.
  { intros H. now apply elem_of_nil in H. }
  unfold columns_of_select. intros H.
  apply list_elem_of_omap in H as (item & Hin & Hc). eauto.
Qed.

(** X13 (what an extracted column looks like).  Whatever the file holds,
    every extracted column name is non-empty, does not begin with the
    comment marker [--], and contains neither a single quote, nor a double
    quote, nor a comma. *)
Theorem extracted_columns_are_clean (content col : string) :
  col ∈ fst (parse_sql_file content) ->
  PyStr.is_empty col = false /\ PyStr.startswith "--" col = false /\
  lacks "'" col = true /\ lacks "034" col = true /\ lacks "," col = true.
Proof.
  intros H. apply parse_columns_from_items in H as (item & Hin & Hc).
  apply (column_of_item_clean item); [|exact Hc].
  unfold PyStr.split in Hin.
  pose proof (split_go_pieces_lack "," (final_select content) "" eq_refl) as P.
  rewrite Forall_forall in P. now apply P.
Qed.

Lemma extracted_columns_are_clean_witness :
  lacks "'" "ts" = true /\ lacks "," "ts" = true.
Proof.
  destruct (extracted_columns_are_clean
              "select a.id, a.created_at as 'ts' from orders" "ts")
    as (_ & _ & Q & _ & C).
  - apply list_elem_of_In. vm_compute. tauto.
  - split; assumption.
Defined.

(** X14 (aliases come out in lower case).  If every item of the projection
    clause the columns are read from carries an alias, every extracted
    column name is free of upper-case letters. *)
Theorem aliased_columns_are_lower (content col : string) :
  (forall item, item ∈ PyStr.split "," (final_select content) ->
                aliased item = true) ->
  col ∈ fst (parse_sql_file content) ->
  no_upper col = true.
Proof.
  intros A H. apply parse_columns_from_items in H as (item & Hin & Hc).
  apply (aliased_item_lower item); [|exact Hc]. now apply A.
Qed.

Lemma aliased_columns_are_lower_witness : no_upper "amount" = true.
Proof.
  apply (aliased_columns_are_lower
           "SELECT A.ID AS Order_Id, b.Total AS Amount FROM orders" "amount").
  - intros item Hin. apply list_elem_of_In in Hin. vm_compute in Hin.
    destruct Hin as [<- | [<- | []]]; reflexivity.
  - apply list_elem_of_In. vm_compute. tauto.
Defined.

Section Keyword.

#[local] Arguments match_here : simpl never.

Lemma lit_startswith_lower (p s s' : string) :
  lit true p s = Some s' ->
  PyStr.startswith (PyStr.lower p) (PyStr.lower s) = true.
Proof.
  revert s. induction p as [|a p IH]; intros s H; [reflexivity|].
  destruct s as [|b s]; [discriminate|].
  cbn [lit chr_eq] in H.
  destruct (bool_decide (PyStr.lower_char a = PyStr.lower_char b)) eqn:E;
    [|discriminate].
  change (bool_decide (PyStr.lower_char a = PyStr.lower_char b)
          && PyStr.startswith (PyStr.lower p) (PyStr.lower s) = true).
  now rewrite E, (IH s H).
Qed.

(** a match of the pattern starts with the keyword, in any letter case *)
Lemma match_needs_select (s : string) (x : result) :
  match_here true select_pattern s = Some x ->
  PyStr.startswith "select" (PyStr.lower s) = true.
Proof.
  unfold match_here, select_pattern. cbn [run].
  destruct (lit true "select" s) as [s'|] eqn:L; [|discriminate].
  intros _. apply (lit_startswith_lower "select" s s' L).
Qed.

Lemma findall_without_select (s : string) (skip : nat) :
  PyStr.contains "select" (PyStr.lower s) = false ->
  findall_go true select_pattern s skip = [].
Proof.
  revert skip. induction s as [|c s IH]; intros skip H.
  - destruct skip; reflexivity.
  - change (PyStr.lower (String c s))
      with (String (PyStr.lower_char c) (PyStr.lower s)) in H.
    cbn [PyStr.contains] in H. apply orb_false_iff in H as [H0 H].
    destruct skip as [|k]; cbn [findall_go]; [|now apply IH].
    destruct (match_here true select_pattern (String c s)) as [x|] eqn:M.
    + apply match_needs_select in M.
      change (PyStr.lower (String c s))
        with (String (PyStr.lower_char c) (PyStr.lower s)) in M.
      rewrite M in H0. discriminate.
    + now apply IH.
Qed.

End Keyword.

(** X15 (no query, no columns).  A file whose text is ASCII and does not
    contain the word [select], in any letter case, yields the empty column
    list, and the text is handed on unchanged. *)
Theorem no_select_no_columns (content : string) :
  PyStr.isascii content = true ->
  PyStr.contains "select" (PyStr.lower content) = false ->
  parse_sql_file content = ([], content).
Proof.
  intros _ H. unfold parse_sql_file, findall.
  now rewrite (findall_without_select content 0 H).
Qed.

Lemma no_select_no_columns_witness :
  parse_sql_file "-- placeholder model, to be written" =
  ([], "-- placeholder model, to be written").
Proof. apply no_select_no_columns; reflexivity. Defined.

(** ** Reading back a plain projection *)

Section RoundTrip.

#[local] Arguments consumed : simpl never.
#[local] Arguments match_here : simpl never.

Lemma ident_char_facts (c : ascii) :
  ident_char c = true ->
  PyStr.isspace c = false /\ c <> ","%char /\ c <> "."%char /\ c <> "'"%char /\
  c <> "034"%char /\ c <> "-"%char /\ c <> " "%char.
Proof.
  destruct c as [[] [] [] [] [] [] [] []]; vm_compute; intros H;
    first [discriminate H | repeat split; discriminate].
Qed.

Lemma identifier_cons (x : string) :
  identifier x = true ->
  exists c w, x = String c w /\ ident_char c = true /\
              PyStr.forallb_str ident_char w = true.
Proof.
  unfold identifier. destruct x as [|c w]; [discriminate|]. simpl.
  intros H. apply andb_true_iff in H. eauto.
Qed.

Lemma ident_lacks (a : ascii) (x : string) :
  (forall c, ident_char c = true -> c <> a) ->
  PyStr.forallb_str ident_char x = true -> lacks a x = true.
Proof.
  intros N. unfold lacks. induction x as [|c x IH]; simpl; [reflexivity|].
  intros H. apply andb_true_iff in H as [Hc Hx].
  rewrite (bool_decide_eq_false_2 _ (N c Hc)). now rewrite IH.
Qed.

Lemma ident_no_space (x : string) :
  PyStr.forallb_str ident_char x = true -> no_space x = true.
Proof.
  unfold no_space. induction x as [|c x IH]; simpl; [reflexivity|].
  intros H. apply andb_true_iff in H as [Hc Hx].
  destruct (ident_char_facts c Hc) as [S _]. now rewrite S, IH.
Qed.

Lemma star_lazy_skip_word (w s : string) (cont : string -> option result) :
  blocked cont -> no_space w = true ->
  star_lazy CAny (w +:+ s) cont = star_lazy CAny s cont.
Proof.
  intros B. induction w as [|c w IH]; intros H; [reflexivity|].
  apply no_space_head in H as [Hc Hw].
  change (String c w +:+ s) with (String c (w +:+ s)).
  cbn [star_lazy in_cls]. rewrite (B c _ Hc). now apply IH.
Qed.

Lemma from_clause_blocked (g : string -> list string) :
  blocked (fun s => run true from_clause s (g s) finish).
Proof.
  intros c t H. unfold from_clause. cbn [run plus_greedy in_cls]. now rewrite H.
Qed.

Lemma lower_four (a b c d : ascii) :
  PyStr.lower_char "f" = PyStr.lower_char a ->
  PyStr.lower_char "r" = PyStr.lower_char b ->
  PyStr.lower_char "o" = PyStr.lower_char c ->
  PyStr.lower_char "m" = PyStr.lower_char d ->
  PyStr.lower (String a (String b (String c (String d "")))) = "from".
Proof.
  intros A B C D. unfold PyStr.lower. simpl.
  rewrite <- A, <- B, <- C, <- D. reflexivity.
Qed.

Ltac clash_with_separator :=
  match goal with
  | H : PyStr.lower_char _ = PyStr.lower_char ","%char |- _ =>
      vm_compute in H; discriminate H
  | H : PyStr.lower_char _ = PyStr.lower_char " "%char |- _ =>
      vm_compute in H; discriminate H
  end.

(** after [from], read inside an identifier, no white space follows *)
Lemma from_inside_identifier (x s s2 : string)
      (cont : string -> option result) :
  PyStr.forallb_str ident_char x = true ->
  PyStr.lower x <> "from" ->
  at_separator s ->
  lit true "from" (x +:+ s) = Some s2 ->
  plus_greedy CSpace s2 cont = None.
Proof.
  intros I N S L.
  destruct x as [|a [|b [|c [|d [|e x]]]]];
    destruct S as [-> | (t & [-> | ->])];
    cbn [String.append lit] in L; unfold chr_eq in L;
    repeat case_bool_decide; try discriminate L; try clash_with_separator;
    try (exfalso; apply N; now apply lower_four).
  all: inversion L; subst s2; clear L.
  all: cbn [PyStr.forallb_str] in I.
  all: repeat (apply andb_true_iff in I as [? I]).
  all: match goal with
       | H : ident_char ?c = true |- plus_greedy CSpace (String ?c _) _ = None =>
           destruct (ident_char_facts c H) as [Sp _];
           cbn [plus_greedy in_cls]; now rewrite Sp
       end.
Qed.

Lemma from_clause_after_blank (x s : string) (caps : list string) :
  identifier x = true -> PyStr.lower x <> "from" -> at_separator s ->
  run true from_clause (String " " (x +:+ s)) caps finish = None.
Proof.
  intros I N S. destruct (identifier_cons x I) as (c & w & -> & Hc & Hw).
  destruct (ident_char_facts c Hc) as [Sp _].
  unfold from_clause. cbn [run plus_greedy in_cls].
  change (PyStr.isspace " ") with true. cbv iota.
  change (String c w +:+ s) with (String c (w +:+ s)).
  cbn [star_greedy in_cls]. rewrite Sp.
  change (String c (w +:+ s)) with (String c w +:+ s).
  destruct (lit true "from" (String c w +:+ s)) as [s2|] eqn:L; [|reflexivity].
  apply (from_inside_identifier (String c w) s s2); assumption.
Qed.

Lemma join_head (y : string) (l : list string) (r : string) :
  at_separator r ->
  exists s, PyStr.join ", " (y :: l) +:+ r = y +:+ s /\ at_separator s.
Proof.
  intros R. destruct l as [|z l].
  - exists r. split; [reflexivity | exact R].
  - exists (", " +:+ PyStr.join ", " (z :: l) +:+ r). split.
    + change (PyStr.join ", " (y :: z :: l))
        with (y +:+ ", " +:+ PyStr.join ", " (z :: l)).
      now rewrite !append_assoc.
    + right. eexists. left. reflexivity.
Qed.

(** the lazy group runs over a whole list of identifiers *)
Lemma star_lazy_skip_body (g : string -> list string) (x : string)
      (l : list string) (r : string) :
  Forall (fun y => identifier y = true) (x :: l) ->
  Forall (fun y => PyStr.lower y <> "from") (x :: l) ->
  at_separator r ->
  star_lazy CAny (PyStr.join ", " (x :: l) +:+ r)
            (fun s => run true from_clause s (g s) finish)
  = star_lazy CAny r (fun s => run true from_clause s (g s) finish).
Proof.
  revert x. induction l as [|y l IH]; intros x I N R.
  - apply star_lazy_skip_word; [apply from_clause_blocked|].
    apply Forall_inv in I. destruct (identifier_cons x I) as (c & w & -> & Hc & Hw).
    apply ident_no_space. simpl. now rewrite Hc, Hw.
  - change (PyStr.join ", " (x :: y :: l))
      with (x +:+ ", " +:+ PyStr.join ", " (y :: l)).
    rewrite !append_assoc.
    rewrite star_lazy_skip_word; [|apply from_clause_blocked|].
    2:{ apply Forall_inv in I.
        destruct (identifier_cons x I) as (c & w & -> & Hc & Hw).
        apply ident_no_space. simpl. now rewrite Hc, Hw. }
    change (", " +:+ PyStr.join ", " (y :: l) +:+ r)
      with (String "," (String " " (PyStr.join ", " (y :: l) +:+ r))).
    cbn [star_lazy in_cls].
    pose proof (from_clause_blocked g ","%char
                  (String " " (PyStr.join ", " (y :: l) +:+ r)) eq_refl) as B.
    cbv beta in B. rewrite B. clear B.
    destruct (join_head y l r R) as (s & E & S). rewrite E.
    rewrite (from_clause_after_blank y s);
      [| now apply Forall_inv_tail, Forall_inv in I
       | now apply Forall_inv_tail, Forall_inv in N | exact S].
    rewrite <- E. apply IH.
    + now apply Forall_inv_tail in I.
    + now apply Forall_inv_tail in N.
    + exact R.
Qed.

(** the rest of the pattern on [ from <table>] *)
Lemma from_clause_to_end (table : string) (caps : list string) :
  no_space table = true ->
  run true from_clause (" from " +:+ table) caps finish = Some (caps, "").
Proof.
  intros H. unfold from_clause.
  change (run true (RPlus CSpace >> RStr "from" >> RPlus CSpace >> select_tail)%re
              (" from " +:+ table) caps finish)
    with (run true (RPlus CSpace >> RStr "from" >> RPlus CSpace)%re
              (" from " +:+ table) caps
              (fun s' c' => run true select_tail s' c' finish)).
  remember (fun s' c' => run true select_tail s' c' finish) as K eqn:EK.
  simpl. rewrite star_greedy_no_space by exact H.
  rewrite EK. now rewrite select_tail_to_end.
Qed.

Lemma match_select_prefix (c : ascii) (t : string) :
  PyStr.isspace c = false ->
  match_here true select_pattern ("select " +:+ String c t)
  = star_lazy CAny (String c t)
      (fun s' => run true from_clause s' ([] ++ [consumed (String c t) s']) finish).
Proof.
  intros H. unfold match_here, select_pattern. cbn [run].
  change (lit true "select" ("select " +:+ String c t))
    with (Some (String " " (String c t))).
  cbv iota. cbn [plus_greedy star_greedy in_cls].
  change (PyStr.isspace " ") with true. cbv iota. rewrite H. reflexivity.
Qed.

Lemma star_lazy_hit (k : cls) (s : string) (cont : string -> option result)
      (r : result) :
  cont s = Some r -> star_lazy k s cont = Some r.
Proof. intros H. destruct s; cbn [star_lazy]; now rewrite H. Qed.

(** the one match of the pattern in a query over plain columns *)
Lemma match_plain_select (x : string) (l : list string) (table : string) :
  Forall (fun y => identifier y = true) (x :: l) ->
  Forall (fun y => PyStr.lower y <> "from") (x :: l) ->
  no_space table = true ->
  match_here true select_pattern (plain_select (x :: l) table)
  = Some ([PyStr.join ", " (x :: l)], "").
Proof.
  intros I N T. unfold plain_select.
  set (body := PyStr.join ", " (x :: l)).
  assert (Hb : exists c t, body +:+ " from " +:+ table = String c t /\
                           PyStr.isspace c = false).
  { pose proof (Forall_inv I) as Ix.
    destruct (identifier_cons x Ix) as (c & w & -> & Hc & _).
    destruct (ident_char_facts c Hc) as [Sp _]. unfold body.
    destruct l; eexists c, _; (split; [reflexivity | exact Sp]). }
  destruct Hb as (c & t & E & Sp). rewrite E, (match_select_prefix c t Sp).
  rewrite <- E. unfold body.
  rewrite (star_lazy_skip_body
             (fun s' => [] ++ [consumed (PyStr.join ", " (x :: l) +:+ " from " +:+ table) s'])
             x l (" from " +:+ table) I N).
  2:{ right. eexists. right. reflexivity. }
  apply star_lazy_hit. rewrite (from_clause_to_end table _ T).
  now rewrite (consumed_at (PyStr.join ", " (x :: l))).
Qed.

Lemma findall_single (c : ascii) (s : string) (group : string) :
  match_here true select_pattern (String c s) = Some ([group], "") ->
  findall true select_pattern (String c s) = [group].
Proof.
  intros M. unfold findall. rewrite (findall_go_hit _ _ _ _ _ M).
  change (group1 ([group], "")) with group.
  replace (String.length (String c s) - String.length (snd ([group], "")) - 1)%nat
    with (String.length s) by (simpl; lia).
  now rewrite findall_go_skip.
Qed.

Lemma rstrip_no_space (s : string) : no_space s = true -> PyStr.rstrip s = s.
Proof.
  induction s as [|c s IH]; intros H; [reflexivity|].
  apply no_space_head in H as [Hc Hs]. simpl. now rewrite Hc, (IH Hs).
Qed.

Lemma strip_no_space (s : string) : no_space s = true -> PyStr.strip s = s.
Proof.
  intros H. unfold PyStr.strip.
  replace (PyStr.lstrip s) with s; [now apply rstrip_no_space|].
  destruct s as [|c s]; [reflexivity|].
  apply no_space_head in H as [Hc _]. simpl. now rewrite Hc.
Qed.

Lemma contains_as_lacks_blank (s : string) :
  lacks " " s = true -> PyStr.contains " as " s = false.
Proof.
  induction s as [|c s IH]; intros H; [reflexivity|].
  apply lacks_cons in H as [Hc Hs]. cbn [PyStr.contains PyStr.startswith].
  rewrite (bool_decide_eq_false_2 (" "%char = c)) by congruence.
  now rewrite (IH Hs).
Qed.

Lemma remove_char_absent (c : ascii) (s : string) :
  lacks c s = true -> PyStr.remove_char c s = s.
Proof.
  induction s as [|a s IH]; intros H; [reflexivity|].
  apply lacks_cons in H as [Ha Hs]. simpl.
  rewrite (bool_decide_eq_false_2 _ Ha). now rewrite (IH Hs).
Qed.

Lemma split_whole (sep : ascii) (x : string) :
  lacks sep x = true -> PyStr.split (String sep "") x = [x].
Proof.
  intros H. unfold PyStr.split. rewrite <- (append_nil_r x) at 1.
  now rewrite split_go_lacks.
Qed.

(** an identifier is its own column name *)
Lemma column_of_identifier (x : string) :
  identifier x = true -> column_of_item x = Some x.
Proof.
  intros I. destruct (identifier_cons x I) as (c & w & E & Hc & Hw).
  assert (F : PyStr.forallb_str ident_char x = true).
  { subst x. simpl. now rewrite Hc, Hw. }
  assert (L : forall a, (forall c, ident_char c = true -> c <> a) -> lacks a x = true).
  { intros a Ha. now apply ident_lacks. }
  unfold column_of_item.
  rewrite (strip_no_space x) by (now apply ident_no_space).
  rewrite contains_as_lacks_blank.
  2:{ rewrite lacks_lower by reflexivity. apply L. intros a Ha.
      now destruct (ident_char_facts a Ha) as (_ & _ & _ & _ & _ & _ & ?). }
  rewrite (split_whole "." x).
  2:{ apply L. intros a Ha.
      now destruct (ident_char_facts a Ha) as (_ & _ & ? & _). }
  change (PyStr.last_str [x]) with x.
  rewrite (strip_no_space x) by (now apply ident_no_space).
  rewrite (remove_char_absent "034" x).
  2:{ apply L. intros a Ha.
      now destruct (ident_char_facts a Ha) as (_ & _ & _ & _ & ? & _). }
  rewrite (remove_char_absent "'" x).
  2:{ apply L. intros a Ha.
      now destruct (ident_char_facts a Ha) as (_ & _ & _ & ? & _). }
  subst x. cbn [PyStr.is_empty PyStr.startswith negb andb].
  destruct (ident_char_facts c Hc) as (_ & _ & _ & _ & _ & D & _).
  rewrite (bool_decide_eq_false_2 ("-"%char = c)) by congruence. reflexivity.
Qed.

Lemma column_of_blank_identifier (x : string) :
  identifier x = true -> column_of_item (String " " x) = Some x.
Proof.
  intros I. transitivity (column_of_item x);
    [reflexivity | now apply column_of_identifier].
Qed.

Lemma split_go_identifiers (x : string) (l : list string) (cur : string) :
  Forall (fun y => identifier y = true) (x :: l) ->
  PyStr.split_go "," (PyStr.join ", " (x :: l)) 0 cur
  = (cur +:+ x) :: (String " " <$> l).
Proof.
  assert (C : forall y, identifier y = true -> lacks "," y = true).
  { intros y Iy. destruct (identifier_cons y Iy) as (c & w & -> & Hc & Hw).
    apply ident_lacks; [|simpl; now rewrite Hc, Hw].
    intros a Ha. now destruct (ident_char_facts a Ha) as (_ & ? & _). }
  revert x cur. induction l as [|y l IH]; intros x cur I.
  - change (PyStr.join ", " [x]) with x. rewrite <- (append_nil_r x) at 1.
    rewrite (split_go_lacks "," x "" cur) by (apply C; now apply Forall_inv in I).
    reflexivity.
  - change (PyStr.join ", " (x :: y :: l))
      with (x +:+ String "," (String " " "" +:+ PyStr.join ", " (y :: l))).
    rewrite (split_go_lacks "," x) by (apply C; now apply Forall_inv in I).
    rewrite split_go_sep.
    rewrite (split_go_lacks "," " ") by reflexivity.
    rewrite IH by (now apply Forall_inv_tail in I).
    reflexivity.
Qed.

Lemma columns_of_identifiers (x : string) (l : list string) :
  Forall (fun y => identifier y = true) (x :: l) ->
  columns_of_select (PyStr.join ", " (x :: l)) = x :: l.
Proof.
  intros I. unfold columns_of_select, PyStr.split.
  rewrite split_go_identifiers by exact I.
  change ("" +:+ x) with x. cbn [omap list_omap].
  rewrite (column_of_identifier x) by (now apply Forall_inv in I).
  f_equal. apply Forall_inv_tail in I. clear x.
  induction l as [|y l IH]; [reflexivity|].
  rewrite fmap_cons. cbn [omap list_omap].
  rewrite (column_of_blank_identifier y) by (now apply Forall_inv in I).
  f_equal. apply IH. now apply Forall_inv_tail in I.
Qed.

End RoundTrip.

(** X16 (a plain projection is read back).  For a query [select c1, c2,
    ... from <table>] whose columns are plain identifiers (letters, digits,
    underscores), none of them the word [from], and whose table name has no
    white space, the extracted column list is the list of columns itself:
    same names, same letter case, same order. *)
Theorem plain_projection_read_back (cols : list string) (table : string) :
  cols <> [] ->
  Forall (fun y => identifier y = true) cols ->
  Forall (fun y => PyStr.lower y <> "from") cols ->
  no_space table = true ->
  parse_sql_file (plain_select cols table) = (cols, plain_select cols table).
Proof.
  intros NE I N T. destruct cols as [|x l]; [contradiction|].
  unfold parse_sql_file.
  pose proof (match_plain_select x l table I N T) as M.
  change (plain_select (x :: l) table)
    with (String "s" ("elect " +:+ PyStr.join ", " (x :: l) +:+ " from " +:+ table))
    in M |- *.
  rewrite (findall_single _ _ _ M).
  change (List.last [PyStr.join ", " (x :: l)] "") with (PyStr.join ", " (x :: l)).
  now rewrite (columns_of_identifiers x l I).
Qed.

Lemma plain_projection_read_back_witness :
  parse_sql_file "select Order_ID, amount, created_at from analytics.orders"
  = (["Order_ID"; "amount"; "created_at"],
     "select Order_ID, amount, created_at from analytics.orders").
Proof.
  apply (plain_projection_read_back
           ["Order_ID"; "amount"; "created_at"] "analytics.orders").
  - discriminate.
  - repeat constructor.
  - repeat constructor; discriminate.
  - reflexivity.
Defined.

(** ** A run over a semantic directory *)

Lemma rfind_app (c : ascii) (a b : string) :
  rfind c (a +:+ b)
  = match rfind c b with
    | Some i => Some (String.length a + i)%nat
    | None => rfind c a
    end.
Proof.
  induction a as [|x a IH]; simpl.
  - now destruct (rfind c b).
  - rewrite IH. now destruct (rfind c b).
Qed.

(** the model name of a file [<base>.sql] is [<base>] *)
Lemma stem_sql (base : string) : base <> "" -> stem (base +:+ ".sql") = base.
Proof.
  intros N. unfold stem. rewrite rfind_app.
  change (rfind "." ".sql") with (Some 0%nat). cbv iota.
  replace (String.length base + 0)%nat with (String.length base) by lia.
  rewrite length_append. cbn [String.length].
  replace (0 <? String.length base)%nat with true
    by (symmetry; apply Nat.ltb_lt; destruct base; [contradiction | simpl; lia]).
  replace (String.length base <? String.length base + 4 - 1)%nat with true
    by (symmetry; apply Nat.ltb_lt; lia).
  apply substring_prefix.
Qed.

Lemma process_file_done (fs : directory) (j : job) (sql : string) :
  rendering_of j = Some sql ->
  exists log,
    process_file fs j
    = (<[output_file_name (stem (sql_name j))
           (get_next_version fs (stem (sql_name j))) := sql]> fs, log, None).
Proof.
  unfold rendering_of, process_file.
  destruct (parse_sql_file (sql_text j)) as [cols txt].
  destruct (sidecar_doc j) as [doc|].
  - destruct (parse_model_yml (Some doc)) as [d|e]; [|discriminate].
    cbn [mbind res_bind mret res_ret].
    destruct (reply j) as [c|]; [|discriminate].
    destruct (generate_semantic_view_sql _ c _) as [s|e]; [|discriminate].
    intros E; inversion E; subst s. rewrite write_once. eauto.
  - destruct (reply j) as [c|]; [|discriminate].
    destruct (generate_semantic_view_sql _ c _) as [s|e]; [|discriminate].
    intros E; inversion E; subst s. rewrite write_once. eauto.
Qed.

Lemma process_file_failed (fs : directory) (j : job) :
  rendering_of j = None ->
  exists log f, process_file fs j = (fs, log, Some f).
Proof.
  unfold rendering_of, process_file.
  destruct (parse_sql_file (sql_text j)) as [cols txt].
  destruct (sidecar_doc j) as [doc|].
  - destruct (parse_model_yml (Some doc)) as [d|e]; [|eauto].
    cbn [mbind res_bind mret res_ret].
    destruct (reply j) as [c|]; [|eauto].
    destruct (generate_semantic_view_sql _ c _) as [s|e]; [discriminate | eauto].
  - destruct (reply j) as [c|]; [|eauto].
    destruct (generate_semantic_view_sql _ c _) as [s|e]; [discriminate | eauto].
Qed.

(** what the loop leaves behind *)
Lemma process_files_account (jobs : list job) (fs : directory) :
  (forall f c, fs !! f = Some c ->
               fst (fst (process_files fs jobs)) !! f = Some c) /\
  size (fst (fst (process_files fs jobs))) = (size fs + completed jobs)%nat /\
  (snd (process_files fs jobs) = None <-> completed jobs = length jobs).
Proof.
  revert fs. induction jobs as [|j rest IH]; intros fs.
  - simpl. split; [auto|]. split; [lia | tauto].
  - cbn [process_files completed].
    destruct (rendering_of j) as [sql|] eqn:R.
    + destruct (process_file_done fs j sql R) as [log ->].
      set (fs1 := <[_ := sql]> fs).
      destruct (IH fs1) as (K & Z & C).
      destruct (process_files fs1 rest) as [[fs2 log2] r]. simpl in *.
      split; [|split].
      * intros f c L. apply K. unfold fs1.
        rewrite lookup_insert_ne; [exact L|].
        intros E. rewrite <- E, next_name_is_free in L. discriminate.
      * rewrite Z. unfold fs1.
        rewrite map_size_insert_None by apply next_name_is_free. lia.
      * rewrite C. split; lia.
    + destruct (process_file_failed fs j R) as (log & f & ->). simpl.
      split; [auto|]. split; [lia|]. split; [discriminate | lia].
Qed.

Lemma process_directory_files (semantic_dir : string) (jobs : list job)
      (fs : directory) :
  fst (fst (process_semantic_directory semantic_dir jobs fs))
  = fst (fst (process_files fs jobs)) /\
  snd (process_semantic_directory semantic_dir jobs fs)
  = snd (process_files fs jobs).
Proof.
  unfold process_semantic_directory. destruct jobs as [|j rest]; [now split|].
  now destruct (process_files fs (j :: rest)) as [[fs' log] r].
Qed.

(** X17 (what a run leaves behind).  For models whose names [glob] reads
    literally, a run over a semantic directory keeps every file of the
    output directory with its content and adds exactly one file for each
    model processed before the first failure; it ends without failure
    exactly when all models got their artifact. *)
Theorem run_accounting (semantic_dir : string) (jobs : list job)
        (fs : directory) :
  Forall (fun j => plain_name (stem (sql_name j)) = true) jobs ->
  let after := fst (fst (process_semantic_directory semantic_dir jobs fs)) in
  (forall f c, fs !! f = Some c -> after !! f = Some c) /\
  size after = (size fs + completed jobs)%nat /\
  (snd (process_semantic_directory semantic_dir jobs fs) = None <->
   completed jobs = length jobs).
Proof.
  intros _ after. unfold after.
  destruct (process_directory_files semantic_dir jobs fs) as [-> ->].
  apply process_files_account.
Qed.

Lemma run_accounting_witness :
  size (fst (fst (process_semantic_directory "models/shop/semantic"
                    [orders_job; broken_job] (two_versions "old" "newer"))))
  = 3%nat /\
  snd (process_semantic_directory "models/shop/semantic"
         [orders_job; broken_job] (two_versions "old" "newer")) <> None.
Proof.
  destruct (run_accounting "models/shop/semantic" [orders_job; broken_job]
              (two_versions "old" "newer")) as (_ & Z & C).
  - repeat constructor.
  - split.
    + rewrite Z. vm_compute. reflexivity.
    + intros E. apply C in E. vm_compute in E. discriminate.
Defined.

Lemma rendering_of_sql_name (j : job) (base sql : string) :
  sql_name j = base +:+ ".sql" -> base <> "" ->
  rendering_of j = Some sql ->
  exists c, reply j = Some c /\
            generate_semantic_view_sql base c base = Ok sql.
Proof.
  intros E N. unfold rendering_of. rewrite E, (stem_sql base N).
  destruct (reply j) as [c|].
  - destruct (generate_semantic_view_sql base c base) as [s|e] eqn:G.
    + destruct (sidecar_doc j) as [doc|];
        [destruct (parse_model_yml (Some doc)); [|discriminate]|];
        intros H; inversion H; subst; eauto.
    + destruct (sidecar_doc j) as [doc|];
        [destruct (parse_model_yml (Some doc))|]; discriminate.
  - destruct (sidecar_doc j) as [doc|];
      [destruct (parse_model_yml (Some doc))|]; discriminate.
Qed.

Lemma process_files_artifacts (jobs : list job) (fs : directory) (j : job)
      (sql : string) :
  j ∈ take (completed jobs) jobs -> rendering_of j = Some sql ->
  exists n,
    fst (fst (process_files fs jobs)) !! output_file_name (stem (sql_name j)) n
    = Some sql.
Proof.
  revert fs. induction jobs as [|j0 rest IH]; intros fs Hin R.
  - now apply elem_of_nil in Hin.
  - cbn [completed] in Hin. cbn [process_files].
    destruct (rendering_of j0) as [sql0|] eqn:R0;
      [|now apply elem_of_nil in Hin].
    destruct (process_file_done fs j0 sql0 R0) as [log ->].
    set (fs1 := <[_ := sql0]> fs).
    cbn [take] in Hin. apply elem_of_cons in Hin as [-> | Hin].
    + exists (get_next_version fs (stem (sql_name j0))).
      destruct (process_files_account rest fs1) as (K & _ & _).
      destruct (process_files fs1 rest) as [[fs2 log2] r]. simpl in *.
      apply K. unfold fs1. rewrite lookup_insert_eq. congruence.
    + destruct (IH fs1 Hin R) as [n Hn]. exists n.
      now destruct (process_files fs1 rest) as [[fs2 log2] r].
Qed.

(** X18 (what the artifacts hold).  After a run, for every model file
    [<base>.sql] processed before the first failure, the output directory
    has a file named for some version of [<base>] that holds the rendering
    of the classification the service returned for that model, rendered
    under the name [<base>]. *)
Theorem artifacts_hold_renderings (semantic_dir : string) (jobs : list job)
        (fs : directory) (j : job) (base : string) :
  Forall (fun j => plain_name (stem (sql_name j)) = true) jobs ->
  j ∈ take (completed jobs) jobs ->
  sql_name j = base +:+ ".sql" -> base <> "" ->
  exists c sql n,
    reply j = Some c /\
    generate_semantic_view_sql base c base = Ok sql /\
    fst (fst (process_semantic_directory semantic_dir jobs fs))
      !! output_file_name base n = Some sql.
Proof.
  intros _ Hin E N.
  assert (R : exists sql, rendering_of j = Some sql).
  { clear E N. induction jobs as [|j0 rest IH]; [now apply elem_of_nil in Hin|].
    cbn [completed] in Hin. destruct (rendering_of j0) as [s|] eqn:R0;
      [|now apply elem_of_nil in Hin].
    cbn [take] in Hin. apply elem_of_cons in Hin as [-> | Hin]; eauto. }
  destruct R as [sql R].
  destruct (rendering_of_sql_name j base sql E N R) as (c & Hc & G).
  destruct (process_files_artifacts jobs fs j sql Hin R) as [n Hn].
  rewrite E, (stem_sql base N) in Hn.
  exists c, sql, n. split; [exact Hc|]. split; [exact G|].
  now destruct (process_directory_files semantic_dir jobs fs) as [-> _].
Qed.

Lemma artifacts_hold_renderings_witness :
  exists c sql n,
    reply orders_job = Some c /\
    generate_semantic_view_sql "orders" c "orders" = Ok sql /\
    fst (fst (process_semantic_directory "models/shop/semantic"
                [orders_job; broken_job] ∅))
      !! output_file_name "orders" n = Some sql.
Proof.
  apply (artifacts_hold_renderings "models/shop/semantic"
           [orders_job; broken_job] ∅ orders_job "orders").
  - repeat constructor.
  - apply list_elem_of_In. vm_compute. tauto.
  - reflexivity.
  - discriminate.
Defined.

(** ** The artifact, line by line *)

(** X19 (lines and parts).  When the model name, the reference name, the
    keys, the column names and the comments contain no line feed, splitting
    a rendered artifact at its line feeds gives back exactly the parts the
    generator appended, in order; so the artifact has as many lines as
    parts. *)
Theorem artifact_splits_into_parts (model_name ref_model_name : string)
        (c : classification) (out : string) :
  single_line_inputs model_name ref_model_name c = true ->
  generate_semantic_view_sql model_name c ref_model_name = Ok out ->
  sql_parts model_name c ref_model_name
  = Ok (PyStr.split (String "010" "") out) /\
  PyStr.join (String "010" "") (PyStr.split (String "010" "") out) = out.
Proof.
  intros S G. pose proof (artifact_lines _ _ _ _ S G) as P.
  split; [exact P|].
  unfold generate_semantic_view_sql in G. rewrite P in G.
  simpl in G. unfold mret, res_ret in G. congruence.
Qed.

Lemma artifact_splits_into_parts_witness :
  exists out,
    generate_semantic_view_sql "orders" orders_classification "orders" = Ok out /\
    sql_parts "orders" orders_classification "orders"
    = Ok (PyStr.split (String "010" "") out).
Proof.
  eexists.
  assert (G : generate_semantic_view_sql "orders" orders_classification "orders"
              = Ok _) by (vm_compute; reflexivity).
  split; [exact G|].
  now apply (artifact_splits_into_parts "orders" "orders" orders_classification _
               eq_refl G).
Defined.

(** * The generator on any reply *)

(** ** The join of the primary keys *)

Lemma mapM_upper_texts (l : list json) :
  forallb is_text l = true -> exists us, mapM Json.upper l = Ok us.
Proof.
  induction l as [|v l IH]; intros H; [now exists []|].
  simpl in H. apply andb_true_iff in H as [T H].
  destruct v; try discriminate. destruct (IH H) as [us E].
  exists (PyStr.upper s :: us). simpl. now rewrite E.
Qed.

Lemma mapM_upper_not_texts (l : list json) :
  forallb is_text l = false -> mapM Json.upper l = Raise AttributeError.
Proof.
  induction l as [|v l IH]; intros H; [discriminate|].
  simpl in H. destruct v; try reflexivity.
  simpl in H. simpl. now rewrite (IH H).
Qed.

Lemma chars_are_texts (s : string) : forallb is_text (Json.chars s) = true.
Proof. induction s as [|c s IH]; [reflexivity | exact IH]. Qed.

Lemma keys_are_texts (m : list (string * json)) :
  forallb is_text ((fun kv => JStr (fst kv)) <$> m) = true.
Proof. induction m as [|kv m IH]; [reflexivity | exact IH]. Qed.

Lemma pk_str_of_raises (v : json) (e : py_error) :
  keys_error v = Some e -> Reply.pk_str_of v = Raise e.
Proof.
  unfold Reply.pk_str_of.
  destruct v; simpl; try (intros [= <-]; reflexivity); try discriminate.
  destruct (forallb is_text l) eqn:T; [discriminate|].
  intros [= <-]. now rewrite (mapM_upper_not_texts l T).
Qed.

Lemma pk_str_of_returns (v : json) :
  keys_error v = None -> exists pk_str, Reply.pk_str_of v = Ok pk_str.
Proof.
  unfold Reply.pk_str_of. destruct v; simpl; try discriminate.
  - intros _. destruct (mapM_upper_texts _ (chars_are_texts s)) as [us E].
    rewrite E. simpl. eauto.
  - destruct (forallb is_text l) eqn:T; [|discriminate]. intros _.
    destruct (mapM_upper_texts l T) as [us E]. rewrite E. simpl. eauto.
  - intros _. destruct (mapM_upper_texts _ (keys_are_texts m)) as [us E].
    rewrite E. simpl. eauto.
Qed.

(** ** The comprehensions and loops over the column entries *)

Lemma getitem_type (info : json) :
  match entry_error info with
  | Some e => Json.getitem "type" info = Raise e
  | None => is_dict info = true /\ exists t, Json.getitem "type" info = Ok t
  end.
Proof.
  destruct info; simpl; try reflexivity.
  destruct (Json.lookup_key "type" m); [eauto | reflexivity].
Qed.

Lemma select_type_raises (ty : string) (items : list (string * json))
      (e : py_error) :
  first_entry_error items = Some e -> Reply.select_type ty items = Raise e.
Proof.
  unfold first_entry_error.
  induction items as [|[col info] rest IH]; [discriminate|].
  cbn [omap list_omap snd Reply.select_type]. pose proof (getitem_type info) as G.
  destruct (entry_error info) as [e'|].
  - intros [= <-]. now rewrite G.
  - destruct G as (_ & t & ->). intros H. cbn [mbind res_bind].
    now rewrite (IH H).
Qed.

Lemma select_type_returns (ty : string) (items : list (string * json)) :
  first_entry_error items = None ->
  exists l, Reply.select_type ty items = Ok l /\
            Forall (fun kv => is_dict (snd kv) = true) l.
Proof.
  unfold first_entry_error.
  induction items as [|[col info] rest IH]; [now exists []|].
  cbn [omap list_omap snd Reply.select_type]. pose proof (getitem_type info) as G.
  destruct (entry_error info) as [e'|]; [discriminate|].
  destruct G as (D & t & ->). intros H. destruct (IH H) as (l & -> & F).
  cbn [mbind res_bind]. unfold mret, res_ret.
  destruct (Json.eq_str ty t); eexists; (split; [reflexivity|]); auto.
Qed.

Section Loops.

Variable repr : json -> string.

Lemma fact_lines_returns (n i : nat) (facts : list (string * json)) :
  Forall (fun kv => is_dict (snd kv) = true) facts ->
  exists lines, Reply.fact_lines repr n i facts = Ok lines.
Proof.
  intros F. revert i. induction F as [|[col info] rest D _ IH]; intros i;
    [now exists []|].
  destruct info; try discriminate. destruct (IH (S i)) as [lines E].
  cbn [Reply.fact_lines Json.get mbind res_bind]. rewrite E. simpl. eauto.
Qed.

Lemma dimension_lines_returns (n i : nat) (dims : list (string * json)) :
  Forall (fun kv => is_dict (snd kv) = true) dims ->
  exists lines, Reply.dimension_lines repr n i dims = Ok lines.
Proof.
  intros F. revert i. induction F as [|[col info] rest D _ IH]; intros i;
    [now exists []|].
  destruct info; try discriminate. destruct (IH (S i)) as [lines E].
  cbn [Reply.dimension_lines Json.get mbind res_bind]. rewrite E. simpl. eauto.
Qed.



Lemma facts_block_returns (facts : list (string * json)) :
  Forall (fun kv => is_dict (snd kv) = true) facts ->
  exists lines, Reply.facts_block repr facts = Ok lines.
Proof.
  intros F. unfold Reply.facts_block. destruct facts as [|f facts]; [eauto|].
  destruct (fact_lines_returns (length (f :: facts)) 0 _ F) as [lines ->].
  simpl. eauto.
Qed.

Lemma dimensions_block_returns (dims : list (string * json)) :
  Forall (fun kv => is_dict (snd kv) = true) dims ->
  exists lines, Reply.dimensions_block repr dims = Ok lines.
Proof.
  intros F. unfold Reply.dimensions_block. destruct dims as [|d dims]; [eauto|].
  destruct (dimension_lines_returns (length (d :: dims)) 0 _ F) as [lines ->].
  simpl. eauto.
Qed.



End Loops.

(** ** When rendering raises *)

Section Outcome.

Variable repr : json -> string.
Variables model_name ref_model_name : string.

(** the parts of a reply that is a dict, step by step *)
Lemma sql_parts_dict (m : list (string * json)) :
  Reply.sql_parts repr model_name (JDict m) ref_model_name
  = (pk_str ← Reply.pk_str_of (keys_of m);
     items ← Json.items (columns_of m);
     facts ← Reply.select_type "FACT" items;
     facts_lines ← Reply.facts_block repr facts;
     dimensions ← Reply.select_type "DIMENSION" items;
     dimensions_lines ← Reply.dimensions_block repr dimensions;
     mret (config_block ++ Reply.tables_block ref_model_name pk_str
           ++ facts_lines ++ dimensions_lines ++ [overall_comment model_name])).
Proof.
  unfold Reply.sql_parts, keys_of, columns_of. cbn [Json.get mbind res_bind].
  destruct (Reply.pk_str_of _); [|reflexivity]. cbn [mbind res_bind].
  destruct (Json.items _) as [items|]; [|reflexivity]. cbn [mbind res_bind].
  destruct (Reply.select_type "FACT" items); [|reflexivity]. cbn [mbind res_bind].
  destruct (Reply.facts_block repr _); reflexivity.
Qed.

Lemma sql_parts_not_dict (reply : json) :
  is_dict reply = false ->
  Reply.sql_parts repr model_name reply ref_model_name = Raise AttributeError.
Proof. destruct reply; try reflexivity. discriminate. Qed.

Lemma items_outcome (v : json) :
  match columns_error v with
  | Some e =>
      Json.items v = Raise e \/
      exists items, Json.items v = Ok items /\ first_entry_error items = Some e
  | None => exists items, Json.items v = Ok items /\ first_entry_error items = None
  end.
Proof.
  destruct v; simpl; auto.
  destruct (first_entry_error m) eqn:E; eauto.
Qed.

Lemma sql_parts_outcome (reply : json) :
  match rendering_error reply with
  | Some e => Reply.sql_parts repr model_name reply ref_model_name = Raise e
  | None =>
      exists parts, Reply.sql_parts repr model_name reply ref_model_name = Ok parts
  end.
Proof.
  destruct (is_dict reply) eqn:D;
    [|rewrite (sql_parts_not_dict reply D); now destruct reply].
  destruct reply; try discriminate. rewrite sql_parts_dict.
  unfold rendering_error.
  destruct (keys_error (keys_of m)) as [e|] eqn:K.
  { now rewrite (pk_str_of_raises _ _ K). }
  destruct (pk_str_of_returns _ K) as [pk_str ->]. cbn [mbind res_bind].
  pose proof (items_outcome (columns_of m)) as I.
  destruct (columns_error (columns_of m)) as [e|].
  - destruct I as [-> | (items & -> & F)]; [reflexivity|].
    cbn [mbind res_bind]. now rewrite (select_type_raises "FACT" _ _ F).
  - destruct I as (items & -> & F). cbn [mbind res_bind].
    destruct (select_type_returns "FACT" _ F) as (facts & -> & DF).
    destruct (select_type_returns "DIMENSION" _ F) as (dims & -> & DD).
    cbn [mbind res_bind].
    destruct (facts_block_returns repr _ DF) as [fl ->].
    destruct (dimensions_block_returns repr _ DD) as [dl ->].
    cbn [mbind res_bind]. eauto.
Qed.

End Outcome.

(** X6 (when rendering raises).  Rendering raises an exception exactly in
    these cases, met in this order: the reply is not a dict
    ([AttributeError]); the primary-key value cannot be iterated, being
    [None], a boolean or a number ([TypeError]), or is a list with an item
    that is not a text ([AttributeError]); the column value is not a dict
    ([AttributeError]); some column entry is not a dict ([TypeError]) or is a
    dict without [type] ([KeyError]), the first such entry deciding.  In
    every other case an artifact is returned: the values under [type] and
    [comment] never make it raise. *)
Theorem rendering_raises_exactly (repr : json -> string)
        (model_name ref_model_name : string) (reply : json) :
  (forall e,
      Reply.generate_semantic_view_sql repr model_name reply ref_model_name
      = Raise e <-> rendering_error reply = Some e) /\
  ((exists out,
       Reply.generate_semantic_view_sql repr model_name reply ref_model_name
       = Ok out) <-> rendering_error reply = None).
Proof.
  unfold Reply.generate_semantic_view_sql.
  pose proof (sql_parts_outcome repr model_name ref_model_name reply) as O.
  destruct (rendering_error reply) as [e'|].
  - rewrite O. cbn [mbind res_bind]. split.
    + intros e. split; congruence.
    + split; [intros [out H] |]; discriminate.
  - destruct O as [parts ->]. cbn [mbind res_bind]. split.
    + intros e. split; discriminate.
    + split; [reflexivity | eauto].
Qed.

(** ** Degenerate replies *)






(** ** Letter case of the names *)

Lemma fst_upper_field (kv : string * json) : fst (upper_field kv) = fst kv.
Proof.
  unfold upper_field. destruct (String.eqb (fst kv) "primary_keys"); [reflexivity|].
  now destruct (String.eqb (fst kv) "columns").
Qed.

Lemma lookup_upper_field (k : string) (m : list (string * json)) :
  Json.lookup_key k (upper_field <$> m)
  = (fun v => snd (upper_field (k, v))) <$> Json.lookup_key k m.
Proof.
  unfold Json.lookup_key. induction m as [|[k' v] m IH]; [reflexivity|].
  rewrite fmap_cons. cbn [List.find]. rewrite fst_upper_field. cbn [fst].
  destruct (String.eqb k' k) eqn:E; [|exact IH].
  apply String.eqb_eq in E as ->. reflexivity.
Qed.

Lemma keys_of_upper (m : list (string * json)) :
  keys_of (upper_field <$> m) = upper_items (keys_of m).
Proof.
  unfold keys_of. rewrite lookup_upper_field.
  now destruct (Json.lookup_key "primary_keys" m).
Qed.

Lemma columns_of_upper (m : list (string * json)) :
  columns_of (upper_field <$> m) = upper_columns (columns_of m).
Proof.
  unfold columns_of. rewrite lookup_upper_field.
  now destruct (Json.lookup_key "columns" m).
Qed.

Lemma mapM_upper_upper (l : list json) :
  mapM Json.upper (upper_text <$> l) = mapM Json.upper l.
Proof.
  induction l as [|v l IH]; [reflexivity|].
  rewrite fmap_cons. cbn [mapM]. rewrite IH.
  destruct v; try reflexivity. cbn [upper_text Json.upper]. now rewrite upper_idem.
Qed.

Lemma pk_str_of_upper (v : json) :
  Reply.pk_str_of (upper_items v) = Reply.pk_str_of v.
Proof.
  destruct v; try reflexivity.
  unfold Reply.pk_str_of. cbn [upper_items Json.iter mbind res_bind].
  now rewrite mapM_upper_upper.
Qed.

(** with names that stay different, rebuilding the mapping under the
    upper-cased names keeps every entry at its place *)
Lemma upper_keys_from (acc m : list (string * json)) :
  NoDup ((fst <$> acc) ++ ((fun kv => PyStr.upper (fst kv)) <$> m)) ->
  foldl (fun acc kv => Json.setitem (PyStr.upper (fst kv)) (snd kv) acc) acc m
  = acc ++ ((fun kv => (PyStr.upper (fst kv), snd kv)) <$> m).
Proof.
  revert acc. induction m as [|[k v] m IH]; intros acc N.
  - now rewrite app_nil_r.
  - rewrite fmap_cons in N. cbn [foldl fst snd].
    assert (F : existsb (fun kv => String.eqb (fst kv) (PyStr.upper k)) acc = false).
    { apply not_true_is_false. intros E.
      apply existsb_exists in E as ([k' v'] & Hin & E).
      apply String.eqb_eq in E. cbn [fst] in E. subst k'.
      apply NoDup_app in N as (_ & D & _).
      apply (D (PyStr.upper k)).
      - apply list_elem_of_fmap. exists (PyStr.upper k, v').
        split; [reflexivity | now apply list_elem_of_In].
      - left. }
    replace (Json.setitem (PyStr.upper k) v acc) with (acc ++ [(PyStr.upper k, v)])
      by (unfold Json.setitem; now rewrite F).
    rewrite IH.
    + rewrite fmap_cons. cbn [fst snd]. now rewrite <- app_assoc.
    + rewrite fmap_app, <- app_assoc. exact N.
Qed.

Lemma upper_keys_distinct (m : list (string * json)) :
  NoDup ((fun kv => PyStr.upper (fst kv)) <$> m) ->
  upper_keys m = (fun kv => (PyStr.upper (fst kv), snd kv)) <$> m.
Proof. intros N. apply (upper_keys_from [] m N). Qed.

Lemma select_type_upper (ty : string) (items : list (string * json)) :
  Reply.select_type ty ((fun kv => (PyStr.upper (fst kv), snd kv)) <$> items)
  = match Reply.select_type ty items with
    | Ok l => Ok ((fun kv => (PyStr.upper (fst kv), snd kv)) <$> l)
    | Raise e => Raise e
    end.
Proof.
  induction items as [|[col info] rest IH]; [reflexivity|].
  rewrite fmap_cons. cbn [Reply.select_type fst snd].
  destruct (Json.getitem "type" info) as [t|]; [|reflexivity].
  cbn [mbind res_bind]. rewrite IH.
  destruct (Reply.select_type ty rest) as [l|]; [|reflexivity].
  cbn [mbind res_bind]. unfold mret, res_ret. now destruct (Json.eq_str ty t).
Qed.

Section UpperLoops.

Variable repr : json -> string.

Lemma fact_lines_upper (n i : nat) (facts : list (string * json)) :
  Reply.fact_lines repr n i ((fun kv => (PyStr.upper (fst kv), snd kv)) <$> facts)
  = Reply.fact_lines repr n i facts.
Proof.
  revert i. induction facts as [|[col info] rest IH]; intros i; [reflexivity|].
  rewrite fmap_cons. cbn [Reply.fact_lines fst snd].
  now rewrite IH, column_ref_upper.
Qed.

Lemma dimension_lines_upper (n i : nat) (dims : list (string * json)) :
  Reply.dimension_lines repr n i ((fun kv => (PyStr.upper (fst kv), snd kv)) <$> dims)
  = Reply.dimension_lines repr n i dims.
Proof.
  revert i. induction dims as [|[col info] rest IH]; intros i; [reflexivity|].
  rewrite fmap_cons. cbn [Reply.dimension_lines fst snd].
  now rewrite IH, column_ref_upper.
Qed.

Lemma facts_block_upper (facts : list (string * json)) :
  Reply.facts_block repr ((fun kv => (PyStr.upper (fst kv), snd kv)) <$> facts)
  = Reply.facts_block repr facts.
Proof.
  unfold Reply.facts_block. rewrite length_fmap, fact_lines_upper.
  now destruct facts.
Qed.

Lemma dimensions_block_upper (dims : list (string * json)) :
  Reply.dimensions_block repr ((fun kv => (PyStr.upper (fst kv), snd kv)) <$> dims)
  = Reply.dimensions_block repr dims.
Proof.
  unfold Reply.dimensions_block. rewrite length_fmap, dimension_lines_upper.
  now destruct dims.
Qed.

Lemma columns_upper (model_name : string) (pk_lines : list string)
      (items : list (string * json)) :
  (facts ← Reply.select_type "FACT"
             ((fun kv => (PyStr.upper (fst kv), snd kv)) <$> items);
   facts_lines ← Reply.facts_block repr facts;
   dimensions ← Reply.select_type "DIMENSION"
                  ((fun kv => (PyStr.upper (fst kv), snd kv)) <$> items);
   dimensions_lines ← Reply.dimensions_block repr dimensions;
   mret (pk_lines ++ facts_lines ++ dimensions_lines ++ [overall_comment model_name]))
  = (facts ← Reply.select_type "FACT" items;
     facts_lines ← Reply.facts_block repr facts;
     dimensions ← Reply.select_type "DIMENSION" items;
     dimensions_lines ← Reply.dimensions_block repr dimensions;
     mret (pk_lines ++ facts_lines ++ dimensions_lines ++ [overall_comment model_name])).
Proof.
  rewrite !select_type_upper.
  destruct (Reply.select_type "FACT" items) as [facts|]; [|reflexivity].
  cbn [mbind res_bind]. rewrite facts_block_upper.
  destruct (Reply.facts_block repr facts) as [fl|]; [|reflexivity].
  cbn [mbind res_bind].
  destruct (Reply.select_type "DIMENSION" items) as [dims|]; [|reflexivity].
  cbn [mbind res_bind]. now rewrite dimensions_block_upper.
Qed.

End UpperLoops.

(** X9 (letter case of the names does not matter).  Take a reply whose
    column names stay pairwise different when put in upper case.  Rendering
    gives the same result, be it an artifact or an exception, for the reply
    and for the reply with all key and column names in upper case. *)
Theorem rendering_ignores_name_case (repr : json -> string)
        (model_name ref_model_name : string) (reply : json) :
  distinct_in_upper_case reply = true ->
  Reply.generate_semantic_view_sql repr model_name (upper_names reply) ref_model_name
  = Reply.generate_semantic_view_sql repr model_name reply ref_model_name.
Proof.
  intros D. destruct reply; try reflexivity.
  unfold Reply.generate_semantic_view_sql. f_equal.
  cbn [upper_names]. rewrite !sql_parts_dict, keys_of_upper, columns_of_upper.
  rewrite pk_str_of_upper.
  destruct (Reply.pk_str_of (keys_of m)) as [pk_str|]; [|reflexivity].
  cbn [mbind res_bind].
  assert (I : Json.items (upper_columns (columns_of m))
              = match Json.items (columns_of m) with
                | Ok items => Ok ((fun kv => (PyStr.upper (fst kv), snd kv)) <$> items)
                | Raise e => Raise e
                end).
  { unfold columns_of. cbn [distinct_in_upper_case] in D.
    destruct (Json.lookup_key "columns" m) as [v|]; [|reflexivity].
    destruct v; try reflexivity.
    cbn [default from_option id upper_columns Json.items]. f_equal.
    apply upper_keys_distinct. now apply bool_decide_eq_true in D. }
  rewrite I. destruct (Json.items (columns_of m)) as [items|]; [|reflexivity].
  cbn [mbind res_bind].
  apply (columns_upper repr model_name
           (config_block ++ Reply.tables_block ref_model_name pk_str) items).
Qed.

Lemma rendering_ignores_name_case_witness :
  Reply.generate_semantic_view_sql sample_repr "orders" (upper_names orders_reply)
                                   "orders"
  = Reply.generate_semantic_view_sql sample_repr "orders" orders_reply "orders".
Proof. apply (rendering_ignores_name_case sample_repr). reflexivity. Defined.

(** Without that condition the property fails: of two names that differ in
    letter case only, the rebuilt mapping keeps one entry. *)
Lemma name_case_clash :
  distinct_in_upper_case case_clash_reply = false /\
  (Reply.generate_semantic_view_sql sample_repr "m" (upper_names case_clash_reply) "m"
   <> Reply.generate_semantic_view_sql sample_repr "m" case_clash_reply "m").
Proof. split; [reflexivity|]. vm_compute. discriminate. Qed.

(** ** Replies of the shape the prompt asks for *)

Lemma mapM_upper_strs (pks : list string) :
  mapM Json.upper (JStr <$> pks) = Ok (PyStr.upper <$> pks).
Proof.
  induction pks as [|k pks IH]; [reflexivity|].
  rewrite !fmap_cons. cbn [mapM Json.upper mbind res_bind]. now rewrite IH.
Qed.

Lemma select_type_reply_of (ty : string) (items : list (string * column_info)) :
  Reply.select_type ty ((fun ci => (fst ci, reply_of_info (snd ci))) <$> items)
  = match select_type ty items with
    | Ok l => Ok ((fun ci => (fst ci, reply_of_info (snd ci))) <$> l)
    | Raise e => Raise e
    end.
Proof.
  induction items as [|[col [t c]] rest IH]; [reflexivity|].
  rewrite fmap_cons. cbn [Reply.select_type select_type fst snd info_type].
  destruct t as [t|]; [|now destruct c].
  replace (Json.getitem "type" (reply_of_info (ColumnInfo (Some t) c)))
    with (Ok (JStr t)) by (now destruct c).
  cbn [mbind res_bind]. rewrite IH.
  destruct (select_type ty rest) as [l|]; [|reflexivity].
  cbn [mbind res_bind Json.eq_str]. unfold mret, res_ret.
  now destruct (String.eqb t ty).
Qed.

Section Typed.

Variable repr : json -> string.

Lemma comment_reply_of (i : column_info) :
  Json.get "comment" (JStr "") (reply_of_info i)
  = Ok (JStr (default "" (info_comment i))).
Proof. now destruct i as [[t|] [c|]]. Qed.

Lemma fact_lines_reply_of (n i : nat) (facts : list (string * column_info)) :
  Reply.fact_lines repr n i ((fun ci => (fst ci, reply_of_info (snd ci))) <$> facts)
  = Ok (fact_lines n i facts).
Proof.
  revert i. induction facts as [|[col info] rest IH]; intros i; [reflexivity|].
  rewrite fmap_cons. cbn [Reply.fact_lines fact_lines fst snd].
  rewrite comment_reply_of. cbn [mbind res_bind]. now rewrite IH.
Qed.

Lemma dimension_lines_reply_of (n i : nat) (dims : list (string * column_info)) :
  Reply.dimension_lines repr n i
    ((fun ci => (fst ci, reply_of_info (snd ci))) <$> dims)
  = Ok (dimension_lines n i dims).
Proof.
  revert i. induction dims as [|[col info] rest IH]; intros i; [reflexivity|].
  rewrite fmap_cons. cbn [Reply.dimension_lines dimension_lines fst snd].
  rewrite comment_reply_of. cbn [mbind res_bind]. rewrite IH.
  cbn [mbind res_bind Json.truthy Reply.format]. unfold mret, res_ret.
  now destruct (PyStr.is_empty (default "" (info_comment info))).
Qed.

Lemma facts_block_reply_of (facts : list (string * column_info)) :
  Reply.facts_block repr ((fun ci => (fst ci, reply_of_info (snd ci))) <$> facts)
  = Ok (facts_block facts).
Proof.
  unfold Reply.facts_block, facts_block.
  rewrite length_fmap, fact_lines_reply_of. now destruct facts.
Qed.

Lemma dimensions_block_reply_of (dims : list (string * column_info)) :
  Reply.dimensions_block repr ((fun ci => (fst ci, reply_of_info (snd ci))) <$> dims)
  = Ok (dimensions_block dims).
Proof.
  unfold Reply.dimensions_block, dimensions_block.
  rewrite length_fmap, dimension_lines_reply_of. now destruct dims.
Qed.

Lemma keys_of_reply_of (c : classification) :
  keys_of (match reply_of c with JDict m => m | _ => [] end)
  = JList (JStr <$> default [] (primary_keys c)).
Proof. now destruct c as [[pks|] [items|]]. Qed.

Lemma columns_of_reply_of (c : classification) :
  columns_of (match reply_of c with JDict m => m | _ => [] end)
  = JDict ((fun ci => (fst ci, reply_of_info (snd ci))) <$> default [] (columns c)).
Proof. now destruct c as [[pks|] [items|]]. Qed.

(** On the reply a typed classification is decoded from, the generator is
    the generator on typed classifications. *)
Lemma sql_parts_reply_of (model_name ref_model_name : string) (c : classification) :
  Reply.sql_parts repr model_name (reply_of c) ref_model_name
  = sql_parts model_name c ref_model_name.
Proof.
  change (reply_of c) with (JDict (match reply_of c with JDict m => m | _ => [] end)).
  rewrite sql_parts_dict, keys_of_reply_of, columns_of_reply_of.
  unfold Reply.pk_str_of, sql_parts.
  cbn [Json.iter Json.items mbind res_bind]. rewrite mapM_upper_strs.
  cbn [mbind res_bind]. rewrite !select_type_reply_of.
  destruct (select_type "FACT" _) as [facts|]; [|reflexivity].
  cbn [mbind res_bind]. rewrite facts_block_reply_of. cbn [mbind res_bind].
  destruct (select_type "DIMENSION" _) as [dims|]; [|reflexivity].
  cbn [mbind res_bind]. rewrite dimensions_block_reply_of. reflexivity.
Qed.

Lemma generate_reply_of (model_name ref_model_name : string) (c : classification) :
  Reply.generate_semantic_view_sql repr model_name (reply_of c) ref_model_name
  = generate_semantic_view_sql model_name c ref_model_name.
Proof.
  unfold Reply.generate_semantic_view_sql, generate_semantic_view_sql.
  now rewrite sql_parts_reply_of.
Qed.

End Typed.
